(** * The profile / user-administration controller

    A shallow embedding of the Express handlers of the user controller
    (getProfile, updateProfile, changePassword, deactivateMe,
    findUsersByEmails, getAllUsers, updateUserById, deleteUserById,
    getUserById) together with the part of the JavaScript value semantics
    and of the document store they rely on.

    Handlers are written in a small state-and-exit monad: the state is the
    document store plus the log of the queries issued so far, and an early
    [return next(err)] or [res.status(..).json(..)] leaves the handler with
    an outcome. *)

From Stdlib Require Import ZArith List String Ascii Bool Lia DecimalString.
Import ListNotations.
Local Open Scope string_scope.
Set Warnings "-register-all".

(** ** JavaScript values *)

Module JS.

(** The values a parsed JSON body or a stored document can hold.  Numbers
    are the integral ones; strings are sequences of code units below 256. *)
Inductive jsval : Type :=
| JUndefined
| JNull
| JBool (b : bool)
| JNum (n : Z)
| JStr (s : string)
| JArr (elems : list jsval)
| JObj (fields : list (string * jsval)).

(** A plain object: its own properties in insertion order. *)
Definition obj := list (string * jsval).

(** ToBoolean: what [if (v)], [!v] and [v || w] test. *)
Definition truthy (v : jsval) : bool :=
  match v with
  | JUndefined | JNull => false
  | JBool b => b
  | JNum n => negb (Z.eqb n 0)
  | JStr s => negb (String.eqb s "")
  | JArr _ | JObj _ => true
  end.

(** [a || b] *)
Definition or (a b : jsval) : jsval := if truthy a then a else b.

(** [a === b] for two values that were built separately: primitives are
    compared by value, two arrays or two objects are never the same
    reference. *)
Definition strict_eq (a b : jsval) : bool :=
  match a, b with
  | JUndefined, JUndefined => true
  | JNull, JNull => true
  | JBool x, JBool y => Bool.eqb x y
  | JNum x, JNum y => Z.eqb x y
  | JStr x, JStr y => String.eqb x y
  | _, _ => false
  end.

(** [o[k]] on a plain object *)
Fixpoint lookup (k : string) (o : obj) : jsval :=
  match o with
  | [] => JUndefined
  | (k', v) :: rest => if String.eqb k k' then v else lookup k rest
  end.

Fixpoint has_key (k : string) (o : obj) : bool :=
  match o with
  | [] => false
  | (k', _) :: rest => if String.eqb k k' then true else has_key k rest
  end.

(** [o[k] = v]: an existing property keeps its place, a new one is added
    at the end. *)
Fixpoint set (k : string) (v : jsval) (o : obj) : obj :=
  match o with
  | [] => [(k, v)]
  | (k', v') :: rest =>
      if String.eqb k k' then (k', v) :: rest else (k', v') :: set k v rest
  end.

(** [delete o[k]] *)
Fixpoint del (k : string) (o : obj) : obj :=
  match o with
  | [] => []
  | (k', v') :: rest =>
      if String.eqb k k' then del k rest else (k', v') :: del k rest
  end.

(** [Object.keys(o)] *)
Definition keys (o : obj) : list string := map fst o.

(** [v.k] where [v] is neither [undefined] nor [null]; the named
    properties read by the controller are never the built-in ones of
    strings and arrays, so these have none of them. *)
Definition get (v : jsval) (k : string) : jsval :=
  match v with
  | JObj o => lookup k o
  | _ => JUndefined
  end.

(** [v.k] in general: reading a property of [undefined] or [null] throws a
    TypeError, rendered as [None]. *)
Definition member (v : jsval) (k : string) : option jsval :=
  match v with
  | JUndefined | JNull => None
  | _ => Some (get v k)
  end.

(** [arr.includes(x)] over values built separately from [x]. *)
Definition includes (l : list jsval) (x : jsval) : bool :=
  existsb (fun y => strict_eq y x) l.

(** [list.includes(k)] on an array of string literals *)
Definition includes_str (l : list string) (k : string) : bool :=
  existsb (String.eqb k) l.

Definition string_of_Z (n : Z) : string := NilZero.string_of_int (Z.to_int n).

(** [arr.join(sep)] once every element is a string *)
Fixpoint join (sep : string) (l : list string) : string :=
  match l with
  | [] => ""
  | [s] => s
  | s :: rest => s ++ sep ++ join sep rest
  end.

(** ToString, as applied by template literals and by [RegExp.test].  A
    number is printed as its decimal digits, which is its ToString as
    long as it is a safe integer ([safe_numbers] below); beyond 2^53 the
    digits need not be these, and from 1e21 on the exponent notation is
    used. *)
Fixpoint toString (v : jsval) : string :=
  match v with
  | JUndefined => "undefined"
  | JNull => "null"
  | JBool true => "true"
  | JBool false => "false"
  | JNum n => string_of_Z n
  | JStr s => s
  | JArr l =>
      join "," (map (fun x => match x with
                              | JUndefined | JNull => ""
                              | _ => toString x
                              end) l)
  | JObj _ => "[object Object]"
  end.

(** [arr.join(sep)]: [undefined] and [null] elements give the empty
    string, the others their ToString. *)
Definition array_join (sep : string) (l : list jsval) : string :=
  join sep (map (fun x => match x with
                          | JUndefined | JNull => ""
                          | _ => toString x
                          end) l).

(** [Array.isArray(v)] *)
Definition isArray (v : jsval) : bool :=
  match v with JArr _ => true | _ => false end.

(** The elements of an array value. *)
Definition elements (v : jsval) : list jsval :=
  match v with JArr l => l | _ => [] end.

(** White space and line terminators among the code units below 256:
    TAB, LF, VT, FF, CR, SP and NBSP. *)
Definition is_space (c : ascii) : bool :=
  let n := nat_of_ascii c in
  ((9 <=? n) && (n <=? 13) || (n =? 32) || (n =? 160))%nat.

Fixpoint trim_start (s : string) : string :=
  match s with
  | EmptyString => EmptyString
  | String c rest => if is_space c then trim_start rest else s
  end.

Fixpoint rev_string (acc s : string) : string :=
  match s with
  | EmptyString => acc
  | String c rest => rev_string (String c acc) rest
  end.

(** [s.trim()] *)
Definition trim (s : string) : string :=
  rev_string "" (trim_start (rev_string "" (trim_start s))).

End JS.
Import JS.

(** ** Regular expressions

    Anchored matching by derivatives, enough for the pattern the
    controller tests e-mail addresses with. *)

Module Regex.

Inductive re : Type :=
| Void
| Eps
| Class (p : ascii -> bool)
| Seq (r1 r2 : re)
| Alt (r1 r2 : re)
| Star (r : re)
| Plus (r : re).

Fixpoint nullable (r : re) : bool :=
  match r with
  | Void => false
  | Eps => true
  | Class _ => false
  | Seq r1 r2 => nullable r1 && nullable r2
  | Alt r1 r2 => nullable r1 || nullable r2
  | Star _ => true
  | Plus r => nullable r
  end.

Fixpoint deriv (c : ascii) (r : re) : re :=
  match r with
  | Void | Eps => Void
  | Class p => if p c then Eps else Void
  | Seq r1 r2 =>
      if nullable r1
      then Alt (Seq (deriv c r1) r2) (deriv c r2)
      else Seq (deriv c r1) r2
  | Alt r1 r2 => Alt (deriv c r1) (deriv c r2)
  | Star r => Seq (deriv c r) (Star r)
  | Plus r => Seq (deriv c r) (Star r)
  end.

(** [/^r$/.test(s)] *)
Fixpoint test (r : re) (s : string) : bool :=
  match s with
  | EmptyString => nullable r
  | String c rest => test (deriv c r) rest
  end.

Definition chr (a : ascii) : re := Class (Ascii.eqb a).

End Regex.

(** ** The document store *)

Module Mongo.

(** The two collections the controller queries.  A document is the object
    of its fields; ids are held in [_id].  Schema casting, defaults and
    validators are declared with the models, not in the controller: the
    store applies an update as it is given. *)
Record store : Type := {
  Users : list obj;
  Skills : list obj
}.

(** A condition on one field of a filter: [{ k: v }] or
    [{ k: { $in: vs } }]. *)
Inductive cond : Type :=
| Is (v : jsval)
| AnyOf (vs : list jsval).

Definition filter_doc : Type := list (string * cond).

(** The queries a handler sends, in the order it sends them. *)
Inductive dbop : Type :=
| UserFindById (id : jsval)
| UserFind (q : filter_doc)
| UserFindByIdAndUpdate (id : jsval) (update : obj)
| UserSave (doc : obj)
| UserFindByIdAndDelete (id : jsval)
| SkillFindOne (q : filter_doc)
| SkillPopulate.

(** Whether a query reads or writes the user collection. *)
Definition on_users (op : dbop) : bool :=
  match op with
  | SkillFindOne _ | SkillPopulate => false
  | _ => true
  end.

(** Equality condition [{ field: q }] on a scalar field.  [null] also
    matches an absent field; [undefined], arrays and objects select
    nothing.  This is the reading of a condition whose value is a string
    or a boolean of the type of the path, as the controller builds them
    from its own constants, from [req.user] and from strings of the body.
    A value that Mongoose would cast to the type of the path (a number
    for a String path) or read as an operator (an object with [$] keys)
    is not described by it; the statements that depend on a match take
    the value to be a string. *)
Definition matches (stored q : jsval) : bool :=
  match q with
  | JNull => match stored with JNull | JUndefined => true | _ => false end
  | JBool _ | JNum _ | JStr _ => strict_eq stored q
  | JUndefined | JArr _ | JObj _ => false
  end.

(** The document has this [_id].  Ids are held as the strings ObjectIds
    print as and compared as such.  Mongoose casts the id of a query to
    an ObjectId first, which ignores the case of the hexadecimal digits:
    the comparison of strings is the comparison of ids when the id of
    the query is in the printed form, as [req.user._id] is, and as
    [canonical_id] below requires of a request id. *)
Definition has_id (id : jsval) (d : obj) : bool := matches (lookup "_id" d) id.

Definition holds (d : obj) (kc : string * cond) : bool :=
  match snd kc with
  | Is v => matches (lookup (fst kc) d) v
  | AnyOf vs => existsb (matches (lookup (fst kc) d)) vs
  end.

(** Whether document [d] passes filter [q]. *)
Definition satisfies (q : filter_doc) (d : obj) : bool := forallb (holds d) q.

Fixpoint update_first (p : obj -> bool) (f : obj -> obj) (l : list obj)
  : list obj :=
  match l with
  | [] => []
  | d :: rest => if p d then f d :: rest else d :: update_first p f rest
  end.

Fixpoint remove_first (p : obj -> bool) (l : list obj) : list obj :=
  match l with
  | [] => []
  | d :: rest => if p d then rest else d :: remove_first p rest
  end.

(** The update document [{ k1: v1, ... }] applied to [d]. *)
Definition assign (update : obj) (d : obj) : obj :=
  fold_left (fun acc kv => set (fst kv) (snd kv) acc) update d.

(** [.select('-k1 -k2 ...')] *)
Definition select_minus (ks : list string) (d : obj) : obj :=
  fold_right del d ks.

(** [.select('k1 k2 ...')] *)
Definition select_only (ks : list string) (d : obj) : obj :=
  filter (fun kv => includes_str ks (fst kv)) d.

End Mongo.
Import Mongo.

(** ** Handlers as state-and-exit computations *)

(** What the error middleware receives through [next(err)]: an
    application error with its message and status code, or an exception
    caught by the handler's [try]. *)
Inductive error : Type :=
| AppError (message : string) (statusCode : Z)
| TypeError.

(** How a handler ends: [res.status(c).json(b)] or [next(err)]. *)
Inductive outcome : Type :=
| Json (status : Z) (body : jsval)
| Next (err : error).

Record world : Type := {
  db : store;
  log : list dbop
}.

Inductive step (A : Type) : Type :=
| Val (a : A)
| Exit (o : outcome).
Arguments Val {A} a.
Arguments Exit {A} o.

Definition M (A : Type) : Type := world -> step A * world.

Definition ret {A} (a : A) : M A := fun w => (Val a, w).

Definition bind {A B} (m : M A) (k : A -> M B) : M B :=
  fun w => match m w with
           | (Val a, w') => k a w'
           | (Exit o, w') => (Exit o, w')
           end.

Notation "x <- m ;; k" := (bind m (fun x => k))
  (at level 61, m at next level, right associativity).
Notation "m ;;; k" := (bind m (fun _ => k))
  (at level 61, right associativity).

Definition exit {A} (o : outcome) : M A := fun w => (Exit o, w).

(** [return next(err)] *)
Definition next {A} (e : error) : M A := exit (Next e).

(** [return res.status(c).json(b)] *)
Definition respond {A} (c : Z) (b : jsval) : M A := exit (Json c b).

(** An exception inside [try { ... } catch (err) { next(err) }]. *)
Definition throw {A} (e : error) : M A := next e.

Definition query {A} (op : dbop) (f : store -> A * store) : M A :=
  fun w => let (a, s) := f (db w) in
           (Val a, {| db := s; log := log w ++ [op] |}).

Fixpoint for_each {A} (l : list A) (f : A -> M unit) : M unit :=
  match l with
  | [] => ret tt
  | x :: rest => f x ;;; for_each rest f
  end.

(** [v.k] with the TypeError of a missing receiver. *)
Definition prop (v : jsval) (k : string) : M jsval :=
  match member v k with
  | Some x => ret x
  | None => throw TypeError
  end.

(** [v.trim()] *)
Definition call_trim (v : jsval) : M jsval :=
  match v with
  | JStr s => ret (JStr (trim s))
  | _ => throw TypeError
  end.

(** [v.toString()] *)
Definition call_toString (v : jsval) : M string :=
  match v with
  | JUndefined | JNull => throw TypeError
  | _ => ret (toString v)
  end.

(** A handler always ends with an outcome. *)
Definition handler : Type := M Empty_set.

Record result : Type := {
  res : outcome;
  store_after : store;
  trace : list dbop
}.

(** The handler carried on from world [w]. *)
Definition finish (h : handler) (w : world) : result :=
  match h w with
  | (Exit o, w') => {| res := o; store_after := db w'; trace := log w' |}
  | (Val e, _) => match e with end
  end.

(** A request served on store [s]. *)
Definition run (h : handler) (s : store) : result :=
  finish h {| db := s; log := [] |}.

(** ** What the controller imports

    The model methods, the ObjectId check, the Date constructor and the
    token signer are not part of the controller; they are taken as given. *)
Record runtime : Type := {
  (** [mongoose.Types.ObjectId.isValid(id)] *)
  isValidObjectId : string -> bool;
  (** [new Date(v)]: its time value, [None] for an Invalid Date *)
  newDate : jsval -> option Z;
  (** [user.correctPassword(candidate, stored)] *)
  correctPassword : jsval -> jsval -> bool;
  (** [jsonwebtoken.sign(payload, JWT_SECRET, { expiresIn })] *)
  jwtSign : jsval -> jsval;
  (** what [.populate('skills')] puts in place of the stored [skills],
      given the Skill collection *)
  populated : list obj -> jsval -> jsval
}.

(** The part of an Express request the handlers read, with the clock
    value [Date.now()] returns while it is served. *)
Record request : Type := {
  req_user : obj;
  req_body : obj;
  req_params_id : string;
  req_now : Z
}.

Module User.

Definition findById (id : jsval) : M (option obj) :=
  query (UserFindById id) (fun s => (List.find (has_id id) (Users s), s)).

Definition find (q : filter_doc) : M (list obj) :=
  query (UserFind q) (fun s => (filter (satisfies q) (Users s), s)).

(** [findByIdAndUpdate(id, update, { new: true })] *)
Definition findByIdAndUpdate (id : jsval) (update : obj) : M (option obj) :=
  query (UserFindByIdAndUpdate id update)
    (fun s =>
       (option_map (assign update) (List.find (has_id id) (Users s)),
        {| Users := update_first (has_id id) (assign update) (Users s);
           Skills := Skills s |})).

Definition findByIdAndDelete (id : jsval) : M unit :=
  query (UserFindByIdAndDelete id)
    (fun s => (tt, {| Users := remove_first (has_id id) (Users s);
                      Skills := Skills s |})).

(** [doc.save()] of a document loaded from the collection *)
Definition save (doc : obj) : M unit :=
  query (UserSave doc)
    (fun s => (tt, {| Users := update_first (has_id (lookup "_id" doc))
                                 (fun _ => doc) (Users s);
                      Skills := Skills s |})).

(** [.populate('skills')] on one document *)
Definition populate_doc (rt : runtime) (sk : list obj) (d : obj) : obj :=
  if has_key "skills" d
  then set "skills" (populated rt sk (lookup "skills" d)) d
  else d.

Definition populate (rt : runtime) (d : obj) : M obj :=
  query SkillPopulate (fun s => (populate_doc rt (Skills s) d, s)).

(** the same on the result of a [find] *)
Definition populate_all (rt : runtime) (ds : list obj) : M (list obj) :=
  query SkillPopulate (fun s => (map (populate_doc rt (Skills s)) ds, s)).

End User.

Module Skill.

Definition findOne (q : filter_doc) : M (option obj) :=
  query (SkillFindOne q) (fun s => (List.find (satisfies q) (Skills s), s)).

End Skill.

(** ** The controller *)

Definition str (s : string) : jsval := JStr s.

(** The fields [.select('-password -passwordResetToken
    -passwordResetExpires')] leaves out. *)
Definition hidden : list string :=
  ["password"; "passwordResetToken"; "passwordResetExpires"].

Definition defaultAvailability : jsval :=
  JObj [("status", str "available"); ("willingToJoin", JBool true)].

(** [Object.keys(body).forEach(k => { if (allow.includes(k)) out[k] =
    body[k]; })] starting from [out = {}] *)
Definition pick (allow : list string) (body : obj) : obj :=
  fold_left
    (fun out k => if includes_str allow k then set k (lookup k body) out
                  else out)
    (keys body) [].

Definition getProfile (req : request) : handler :=
  found <- User.findById (lookup "_id" (req_user req)) ;;
  match option_map (select_minus hidden) found with
  | None => next (AppError "User not found." 404)
  | Some user =>
      hasPassword <-
        (if truthy (lookup "password" user)
         then trimmed <- call_trim (lookup "password" user) ;;
              ret (truthy trimmed)
         else ret false) ;;
      startDate <- prop (lookup "expectedWorkDuration" user) "startDate" ;;
      endDate <- prop (lookup "expectedWorkDuration" user) "endDate" ;;
      respond 200
        (JObj
           [("status", str "success");
            ("data",
             JObj
               [("user",
                 JObj
                   [("id", lookup "_id" user);
                    ("fullname", or (lookup "fullname" user) (str ""));
                    ("username", or (lookup "username" user) (str ""));
                    ("email", lookup "email" user);
                    ("role", lookup "role" user);
                    ("avatar", or (lookup "avatar" user) JNull);
                    ("skills", or (lookup "skills" user) (JArr []));
                    ("about", or (lookup "about" user) (str ""));
                    ("experience", or (lookup "experience" user) (str ""));
                    ("yearOfExperience",
                     or (lookup "yearOfExperience" user) (JNum 0));
                    ("availability",
                     or (lookup "availability" user) defaultAvailability);
                    ("expectedWorkDuration",
                     JObj [("startDate", startDate); ("endDate", endDate)]);
                    ("hasPassword", JBool hasPassword);
                    ("googleId", lookup "googleId" user)])])])
  end.

Definition allowed : list string :=
  ["fullname"; "username"; "email"; "avatar"; "skills"; "about";
   "experience"; "yearOfExperience"; "availability"; "expectedWorkDuration"].

(** The body of the loop over [filtered.skills]. *)
Definition checkSkill (val : jsval) : M unit :=
  skill <- Skill.findOne [("value", Is val)] ;;
  match skill with
  | None => next (AppError ("Skill not found: " ++ toString val) 404)
  | Some _ => ret tt
  end.

(** Step 1 of updateProfile: every value of [filtered.skills] must be the
    [value] of a Skill document. *)
Definition validateSkills (filtered : obj) : M unit :=
  if truthy (lookup "skills" filtered) then
    if negb (isArray (lookup "skills" filtered)) then
      next (AppError "Skills must be an array of skill values." 400)
    else
      for_each (elements (lookup "skills" filtered)) checkSkill
  else ret tt.

(** Step 3 of updateProfile: both dates must be valid and ordered. *)
Definition validateDuration (rt : runtime) (filtered : obj) : M unit :=
  if truthy (lookup "expectedWorkDuration" filtered) then
    let startDate := get (lookup "expectedWorkDuration" filtered) "startDate" in
    let endDate := get (lookup "expectedWorkDuration" filtered) "endDate" in
    match newDate rt startDate, newDate rt endDate with
    | Some s, Some e =>
        if (s >? e)%Z then
          next (AppError "Start date must be before or equal to end date." 400)
        else ret tt
    | _, _ => next (AppError "Invalid start or end date." 400)
    end
  else ret tt.

(** Steps 4 and 5 of updateProfile: one update of the caller's document,
    answered in the shape of getProfile. *)
Definition performUpdate (req : request) (filtered : obj) : handler :=
  found <- User.findByIdAndUpdate (lookup "_id" (req_user req)) filtered ;;
  match option_map (select_minus hidden) found with
  | None => next (AppError "User not found." 404)
  | Some updated =>
      startDate <- prop (lookup "expectedWorkDuration" updated) "startDate" ;;
      endDate <- prop (lookup "expectedWorkDuration" updated) "endDate" ;;
      respond 200
        (JObj
           [("status", str "success");
            ("data",
             JObj
               [("user",
                 JObj
                   [("id", lookup "_id" updated);
                    ("fullname", or (lookup "fullname" updated) (str ""));
                    ("username", or (lookup "username" updated) (str ""));
                    ("email", lookup "email" updated);
                    ("role", lookup "role" updated);
                    ("avatar", or (lookup "avatar" updated) JNull);
                    ("skills", or (lookup "skills" updated) (JArr []));
                    ("about", or (lookup "about" updated) (str ""));
                    ("experience",
                     or (lookup "experience" updated) (str ""));
                    ("yearOfExperience",
                     or (lookup "yearOfExperience" updated) (JNum 0));
                    ("availability",
                     or (lookup "availability" updated) defaultAvailability);
                    ("expectedWorkDuration",
                     JObj [("startDate", startDate);
                           ("endDate", endDate)])])])])
  end.

Definition updateProfile (rt : runtime) (req : request) : handler :=
  if truthy (or (lookup "password" (req_body req))
                (lookup "role" (req_body req)))
  then next (AppError "This route is not for password or role updates." 400)
  else
    let filtered := pick allowed (req_body req) in
    validateSkills filtered ;;;
    validateDuration rt filtered ;;;
    performUpdate req filtered.

Definition changePassword (rt : runtime) (req : request) : handler :=
  let currentPassword := lookup "currentPassword" (req_body req) in
  let newPassword := lookup "newPassword" (req_body req) in
  let passwordConfirm := lookup "passwordConfirm" (req_body req) in
  if negb (truthy currentPassword) || negb (truthy newPassword)
     || negb (truthy passwordConfirm)
  then next (AppError "All three fields are required." 400)
  else
    found <- User.findById (lookup "_id" (req_user req)) ;;
    match found with
    | None => next (AppError "User not found." 404)
    | Some user =>
        if negb (correctPassword rt currentPassword (lookup "password" user))
        then next (AppError "Your current password is incorrect." 401)
        else if negb (strict_eq newPassword passwordConfirm)
        then next (AppError "New passwords do not match." 400)
        else
          let user := set "password" newPassword user in
          let user := set "passwordChangedAt" (JNum (req_now req)) user in
          User.save user ;;;
          respond 200
            (JObj [("status", str "success");
                   ("token", jwtSign rt (JObj [("_id", lookup "_id" user)]))])
    end.

Definition deactivateMe (req : request) : handler :=
  User.findByIdAndUpdate (lookup "_id" (req_user req))
    [("isDeleted", JBool true); ("deletedAt", JNum (req_now req))] ;;;
  respond 204 (JObj [("status", str "success"); ("data", JNull)]).

(** The character class [[^\s@]] *)
Definition notSpaceAt (c : ascii) : bool :=
  negb (is_space c || Ascii.eqb c "@"%char).

(** [/^[^\s@]+@[^\s@]+\.[^\s@]+$/] *)
Definition emailRegex : Regex.re :=
  Regex.Seq (Regex.Plus (Regex.Class notSpaceAt))
    (Regex.Seq (Regex.chr "@"%char)
       (Regex.Seq (Regex.Plus (Regex.Class notSpaceAt))
          (Regex.Seq (Regex.chr "."%char)
             (Regex.Plus (Regex.Class notSpaceAt))))).

Definition errorBody (message : string) : jsval :=
  JObj [("status", str "error"); ("message", str message)].

Definition findUsersByEmails (req : request) : handler :=
  let emails := lookup "emails" (req_body req) in
  if negb (truthy emails) || negb (isArray emails)
     || (List.length (elements emails) =? 0)%nat
  then respond 400 (errorBody "Email list is required and must be an array.")
  else
    let invalidEmails :=
      filter (fun email => negb (Regex.test emailRegex (toString email)))
        (elements emails) in
    if (0 <? List.length invalidEmails)%nat
    then respond 400
           (errorBody ("Email is invalid: " ++ array_join ", " invalidEmails))
    else
      let currentUserEmail := lookup "email" (req_user req) in
      let selfInvite := includes (elements emails) currentUserEmail in
      if selfInvite
      then respond 400 (errorBody "You cannot invite yourself.")
      else
        found <- User.find [("email", AnyOf (elements emails));
                            ("isDeleted", Is (JBool false))] ;;
        let users :=
          map (select_only ["_id"; "email"; "username"; "fullname"]) found in
        let foundEmails := map (lookup "email") users in
        let notFoundEmails :=
          filter (fun email => negb (includes foundEmails email))
            (elements emails) in
        respond 200
          (JObj
             [("status", str "success");
              ("data",
               JObj
                 [("foundUsers",
                   JArr
                     (map (fun user =>
                             JObj
                               [("userId", lookup "_id" user);
                                ("email", lookup "email" user);
                                ("username", lookup "username" user);
                                ("fullname",
                                 or (lookup "fullname" user) (str ""))])
                        users));
                  ("notFoundEmails", JArr notFoundEmails)])]).

(** [req.user.role !== 'adminSystem'] *)
Definition notAdmin (req : request) : bool :=
  negb (strict_eq (lookup "role" (req_user req)) (str "adminSystem")).

Definition getAllUsers (rt : runtime) (req : request) : handler :=
  if notAdmin req then next (AppError "Admin access required." 403)
  else
    found <- User.find [("isDeleted", Is (JBool false))] ;;
    users <- User.populate_all rt (map (select_minus hidden) found) ;;
    respond 200
      (JObj
         [("status", str "success");
          ("results", JNum (Z.of_nat (List.length users)));
          ("data",
           JObj
             [("users",
               JArr
                 (map (fun u =>
                         JObj
                           [("id", lookup "_id" u);
                            ("fullname", or (lookup "fullname" u) (str ""));
                            ("username", or (lookup "username" u) (str ""));
                            ("email", lookup "email" u);
                            ("role", lookup "role" u);
                            ("skills", or (lookup "skills" u) (JArr []))])
                    users))])]).

Definition allowedFields : list string := ["role"; "isDeleted"].

Definition updateUserById (rt : runtime) (req : request) : handler :=
  if notAdmin req then next (AppError "Admin access required." 403)
  else
    let id := req_params_id req in
    if negb (isValidObjectId rt id)
    then next (AppError "Invalid user ID format." 400)
    else
      own <- call_toString (lookup "_id" (req_user req)) ;;
      if String.eqb id own && truthy (lookup "role" (req_body req))
         && negb (strict_eq (lookup "role" (req_body req)) (str "adminSystem"))
      then next (AppError "You cannot change your own role." 400)
      else
        let filteredBody := pick allowedFields (req_body req) in
        found <- User.findByIdAndUpdate (str id) filteredBody ;;
        match option_map (select_minus hidden) found with
        | None => next (AppError "User not found." 404)
        | Some selected =>
            updatedUser <- User.populate rt selected ;;
            respond 200
              (JObj
                 [("status", str "success");
                  ("data",
                   JObj
                     [("user",
                       JObj
                         [("id", lookup "_id" updatedUser);
                          ("fullname",
                           or (lookup "fullname" updatedUser) (str ""));
                          ("username",
                           or (lookup "username" updatedUser) (str ""));
                          ("email", lookup "email" updatedUser);
                          ("role", lookup "role" updatedUser);
                          ("isDeleted", lookup "isDeleted" updatedUser);
                          ("skills",
                           or (lookup "skills" updatedUser) (JArr []))])])])
        end.

Definition deleteUserById (rt : runtime) (req : request) : handler :=
  if notAdmin req then next (AppError "Admin access required." 403)
  else
    let id := req_params_id req in
    if negb (isValidObjectId rt id)
    then next (AppError "Invalid user ID format." 400)
    else
      found <- User.findById (str id) ;;
      match found with
      | None => next (AppError "User not found." 404)
      | Some user =>
          if strict_eq (lookup "role" user) (str "adminSystem")
          then next (AppError "Cannot delete another admin user." 400)
          else
            User.findByIdAndDelete (str id) ;;;
            respond 200
              (JObj [("status", str "success");
                     ("message", str "User deleted successfully.")])
      end.

Definition defaultDuration : jsval :=
  JObj [("min", JNum 0); ("max", JNum 0); ("unit", str "hours")].

Definition getUserById (rt : runtime) (req : request) : handler :=
  let id := req_params_id req in
  if negb (isValidObjectId rt id)
  then next (AppError "Invalid user ID." 400)
  else
    found <- User.findById (str id) ;;
    match option_map (select_minus hidden) found with
    | None => next (AppError "User not found." 404)
    | Some selected =>
        user <- User.populate rt selected ;;
        respond 200
          (JObj
             [("success", JBool true);
              ("data",
               JObj
                 [("user",
                   JObj
                     [("id", lookup "_id" user);
                      ("fullname", or (lookup "fullname" user) (str ""));
                      ("username", or (lookup "username" user) (str ""));
                      ("email", lookup "email" user);
                      ("role", lookup "role" user);
                      ("avatar", or (lookup "avatar" user) JNull);
                      ("skills", or (lookup "skills" user) (JArr []));
                      ("about", or (lookup "about" user) (str ""));
                      ("experience", or (lookup "experience" user) (str ""));
                      ("yearOfExperience",
                       or (lookup "yearOfExperience" user) (JNum 0));
                      ("availability",
                       or (lookup "availability" user) defaultAvailability);
                      ("expectedWorkDuration",
                       or (lookup "expectedWorkDuration" user)
                          defaultDuration);
                      ("createdAt", lookup "createdAt" user)])])])
    end.

(** The status code the client receives: the one of the JSON response, or
    the one carried by the application error. *)
Definition status_of (o : outcome) : option Z :=
  match o with
  | Json c _ => Some c
  | Next (AppError _ c) => Some c
  | Next TypeError => None
  end.

(** ** Sample data *)

Module Sample.

Definition hex (c : ascii) : bool :=
  let n := nat_of_ascii c in
  ((48 <=? n) && (n <=? 57) || (97 <=? n) && (n <=? 102))%nat.

Fixpoint all_hex (s : string) : bool :=
  match s with
  | EmptyString => true
  | String c rest => hex c && all_hex rest
  end.

Definition rt : runtime := {|
  isValidObjectId := fun s => (String.length s =? 24)%nat && all_hex s;
  newDate := fun v => match v with JNum n => Some n | _ => None end;
  correctPassword := fun candidate stored =>
    strict_eq (JStr ("hash:" ++ toString candidate)) stored;
  jwtSign := fun payload => JStr ("jwt:" ++ toString (get payload "_id"));
  populated := fun _ refs => refs
|}.

Definition adaId : string := "64b000000000000000000001".
Definition bobId : string := "64b000000000000000000002".
Definition rootId : string := "64b000000000000000000003".

Definition mkUser (id name email role pw : string) (deleted : bool) : obj :=
  [("_id", str id); ("fullname", str name); ("username", str name);
   ("email", str email); ("password", str pw); ("role", str role);
   ("skills", JArr [str "rocq"]);
   ("expectedWorkDuration",
    JObj [("startDate", JNum 10); ("endDate", JNum 20)]);
   ("isDeleted", JBool deleted)].

Definition ada : obj := mkUser adaId "ada" "ada@example.org" "userSystem" "hash:pw1" false.
Definition bob : obj := mkUser bobId "bob" "bob@example.org" "userSystem" "hash:pw2" false.
Definition root : obj := mkUser rootId "root" "root@example.org" "adminSystem" "hash:pw3" false.

Definition s0 : store := {|
  Users := [ada; bob; root];
  Skills := [[("value", str "rocq")]; [("value", str "js")]]
|}.

(** The same users with other password hashes and a pending reset. *)
Definition s0_rehashed : store := {|
  Users :=
    [set "passwordResetToken" (str "t0k3n")
       (mkUser adaId "ada" "ada@example.org" "userSystem" "hash:other" false);
     mkUser bobId "bob" "bob@example.org" "userSystem" "hash:pw9" false;
     mkUser rootId "root" "root@example.org" "adminSystem" "hash:pw3" false];
  Skills := [[("value", str "rocq")]; [("value", str "js")]]
|}.

Definition mkReq (u : obj) (b : obj) (id : string) : request :=
  {| req_user := u; req_body := b; req_params_id := id; req_now := 1000 |}.

End Sample.

(** ** Vocabulary of the properties *)

(** The body of a JSON response. *)
Definition body_of (o : outcome) : jsval :=
  match o with
  | Json _ b => b
  | Next _ => JUndefined
  end.

(** No query of the trace reads or writes the user collection. *)
Definition no_user_query (t : list dbop) : bool :=
  forallb (fun op => negb (on_users op)) t.

(** An element of [emails] that is a string passing the e-mail pattern. *)
Definition valid_email (e : jsval) : Prop :=
  exists a, e = JStr a /\ Regex.test emailRegex a = true.

(** A stored user that is not soft-deleted holds address [e]. *)
Definition active_with_email (s : store) (e : jsval) : Prop :=
  exists d, In d (Users s) /\ lookup "email" d = e
            /\ lookup "isDeleted" d = JBool false.

(** Address [e] is the [email] of an entry of [foundUsers]. *)
Definition listed (foundUsers : list jsval) (e : jsval) : Prop :=
  exists u, In u foundUsers /\ get u "email" = e.

(** The entry findUsersByEmails returns for a selected document. *)
Definition foundUser (user : obj) : jsval :=
  JObj [("userId", lookup "_id" user);
        ("email", lookup "email" user);
        ("username", lookup "username" user);
        ("fullname", or (lookup "fullname" user) (str ""))].

(** A Skill document has [v] as its [value]. *)
Definition known_skill (s : store) (v : jsval) : bool :=
  match List.find (satisfies [("value", Is v)]) (Skills s) with
  | Some _ => true
  | None => false
  end.

(** The body passes the first check of updateProfile: neither [password]
    nor [role] holds a truthy value. *)
Definition no_credentials (body : obj) : Prop :=
  truthy (lookup "password" body) = false
  /\ truthy (lookup "role" body) = false.

(** The body passes the skills step of updateProfile: no truthy [skills],
    or an array of values that are all known. *)
Definition skills_accepted (s : store) (body : obj) : Prop :=
  truthy (lookup "skills" body) = false
  \/ exists vals, lookup "skills" body = JArr vals
                  /\ forall v, In v vals -> known_skill s v = true.

(** The dates of a stored [expectedWorkDuration] are in order whenever
    both are valid dates. *)
Definition duration_ok (rt : runtime) (d : obj) : Prop :=
  forall a b,
    newDate rt (get (lookup "expectedWorkDuration" d) "startDate") = Some a ->
    newDate rt (get (lookup "expectedWorkDuration" d) "endDate") = Some b ->
    (a <= b)%Z.

(** The user objects of a response body: [data.user], and the elements
    of [data.users]. *)
Definition user_objects (body : jsval) : list jsval :=
  get (get body "data") "user" :: elements (get (get body "data") "users").

(** Object [v] has a field named [k]. *)
Definition exposes (k : string) (v : jsval) : bool :=
  match v with
  | JObj o => has_key k o
  | _ => false
  end.

(** Two stores that differ at most in the hidden fields of their user
    documents. *)
Definition same_public (s1 s2 : store) : Prop :=
  map (select_minus hidden) (Users s1) = map (select_minus hidden) (Users s2)
  /\ Skills s1 = Skills s2.

(** Endpoint [h] keeps the hidden fields to itself: no user object of a
    200 response has one of them as a field, and the outcome is the same
    on any two stores that differ only in those fields. *)
Definition discloses_nothing (h : request -> handler) : Prop :=
  forall req s,
    (forall b, res (run (h req) s) = Json 200 b ->
               forall u k, In u (user_objects b) -> In k hidden ->
                           exposes k u = false)
    /\ (forall s', same_public s s' ->
                   res (run (h req) s) = res (run (h req) s')).

(** The document stored under id [uid] is [u] and it is flagged as
    soft-deleted. *)
Definition soft_deleted (uid : string) (u : obj) (t : store) : Prop :=
  List.find (has_id (str uid)) (Users t) = Some u
  /\ lookup "isDeleted" u = JBool true.

(** Ids and e-mail addresses tell the stored users apart. *)
Definition unique_users (t : store) : Prop :=
  NoDup (map (lookup "_id") (Users t))
  /\ NoDup (map (lookup "email") (Users t)).

(** A stored user that is not soft-deleted: what the filter
    [{ isDeleted: false }] selects. *)
Definition active (d : obj) : bool :=
  strict_eq (lookup "isDeleted" d) (JBool false).

(** More sample data: a document without [expectedWorkDuration]. *)
Module Sample2.

Definition eveId : string := "64b000000000000000000004".

Definition eve : obj :=
  [("_id", str eveId); ("email", str "eve@example.org");
   ("password", str "hash:pw4"); ("role", str "userSystem");
   ("isDeleted", JBool false)].

Definition s1 : store := {|
  Users := [Sample.ada; eve; Sample.root];
  Skills := [[("value", str "rocq")]]
|}.

End Sample2.

(** ** The language of a regular expression *)

(** The strings a regular expression matches as a whole. *)
Inductive denotes : Regex.re -> string -> Prop :=
| DEps : denotes Regex.Eps ""
| DClass (p : ascii -> bool) (c : ascii) :
    p c = true -> denotes (Regex.Class p) (String c "")
| DSeq (r1 r2 : Regex.re) (s1 s2 : string) :
    denotes r1 s1 -> denotes r2 s2 -> denotes (Regex.Seq r1 r2) (s1 ++ s2)
| DAltL (r1 r2 : Regex.re) (s : string) :
    denotes r1 s -> denotes (Regex.Alt r1 r2) s
| DAltR (r1 r2 : Regex.re) (s : string) :
    denotes r2 s -> denotes (Regex.Alt r1 r2) s
| DStarNil (r : Regex.re) : denotes (Regex.Star r) ""
| DStarCons (r : Regex.re) (s1 s2 : string) :
    denotes r s1 -> denotes (Regex.Star r) s2 ->
    denotes (Regex.Star r) (s1 ++ s2)
| DPlus (r : Regex.re) (s1 s2 : string) :
    denotes r s1 -> denotes (Regex.Star r) s2 ->
    denotes (Regex.Plus r) (s1 ++ s2).

Fixpoint all_chars (p : ascii -> bool) (s : string) : bool :=
  match s with
  | EmptyString => true
  | String c rest => p c && all_chars p rest
  end.

(** A part of an address: not empty, without white space or '@'. *)
Definition address_part (x : string) : Prop :=
  x <> "" /\ all_chars notSpaceAt x = true.

(** The values that count as false: what [if (v)] sends to the else
    branch. *)
Definition falsy : list jsval :=
  [JUndefined; JNull; JBool false; JNum 0; JStr ""].

Definition lower_hex (c : ascii) : bool :=
  let n := nat_of_ascii c in
  ((48 <=? n) && (n <=? 57) || (97 <=? n) && (n <=? 102))%nat.

(** The string form of an ObjectId: 24 lower-case hexadecimal digits.
    This is what [req.user._id.toString()] gives and how a stored id
    reads.  The model matches ids as strings; Mongoose first casts a
    request id to an ObjectId, so another spelling of a stored id (with
    upper-case digits) also finds the document.  On a request id in this
    form the two agree. *)
Definition canonical_id (id : string) : bool :=
  (String.length id =? 24)%nat && all_chars lower_hex id.

Definition any_hex (c : ascii) : bool :=
  let n := nat_of_ascii c in
  (lower_hex c || (65 <=? n) && (n <=? 70))%nat.

(** A runtime whose ObjectId check accepts the 24 hexadecimal digits in
    either case, as [ObjectId.isValid] does. *)
Definition rtAnyCase : runtime := {|
  isValidObjectId :=
    fun id => (String.length id =? 24)%nat && all_chars any_hex id;
  newDate := newDate Sample.rt;
  correctPassword := correctPassword Sample.rt;
  jwtSign := jwtSign Sample.rt;
  populated := populated Sample.rt
|}.

(** No number in [v], at any depth of its arrays, leaves the range of the
    safe integers, where a number is printed as its decimal digits. *)
Fixpoint safe_numbers (v : jsval) : bool :=
  match v with
  | JNum n => (Z.abs n <? 2 ^ 53)%Z
  | JArr l => forallb safe_numbers l
  | _ => true
  end.

(** ** The workspace-creation modal *)

Module CreateWorkspaceModal.











End CreateWorkspaceModal.

(** ** Objects and collections: basic facts *)

Lemma lookup_set_same (k : string) (v : jsval) (o : obj) :
  lookup k (set k v o) = v.
Proof.
  induction o as [|[k' v'] rest IH]; simpl.
  - now rewrite String.eqb_refl.
  - destruct (String.eqb k k') eqn:E; simpl; rewrite E; auto.
Qed.

Lemma lookup_set_other (k k' : string) (v : jsval) (o : obj) :
  k <> k' -> lookup k (set k' v o) = lookup k o.
Proof.
  intros Hne. induction o as [|[k0 v0] rest IH]; simpl.
  - apply String.eqb_neq in Hne. now rewrite Hne.
  - destruct (String.eqb k' k0) eqn:E; simpl.
    + apply String.eqb_eq in E; subst k0.
      apply String.eqb_neq in Hne. now rewrite Hne.
    + now rewrite IH.
Qed.

Lemma has_key_set_other (k k' : string) (v : jsval) (o : obj) :
  k <> k' -> has_key k (set k' v o) = has_key k o.
Proof.
  intros Hne. induction o as [|[k0 v0] rest IH]; simpl.
  - apply String.eqb_neq in Hne. now rewrite Hne.
  - destruct (String.eqb k' k0) eqn:E; simpl.
    + apply String.eqb_eq in E; subst k0.
      apply String.eqb_neq in Hne. now rewrite Hne.
    + now rewrite IH.
Qed.

Lemma lookup_del_other (k k' : string) (o : obj) :
  k <> k' -> lookup k (del k' o) = lookup k o.
Proof.
  intros Hne. induction o as [|[k0 v0] rest IH]; simpl; auto.
  destruct (String.eqb k' k0) eqn:E; simpl.
  - apply String.eqb_eq in E; subst k0.
    apply String.eqb_neq in Hne. now rewrite Hne.
  - now rewrite IH.
Qed.

Lemma has_key_del_other (k k' : string) (o : obj) :
  k <> k' -> has_key k (del k' o) = has_key k o.
Proof.
  intros Hne. induction o as [|[k0 v0] rest IH]; simpl; auto.
  destruct (String.eqb k' k0) eqn:E; simpl.
  - apply String.eqb_eq in E; subst k0.
    apply String.eqb_neq in Hne. now rewrite Hne.
  - now rewrite IH.
Qed.

Lemma includes_str_false (l : list string) (k : string) :
  includes_str l k = false -> forall k', In k' l -> k <> k'.
Proof.
  unfold includes_str. intros H k' Hin ->.
  assert (existsb (String.eqb k') l = true) as E.
  { apply existsb_exists. exists k'. split; auto. apply String.eqb_refl. }
  congruence.
Qed.

(** A field that the projection does not name is read as before. *)
Lemma lookup_select_minus (ks : list string) (k : string) (d : obj) :
  includes_str ks k = false -> lookup k (select_minus ks d) = lookup k d.
Proof.
  intros H. pose proof (includes_str_false _ _ H) as Hne. clear H.
  induction ks as [|k0 ks IH]; simpl; auto.
  rewrite lookup_del_other by (apply Hne; now left).
  apply IH. intros k' Hin. apply Hne. now right.
Qed.

(** A scalar filter value selects exactly the documents holding it, up to
    the absent field that [null] also selects. *)
Lemma matches_str (stored : jsval) (a : string) :
  matches stored (JStr a) = true <-> stored = JStr a.
Proof.
  unfold matches, strict_eq. destruct stored; split; intros H;
    try discriminate; try (inversion H; subst; apply String.eqb_refl).
  apply String.eqb_eq in H. now subst.
Qed.

Lemma matches_bool (stored : jsval) (b : bool) :
  matches stored (JBool b) = true <-> stored = JBool b.
Proof.
  unfold matches, strict_eq. destruct stored; split; intros H;
    try discriminate; try (inversion H; subst; apply Bool.eqb_reflx).
  apply Bool.eqb_prop in H. now subst.
Qed.

Lemma strict_eq_str (v : jsval) (a : string) :
  strict_eq v (JStr a) = true <-> v = JStr a.
Proof.
  unfold strict_eq. destruct v; split; intros H;
    try discriminate; try (inversion H; subst; apply String.eqb_refl).
  apply String.eqb_eq in H. now subst.
Qed.

Lemma filter_none {A} (p : A -> bool) (l : list A) :
  (forall x, In x l -> p x = false) -> filter p l = [].
Proof.
  induction l as [|x l IH]; intros H; simpl; auto.
  rewrite H by now left. apply IH. intros y Hy. apply H. now right.
Qed.

(** ** The helpers on small inputs *)

Example emailRegex_accepts :
  Regex.test emailRegex "ada@example.org" = true
  /\ Regex.test emailRegex "a@b.c.d" = true.
Proof. split; reflexivity. Qed.

Example emailRegex_rejects :
  Regex.test emailRegex "a@b" = false
  /\ Regex.test emailRegex "a b@c.d" = false
  /\ Regex.test emailRegex "a@b@c.d" = false
  /\ Regex.test emailRegex "a@.c" = false
  /\ Regex.test emailRegex "" = false.
Proof. repeat split; reflexivity. Qed.

Example toString_values :
  toString (JNum (-42)) = "-42"
  /\ toString (JArr [JNum 1; JNull; JStr "x"]) = "1,,x"
  /\ toString (JObj [("a", JNum 1)]) = "[object Object]".
Proof. repeat split; reflexivity. Qed.

Example trim_spaces : trim "  a b  " = "a b".
Proof. reflexivity. Qed.

Example pick_allowed :
  pick allowed [("role", str "adminSystem"); ("about", str "hi");
                ("about", str "ignored"); ("x", JNull)]
  = [("about", str "hi")].
Proof. reflexivity. Qed.

(** ** Running a handler *)

Ltac exec :=
  unfold run, finish, bind, ret, next, throw, respond, exit, query,
    User.findById, User.find, User.findByIdAndUpdate, User.findByIdAndDelete,
    User.save, User.populate, User.populate_all, Skill.findOne; simpl.

(** ** Admin gate (C1) *)

(** C1, as the code has it: getAllUsers, updateUserById and deleteUserById
    answer a caller whose role is not 'adminSystem' with 403 before any
    query is sent, so no user document is read or modified. *)
Theorem admin_gate (rt : runtime) (req : request) (s : store) :
  notAdmin req = true ->
  (status_of (res (run (getAllUsers rt req) s)) = Some 403%Z
   /\ store_after (run (getAllUsers rt req) s) = s
   /\ trace (run (getAllUsers rt req) s) = [])
  /\ (status_of (res (run (updateUserById rt req) s)) = Some 403%Z
      /\ store_after (run (updateUserById rt req) s) = s
      /\ trace (run (updateUserById rt req) s) = [])
  /\ (status_of (res (run (deleteUserById rt req) s)) = Some 403%Z
      /\ store_after (run (deleteUserById rt req) s) = s
      /\ trace (run (deleteUserById rt req) s) = []).
Proof.
  intros H.
  unfold getAllUsers, updateUserById, deleteUserById.
  rewrite H. exec. repeat split.
Qed.

Lemma admin_gate_witness :
  (status_of (res (run (getAllUsers Sample.rt
      (Sample.mkReq Sample.ada [] Sample.bobId)) Sample.s0)) = Some 403%Z
   /\ store_after (run (getAllUsers Sample.rt
      (Sample.mkReq Sample.ada [] Sample.bobId)) Sample.s0) = Sample.s0
   /\ trace (run (getAllUsers Sample.rt
      (Sample.mkReq Sample.ada [] Sample.bobId)) Sample.s0) = [])
  /\ (status_of (res (run (updateUserById Sample.rt
        (Sample.mkReq Sample.ada [] Sample.bobId)) Sample.s0)) = Some 403%Z
      /\ store_after (run (updateUserById Sample.rt
        (Sample.mkReq Sample.ada [] Sample.bobId)) Sample.s0) = Sample.s0
      /\ trace (run (updateUserById Sample.rt
        (Sample.mkReq Sample.ada [] Sample.bobId)) Sample.s0) = [])
  /\ (status_of (res (run (deleteUserById Sample.rt
        (Sample.mkReq Sample.ada [] Sample.bobId)) Sample.s0)) = Some 403%Z
      /\ store_after (run (deleteUserById Sample.rt
        (Sample.mkReq Sample.ada [] Sample.bobId)) Sample.s0) = Sample.s0
      /\ trace (run (deleteUserById Sample.rt
        (Sample.mkReq Sample.ada [] Sample.bobId)) Sample.s0) = []).
Proof.
  apply (admin_gate Sample.rt (Sample.mkReq Sample.ada [] Sample.bobId)
           Sample.s0).
  reflexivity.
Defined.

(** getUserById has no role check: a caller with role 'userSystem' asking
    for another user's id is answered 200 with that user's profile, after
    a read of the user collection. *)
Lemma getUserById_answers_any_role :
  notAdmin (Sample.mkReq Sample.ada [] Sample.bobId) = true
  /\ status_of (res (run (getUserById Sample.rt
        (Sample.mkReq Sample.ada [] Sample.bobId)) Sample.s0)) = Some 200%Z
  /\ trace (run (getUserById Sample.rt
        (Sample.mkReq Sample.ada [] Sample.bobId)) Sample.s0)
      = [UserFindById (str Sample.bobId); SkillPopulate]
  /\ get (get (get (body_of (res (run (getUserById Sample.rt
        (Sample.mkReq Sample.ada [] Sample.bobId)) Sample.s0))) "data")
        "user") "email" = str "bob@example.org".
Proof. vm_compute. repeat split. Qed.

(** ** Self-invitation (C7) *)

(** C7: when every element of [emails] passes the e-mail pattern and one
    of them is the caller's own address, findUsersByEmails answers 400
    'You cannot invite yourself.' and sends no query. *)
Theorem self_invite_rejected (req : request) (s : store) (es : list jsval) :
  lookup "emails" (req_body req) = JArr es ->
  (forall e, In e es -> Regex.test emailRegex (toString e) = true) ->
  includes es (lookup "email" (req_user req)) = true ->
  run (findUsersByEmails req) s
  = {| res := Json 400 (errorBody "You cannot invite yourself.");
       store_after := s;
       trace := [] |}.
Proof.
  intros Hemails Hvalid Hself.
  unfold findUsersByEmails. rewrite Hemails. cbn [truthy isArray elements negb orb].
  destruct es as [|e0 es']; [discriminate Hself|].
  cbn [List.length Nat.eqb].
  assert (filter (fun email => negb (Regex.test emailRegex (toString email)))
            (e0 :: es') = []) as ->.
  { apply filter_none. intros e He. now rewrite Hvalid. }
  cbn [List.length Nat.ltb Nat.leb]. rewrite Hself. reflexivity.
Qed.

Lemma self_invite_rejected_witness :
  run (findUsersByEmails
         (Sample.mkReq Sample.ada
            [("emails", JArr [str "bob@example.org"; str "ada@example.org"])]
            ""))
      Sample.s0
  = {| res := Json 400 (errorBody "You cannot invite yourself.");
       store_after := Sample.s0;
       trace := [] |}.
Proof.
  apply (self_invite_rejected
           (Sample.mkReq Sample.ada
              [("emails", JArr [str "bob@example.org"; str "ada@example.org"])]
              "")
           Sample.s0 [str "bob@example.org"; str "ada@example.org"]).
  - reflexivity.
  - intros e [<-|[<-|[]]]; vm_compute; reflexivity.
  - vm_compute; reflexivity.
Defined.

(** ** Deleting an administrator (C8) *)

(** C8: when an admin calls deleteUserById on the id of a stored user
    whose role is 'adminSystem', the answer is 400 and the store is left
    as it was, the target still in it. *)
Theorem admin_user_not_deleted
    (rt : runtime) (req : request) (s : store) (target : obj) :
  notAdmin req = false ->
  List.find (has_id (str (req_params_id req))) (Users s) = Some target ->
  lookup "role" target = str "adminSystem" ->
  status_of (res (run (deleteUserById rt req) s)) = Some 400%Z
  /\ store_after (run (deleteUserById rt req) s) = s
  /\ In target (Users (store_after (run (deleteUserById rt req) s))).
Proof.
  intros Hadmin Hfind Hrole.
  unfold deleteUserById. rewrite Hadmin.
  destruct (isValidObjectId rt (req_params_id req)); exec.
  - rewrite Hfind, Hrole. simpl. destruct s; simpl.
    repeat split. now apply find_some in Hfind.
  - destruct s; simpl. repeat split. now apply find_some in Hfind.
Qed.

Lemma admin_user_not_deleted_witness :
  status_of (res (run (deleteUserById Sample.rt
      (Sample.mkReq Sample.root [] Sample.rootId)) Sample.s0)) = Some 400%Z
  /\ store_after (run (deleteUserById Sample.rt
      (Sample.mkReq Sample.root [] Sample.rootId)) Sample.s0) = Sample.s0
  /\ In Sample.root (Users (store_after (run (deleteUserById Sample.rt
      (Sample.mkReq Sample.root [] Sample.rootId)) Sample.s0))).
Proof.
  apply (admin_user_not_deleted Sample.rt
           (Sample.mkReq Sample.root [] Sample.rootId) Sample.s0 Sample.root);
    reflexivity.
Defined.

(** ** Changing the password (C2) *)

Lemma find_update_first (p : obj -> bool) (f : obj -> obj) (l : list obj)
    (d : obj) :
  List.find p l = Some d -> p (f d) = true ->
  List.find p (update_first p f l) = Some (f d).
Proof.
  induction l as [|x l IH]; simpl; [discriminate|].
  destruct (p x) eqn:E; intros H Hf.
  - inversion H; subst. simpl. now rewrite Hf.
  - simpl. rewrite E. now apply IH.
Qed.

Lemma find_has_id_str (uid : string) (l : list obj) (d : obj) :
  List.find (has_id (str uid)) l = Some d -> lookup "_id" d = str uid.
Proof.
  intros H. apply find_some in H. destruct H as [_ H].
  now apply matches_str in H.
Qed.

Section ChangePassword.

Variable rt : runtime.
Variable req : request.
Variable s : store.

Local Abbreviation currentPassword := (lookup "currentPassword" (req_body req)).
Local Abbreviation newPassword := (lookup "newPassword" (req_body req)).
Local Abbreviation passwordConfirm := (lookup "passwordConfirm" (req_body req)).
Local Abbreviation r := (run (changePassword rt req) s).

(** C2: for an authenticated caller whose document is in the store,
    changePassword answers 400 when one of the three fields is missing
    (absent or falsy); otherwise 401 when the current password is not the
    stored one; otherwise 400 when the new password and its confirmation
    differ; otherwise it writes the new password and the change time to
    the caller's document, leaves the rest of the store alone, and answers
    200 with a token signed for the caller's id.  The store is unchanged
    in the three error cases. *)
Theorem changePassword_spec (uid : string) (user : obj) :
  lookup "_id" (req_user req) = str uid ->
  List.find (has_id (str uid)) (Users s) = Some user ->
  (truthy currentPassword && truthy newPassword && truthy passwordConfirm
   = false ->
   res r = Next (AppError "All three fields are required." 400)
   /\ store_after r = s)
  /\ (truthy currentPassword && truthy newPassword && truthy passwordConfirm
      = true ->
      (correctPassword rt currentPassword (lookup "password" user) = false ->
       res r = Next (AppError "Your current password is incorrect." 401)
       /\ store_after r = s)
      /\ (correctPassword rt currentPassword (lookup "password" user) = true ->
          strict_eq newPassword passwordConfirm = false ->
          res r = Next (AppError "New passwords do not match." 400)
          /\ store_after r = s)
      /\ (correctPassword rt currentPassword (lookup "password" user) = true ->
          strict_eq newPassword passwordConfirm = true ->
          res r = Json 200
                    (JObj [("status", str "success");
                           ("token", jwtSign rt (JObj [("_id", str uid)]))])
          /\ exists user',
              List.find (has_id (str uid)) (Users (store_after r)) = Some user'
              /\ lookup "password" user' = newPassword
              /\ lookup "passwordChangedAt" user' = JNum (req_now req)
              /\ (forall k, k <> "password" -> k <> "passwordChangedAt" ->
                  lookup k user' = lookup k user)
              /\ Users (store_after r)
                 = update_first (has_id (str uid)) (fun _ => user') (Users s)
              /\ Skills (store_after r) = Skills s)).
Proof.
  intros Hid Hfind.
  pose proof (find_has_id_str _ _ _ Hfind) as Huid.
  unfold changePassword. rewrite Hid.
  destruct (truthy currentPassword) eqn:E1;
    destruct (truthy newPassword) eqn:E2;
    destruct (truthy passwordConfirm) eqn:E3; simpl;
    (split; [intros Hm | intros Hm]; try discriminate Hm);
    try (exec; destruct s; simpl; now split).
  exec. rewrite Hfind.
  destruct (correctPassword rt currentPassword (lookup "password" user)) eqn:Ec;
    simpl.
  2:{ repeat split; try (intros; discriminate); destruct s; reflexivity. }
  destruct (strict_eq newPassword passwordConfirm) eqn:Eq; simpl.
  2:{ repeat split; try (intros; discriminate); destruct s; reflexivity. }
  split; [intros; discriminate|]. split; [intros; discriminate|].
  intros _ _.
  rewrite !lookup_set_other by discriminate. rewrite Huid.
  split; [reflexivity|].
  exists (set "passwordChangedAt" (JNum (req_now req))
            (set "password" newPassword user)).
  split.
  { apply (find_update_first (has_id (str uid))
             (fun _ => set "passwordChangedAt" (JNum (req_now req))
                         (set "password" newPassword user)) _ user Hfind).
    unfold has_id. rewrite !lookup_set_other by discriminate.
    rewrite Huid. apply matches_str. reflexivity. }
  split.
  { rewrite lookup_set_other by discriminate. apply lookup_set_same. }
  split; [apply lookup_set_same|].
  split.
  { intros k H1 H2. now rewrite !lookup_set_other by assumption. }
  split; reflexivity.
Qed.

End ChangePassword.

Lemma changePassword_spec_witness :
  res (run (changePassword Sample.rt
              (Sample.mkReq Sample.ada
                 [("currentPassword", str "pw1"); ("newPassword", str "n");
                  ("passwordConfirm", str "n")] ""))
         Sample.s0)
  = Json 200
      (JObj [("status", str "success");
             ("token",
              jwtSign Sample.rt (JObj [("_id", str Sample.adaId)]))]).
Proof.
  pose proof (changePassword_spec Sample.rt
                (Sample.mkReq Sample.ada
                   [("currentPassword", str "pw1"); ("newPassword", str "n");
                    ("passwordConfirm", str "n")] "")
                Sample.s0 Sample.adaId Sample.ada) as H.
  apply H; reflexivity.
Defined.

(** ** Looking users up by e-mail (C3) *)

Lemma lookup_select_only (ks : list string) (k : string) (d : obj) :
  includes_str ks k = true -> lookup k (select_only ks d) = lookup k d.
Proof.
  intros Hk. induction d as [|[k0 v0] rest IH]; simpl; auto.
  destruct (includes_str ks k0) eqn:E0; simpl.
  - now rewrite IH.
  - destruct (String.eqb k k0) eqn:E; auto.
    apply String.eqb_eq in E. subst. congruence.
Qed.

Lemma includes_str_val (l : list jsval) (a : string) :
  includes l (JStr a) = true <-> In (JStr a) l.
Proof.
  unfold includes. rewrite existsb_exists. split.
  - intros [y [Hy E]]. apply strict_eq_str in E. now subst.
  - intros H. exists (JStr a). split; auto. now apply strict_eq_str.
Qed.

(** The filter of findUsersByEmails selects the documents that are not
    soft-deleted and whose address is one of [es]. *)
Lemma satisfies_by_emails (es : list jsval) (d : obj) :
  satisfies [("email", AnyOf es); ("isDeleted", Is (JBool false))] d = true
  <-> existsb (matches (lookup "email" d)) es = true
      /\ lookup "isDeleted" d = JBool false.
Proof.
  unfold satisfies, holds. cbn [forallb fst snd].
  rewrite andb_true_r, andb_true_iff.
  split; intros [H1 H2]; split; auto; now apply matches_bool.
Qed.

Lemma matches_among_strings (es : list jsval) (v : jsval) :
  (forall e, In e es -> valid_email e) ->
  existsb (matches v) es = true <-> In v es.
Proof.
  intros Hvalid. rewrite existsb_exists. split.
  - intros [e [He Hm]]. destruct (Hvalid e He) as [a [-> _]].
    apply matches_str in Hm. now subst.
  - intros Hin. exists v. split; auto.
    destruct (Hvalid v Hin) as [a [-> _]]. now apply matches_str.
Qed.

(** The answer to a request that passes validation, with the documents
    the query selects. *)
Lemma findUsersByEmails_answer (req : request) (s : store) (es : list jsval) :
  lookup "emails" (req_body req) = JArr es ->
  es <> [] ->
  (forall e, In e es -> valid_email e) ->
  includes es (lookup "email" (req_user req)) = false ->
  exists users,
    res (run (findUsersByEmails req) s)
    = Json 200
        (JObj [("status", str "success");
               ("data",
                JObj [("foundUsers", JArr (map foundUser users));
                      ("notFoundEmails",
                       JArr (filter
                               (fun email =>
                                  negb (includes
                                          (map (lookup "email") users) email))
                               es))])])
    /\ (forall x, In x users ->
                  exists d, In d (Users s)
                            /\ lookup "_id" x = lookup "_id" d
                            /\ lookup "email" x = lookup "email" d
                            /\ In (lookup "email" d) es
                            /\ lookup "isDeleted" d = JBool false)
    /\ (forall d, In d (Users s) -> In (lookup "email" d) es ->
                  lookup "isDeleted" d = JBool false ->
                  In (lookup "email" d) (map (lookup "email") users)).
Proof.
  intros Hemails Hne Hvalid Hself.
  exists (map (select_only ["_id"; "email"; "username"; "fullname"])
            (filter (satisfies [("email", AnyOf es);
                                ("isDeleted", Is (JBool false))])
               (Users s))).
  split; [|split].
  - unfold findUsersByEmails. rewrite Hemails.
    cbn [truthy isArray elements negb orb].
    destruct es as [|e0 es']; [congruence|].
    cbn [List.length Nat.eqb].
    rewrite filter_none
      by (intros e He; destruct (Hvalid e He) as [a [-> Ha]];
          cbn [toString]; now rewrite Ha).
    cbn [List.length Nat.ltb Nat.leb]. rewrite Hself. reflexivity.
  - intros x Hx. apply in_map_iff in Hx. destruct Hx as [d [<- Hd]].
    apply filter_In in Hd. destruct Hd as [Hd Hq].
    apply satisfies_by_emails in Hq. destruct Hq as [Hm Hdel].
    apply (matches_among_strings es _ Hvalid) in Hm.
    exists d. rewrite !lookup_select_only by reflexivity. now repeat split.
  - intros d Hd Hin Hdel. rewrite map_map. apply in_map_iff.
    exists d. split; [now rewrite lookup_select_only by reflexivity|].
    apply filter_In. split; auto. apply satisfies_by_emails. split; auto.
    now apply (matches_among_strings es _ Hvalid).
Qed.

(** C3: a request that passes validation (a non-empty array of strings
    matching the e-mail pattern, none the caller's own) is answered 200,
    and every input address lands in exactly one of the two outputs: among
    [foundUsers] when a stored user that is not soft-deleted holds it,
    among [notFoundEmails] otherwise; no address is in both. *)
Theorem findUsersByEmails_partition
    (req : request) (s : store) (es : list jsval) :
  lookup "emails" (req_body req) = JArr es ->
  es <> [] ->
  (forall e, In e es -> valid_email e) ->
  includes es (lookup "email" (req_user req)) = false ->
  exists foundUsers notFoundEmails,
    res (run (findUsersByEmails req) s)
    = Json 200
        (JObj [("status", str "success");
               ("data", JObj [("foundUsers", JArr foundUsers);
                              ("notFoundEmails", JArr notFoundEmails)])])
    /\ (forall e, In e es ->
        (active_with_email s e ->
         listed foundUsers e /\ ~ In e notFoundEmails)
        /\ (~ active_with_email s e ->
            In e notFoundEmails /\ ~ listed foundUsers e))
    /\ (forall e, ~ (listed foundUsers e /\ In e notFoundEmails)).
Proof.
  intros Hemails Hne Hvalid Hself.
  destruct (findUsersByEmails_answer req s es Hemails Hne Hvalid Hself)
    as (users & Hres & Hsel & Hall).
  set (foundEmails := map (lookup "email") users) in *.
  exists (map foundUser users),
         (filter (fun email => negb (includes foundEmails email)) es).
  assert (Hlisted : forall e, listed (map foundUser users) e
                              <-> In e foundEmails).
  { intros e. unfold listed, foundEmails. rewrite in_map_iff. split.
    - intros [u [Hu He]]. apply in_map_iff in Hu.
      destruct Hu as [d [<- Hd]]. exists d. split; auto.
    - intros [d [He Hd]]. exists (foundUser d). split; auto.
      apply in_map_iff. now exists d. }
  assert (Hfound : forall e, In e foundEmails
                             <-> In e es /\ active_with_email s e).
  { intros e. split.
    - intros He. apply in_map_iff in He. destruct He as [x [<- Hx]].
      destruct (Hsel x Hx) as (d & Hd & _ & -> & Hin & Hdel).
      split; auto. now exists d.
    - intros [Hin [d [Hd [<- Hdel]]]]. now apply Hall. }
  assert (Hnot : forall e, In e (filter (fun email =>
                                     negb (includes foundEmails email)) es)
                           <-> In e es /\ ~ In e foundEmails).
  { intros e. rewrite filter_In. split.
    - intros [Hin Hb]. split; auto. destruct (Hvalid e Hin) as [a [-> _]].
      rewrite <- includes_str_val. now destruct (includes foundEmails (JStr a)).
    - intros [Hin Hb]. split; auto. destruct (Hvalid e Hin) as [a [-> _]].
      rewrite <- includes_str_val in Hb.
      now destruct (includes foundEmails (JStr a)). }
  split; [exact Hres|split].
  - intros e Hin. split.
    + intros Hact. split.
      * apply Hlisted, Hfound. now split.
      * intros Hn. apply Hnot in Hn. apply (proj2 Hn), Hfound. now split.
    + intros Hact. split.
      * apply Hnot. split; auto. intros Hf. apply Hfound in Hf. tauto.
      * intros Hl. apply Hlisted, Hfound in Hl. tauto.
  - intros e [Hl Hn]. apply Hlisted in Hl. apply Hnot in Hn. tauto.
Qed.

Lemma findUsersByEmails_partition_witness :
  exists foundUsers notFoundEmails,
    res (run (findUsersByEmails
                (Sample.mkReq Sample.ada
                   [("emails",
                     JArr [str "bob@example.org"; str "zed@example.org"])]
                   ""))
           Sample.s0)
    = Json 200
        (JObj [("status", str "success");
               ("data", JObj [("foundUsers", JArr foundUsers);
                              ("notFoundEmails", JArr notFoundEmails)])])
    /\ (forall e,
          In e [str "bob@example.org"; str "zed@example.org"] ->
          (active_with_email Sample.s0 e ->
           listed foundUsers e /\ ~ In e notFoundEmails)
          /\ (~ active_with_email Sample.s0 e ->
              In e notFoundEmails /\ ~ listed foundUsers e))
    /\ (forall e, ~ (listed foundUsers e /\ In e notFoundEmails)).
Proof.
  apply (findUsersByEmails_partition
           (Sample.mkReq Sample.ada
              [("emails",
                JArr [str "bob@example.org"; str "zed@example.org"])] "")
           Sample.s0 [str "bob@example.org"; str "zed@example.org"]).
  - reflexivity.
  - discriminate.
  - intros e [<-|[<-|[]]]; eexists; split; reflexivity.
  - reflexivity.
Defined.

(** ** Updating the profile (C4, C5, C6) *)

Lemma lookup_absent (k : string) (o : obj) :
  has_key k o = false -> lookup k o = JUndefined.
Proof.
  induction o as [|[k0 v0] rest IH]; simpl; auto.
  destruct (String.eqb k k0); [discriminate | auto].
Qed.

Lemma has_key_set_same (k : string) (v : jsval) (o : obj) :
  has_key k (set k v o) = true.
Proof.
  induction o as [|[k' v'] rest IH]; simpl.
  - now rewrite String.eqb_refl.
  - destruct (String.eqb k k') eqn:E; simpl; rewrite E; auto.
Qed.

(** What updateProfile and updateUserById keep of a body: the allowed
    fields, each with the value the body gives it. *)
Lemma pick_spec (allow : list string) (body : obj) (k : string) :
  lookup k (pick allow body)
  = (if includes_str allow k then lookup k body else JUndefined)
  /\ has_key k (pick allow body) = includes_str allow k && has_key k body.
Proof.
  unfold pick.
  assert (forall ks out,
    lookup k (fold_left
                (fun out k => if includes_str allow k
                              then set k (lookup k body) out else out) ks out)
    = (if includes_str allow k && existsb (String.eqb k) ks
       then lookup k body else lookup k out)
    /\ has_key k (fold_left
                (fun out k => if includes_str allow k
                              then set k (lookup k body) out else out) ks out)
      = (includes_str allow k && existsb (String.eqb k) ks) || has_key k out)
    as H.
  { induction ks as [|k0 ks IH]; intros out; simpl.
    - rewrite andb_false_r. auto.
    - destruct (IH (if includes_str allow k0
                    then set k0 (lookup k0 body) out else out)) as [IH1 IH2].
      rewrite IH1, IH2. clear IH IH1 IH2.
      destruct (String.eqb k k0) eqn:E.
      + apply String.eqb_eq in E. subst k0.
        destruct (includes_str allow k); simpl.
        * rewrite lookup_set_same, has_key_set_same.
          destruct (existsb (String.eqb k) ks); auto.
        * auto.
      + apply String.eqb_neq in E. simpl.
        destruct (includes_str allow k0); auto.
        rewrite lookup_set_other, has_key_set_other by assumption. auto. }
  destruct (H (keys body) []) as [H1 H2]. rewrite H1, H2. simpl.
  rewrite orb_false_r.
  assert (existsb (String.eqb k) (keys body) = has_key k body) as ->.
  { clear. induction body as [|[k0 v0] rest IH]; simpl; auto.
    rewrite IH. now destruct (String.eqb k k0). }
  split; auto.
  destruct (includes_str allow k); simpl; auto.
  destruct (has_key k body) eqn:E; auto. now rewrite lookup_absent.
Qed.

Lemma assign_other (update : obj) (d : obj) (k : string) :
  has_key k update = false ->
  lookup k (assign update d) = lookup k d
  /\ has_key k (assign update d) = has_key k d.
Proof.
  unfold assign. revert d.
  induction update as [|[k0 v0] rest IH]; intros d H; simpl in *; auto.
  destruct (String.eqb k k0) eqn:E; [discriminate|].
  apply String.eqb_neq in E.
  destruct (IH (set k0 v0 d) H) as [H1 H2]. rewrite H1, H2.
  now rewrite lookup_set_other, has_key_set_other.
Qed.

Lemma assign_same (update : obj) (d : obj) (k : string) (x : jsval) :
  has_key k update = true ->
  (forall v, In (k, v) update -> v = x) ->
  lookup k (assign update d) = x.
Proof.
  unfold assign. revert d.
  induction update as [|[k0 v0] rest IH]; intros d H Hall; simpl in *.
  - discriminate.
  - destruct (has_key k rest) eqn:Er.
    + apply IH; auto.
    + destruct (String.eqb k k0) eqn:E; [|discriminate].
      apply String.eqb_eq in E. subst k0.
      destruct (assign_other rest (set k v0 d) k Er) as [H1 _].
      unfold assign in H1. rewrite H1, lookup_set_same.
      apply Hall. now left.
Qed.

Lemma In_set (k k0 : string) (v v0 : jsval) (o : obj) :
  In (k, v) (set k0 v0 o) -> (k, v) = (k0, v0) \/ In (k, v) o.
Proof.
  induction o as [|[k1 v1] rest IH]; simpl.
  - intros [H|[]]. left. now symmetry.
  - destruct (String.eqb k0 k1) eqn:E; simpl.
    + apply String.eqb_eq in E. subst k1.
      intros [H|H]; [left; now symmetry | right; now right].
    + intros [H|H]; [right; now left|].
      destruct (IH H); [now left | right; now right].
Qed.

Lemma pick_bindings (allow : list string) (body : obj) (k : string)
    (v : jsval) :
  In (k, v) (pick allow body) -> v = lookup k body.
Proof.
  unfold pick.
  assert (forall ks out,
    (forall k v, In (k, v) out -> v = lookup k body) ->
    forall k v,
      In (k, v) (fold_left
                   (fun out k => if includes_str allow k
                                 then set k (lookup k body) out else out)
                   ks out) ->
      v = lookup k body) as H.
  { induction ks as [|k0 ks IH]; intros out Hout; simpl; auto.
    apply IH. destruct (includes_str allow k0); auto.
    intros k1 v1 Hin. apply In_set in Hin. destruct Hin as [Hin|Hin]; auto.
    now inversion Hin. }
  apply H. intros ? ? [].
Qed.

Lemma map_update_first {B} (g : obj -> B) (p : obj -> bool) (f : obj -> obj)
    (l : list obj) :
  (forall d, g (f d) = g d) -> map g (update_first p f l) = map g l.
Proof.
  intros H. induction l as [|x l IH]; simpl; auto.
  destruct (p x); simpl; [now rewrite H | now rewrite IH].
Qed.

Lemma Forall_update_first (P : obj -> Prop) (p : obj -> bool) (f : obj -> obj)
    (l : list obj) :
  (forall d, P d -> P (f d)) -> Forall P l -> Forall P (update_first p f l).
Proof.
  intros H. induction 1 as [|x l Hx Hl IH]; simpl; auto.
  destruct (p x); constructor; auto.
Qed.

(** Stepping through a handler. *)
Lemma finish_bind {A} (m : M A) (k : A -> handler) (w : world) :
  finish (bind m k) w
  = match m w with
    | (Val a, w') => finish (k a) w'
    | (Exit o, w') => {| res := o; store_after := db w'; trace := log w' |}
    end.
Proof. unfold finish, bind. now destruct (m w) as [[a|o] w']. Qed.

(** The loop over the skills only queries the Skill collection; it goes
    through when every value is known, and stops at an unknown one
    otherwise. *)
Lemma skills_loop (vals : list jsval) (w : world) :
  exists st lg,
    for_each vals checkSkill w = (st, {| db := db w; log := log w ++ lg |})
    /\ no_user_query lg = true
    /\ ((forall v, In v vals -> known_skill (db w) v = true) -> st = Val tt)
    /\ ((exists v, In v vals /\ known_skill (db w) v = false) ->
        exists v, In v vals /\ known_skill (db w) v = false
                  /\ st = Exit (Next (AppError
                                        ("Skill not found: " ++ toString v)
                                        404))).
Proof.
  revert w. induction vals as [|x vals IH]; intros w.
  - exists (Val tt), []. cbn [for_each]. rewrite app_nil_r. destruct w.
    split; [reflexivity|]. split; [reflexivity|]. split; [reflexivity|].
    intros [v [[] _]].
  - cbn [for_each]. unfold bind at 1. unfold checkSkill at 1.
    unfold bind, Skill.findOne, query. cbn [fst snd db log].
    destruct (List.find (satisfies [("value", Is x)]) (Skills (db w)))
      eqn:Ex.
    + unfold ret at 1.
      destruct (IH {| db := db w;
                      log := log w ++ [SkillFindOne [("value", Is x)]] |})
        as (st & lg & Hrun & Hlg & Hok & Hfail).
      cbn [db log] in *. exists st, (SkillFindOne [("value", Is x)] :: lg).
      rewrite Hrun, <- app_assoc.
      split; [reflexivity|]. split; [exact Hlg|]. split.
      * intros H. apply Hok. intros v Hv. apply H. now right.
      * intros [v [[Hv|Hv] Hk]].
        -- subst. unfold known_skill in Hk. now rewrite Ex in Hk.
        -- destruct Hfail as [v' (Hv' & Hk' & Hst)]; [now exists v|].
           exists v'. split; [now right|]. now split.
    + unfold next, exit.
      exists (Exit (Next (AppError ("Skill not found: " ++ toString x)
                            404))),
             [SkillFindOne [("value", Is x)]].
      split; [reflexivity|]. split; [reflexivity|]. split.
      * intros H. specialize (H x (or_introl eq_refl)).
        unfold known_skill in H. now rewrite Ex in H.
      * intros _. exists x. unfold known_skill. rewrite Ex.
        split; [now left|]. now split.
Qed.

Lemma world_eta (w : world) : {| db := db w; log := log w |} = w.
Proof. now destruct w. Qed.

(** The skills step never touches the store and only queries the Skill
    collection. *)
Lemma validateSkills_run (filtered : obj) (w : world) :
  exists st lg,
    validateSkills filtered w = (st, {| db := db w; log := log w ++ lg |})
    /\ no_user_query lg = true.
Proof.
  unfold validateSkills.
  destruct (truthy (lookup "skills" filtered)).
  - destruct (negb (isArray (lookup "skills" filtered))).
    + exists (Exit (Next (AppError "Skills must be an array of skill values."
                              400))), [].
      rewrite app_nil_r, world_eta. split; reflexivity.
    + destruct (skills_loop (elements (lookup "skills" filtered)) w)
        as (st & lg & Hrun & Hlg & _).
      now exists st, lg.
  - exists (Val tt), []. rewrite app_nil_r, world_eta. split; reflexivity.
Qed.

(** The dates step sends no query: it lets the handler go on, with dates
    in order whenever a truthy [expectedWorkDuration] is present, or
    leaves with a 400. *)
Lemma validateDuration_run (rt : runtime) (filtered : obj) (w : world) :
  (validateDuration rt filtered w = (Val tt, w)
   /\ (truthy (lookup "expectedWorkDuration" filtered) = true ->
       exists a b,
         newDate rt (get (lookup "expectedWorkDuration" filtered) "startDate")
         = Some a
         /\ newDate rt (get (lookup "expectedWorkDuration" filtered) "endDate")
            = Some b
         /\ (a <= b)%Z))
  \/ (exists m, validateDuration rt filtered w
                = (Exit (Next (AppError m 400)), w)).
Proof.
  unfold validateDuration.
  destruct (truthy (lookup "expectedWorkDuration" filtered)).
  - destruct (newDate rt
                (get (lookup "expectedWorkDuration" filtered) "startDate"))
      as [a|]; [|right; eexists; reflexivity].
    destruct (newDate rt
                (get (lookup "expectedWorkDuration" filtered) "endDate"))
      as [b|]; [|right; eexists; reflexivity].
    destruct (a >? b)%Z eqn:E; [right; eexists; reflexivity|].
    left. split; [reflexivity|]. intros _. exists a, b.
    repeat split. lia.
  - left. split; [reflexivity | discriminate].
Qed.

(** Steps 4 and 5 send exactly one query, the update of the caller's
    document by the filtered body. *)
Lemma performUpdate_run (req : request) (filtered : obj) (w : world) :
  store_after (finish (performUpdate req filtered) w)
  = {| Users := update_first (has_id (lookup "_id" (req_user req)))
                  (assign filtered) (Users (db w));
       Skills := Skills (db w) |}
  /\ trace (finish (performUpdate req filtered) w)
     = (log w
        ++ [UserFindByIdAndUpdate (lookup "_id" (req_user req)) filtered])%list.
Proof.
  unfold performUpdate. rewrite finish_bind.
  unfold User.findByIdAndUpdate, query. cbn [fst snd db log].
  destruct (List.find (has_id (lookup "_id" (req_user req))) (Users (db w)))
    as [d|]; cbn [option_map]; [|split; reflexivity].
  unfold finish, bind, prop, ret, throw, next, respond, exit.
  destruct (member (lookup "expectedWorkDuration"
                      (select_minus hidden (assign filtered d))) "startDate");
    [|split; reflexivity].
  destruct (member (lookup "expectedWorkDuration"
                      (select_minus hidden (assign filtered d))) "endDate");
    split; reflexivity.
Qed.

(** Whatever the request, updateProfile leaves the store as it was or
    applies the filtered body to the caller's document, and it only does
    the latter once a truthy [expectedWorkDuration] has its dates in
    order. *)
Lemma updateProfile_store (rt : runtime) (req : request) (s : store) :
  store_after (run (updateProfile rt req) s) = s
  \/ (store_after (run (updateProfile rt req) s)
      = {| Users := update_first (has_id (lookup "_id" (req_user req)))
                      (assign (pick allowed (req_body req))) (Users s);
           Skills := Skills s |}
      /\ (truthy (lookup "expectedWorkDuration" (pick allowed (req_body req)))
          = true ->
          exists a b,
            newDate rt (get (lookup "expectedWorkDuration"
                               (pick allowed (req_body req))) "startDate")
            = Some a
            /\ newDate rt (get (lookup "expectedWorkDuration"
                                  (pick allowed (req_body req))) "endDate")
               = Some b
            /\ (a <= b)%Z)).
Proof.
  unfold updateProfile, run.
  destruct (truthy (or (lookup "password" (req_body req))
                       (lookup "role" (req_body req))));
    [left; reflexivity|].
  cbv zeta. rewrite finish_bind.
  destruct (validateSkills_run (pick allowed (req_body req))
              {| db := s; log := [] |}) as (st & lg & Hrun & _).
  rewrite Hrun. cbn [db log app].
  destruct st as [[]|o]; [|left; reflexivity].
  rewrite finish_bind.
  destruct (validateDuration_run rt (pick allowed (req_body req))
              {| db := s; log := lg |}) as [[Hd Hok]|[m Hd]];
    rewrite Hd; [|left; reflexivity].
  right. split; [|exact Hok].
  apply performUpdate_run.
Qed.

Lemma falsy_get (v : jsval) (k : string) :
  truthy v = false -> get v k = JUndefined.
Proof. destruct v; simpl; auto; discriminate. Qed.

Lemma truthy_member (v : jsval) (k : string) :
  truthy v = true -> member v k = Some (get v k).
Proof. destruct v; simpl; auto; discriminate. Qed.

Lemma no_credentials_or (body : obj) :
  no_credentials body ->
  truthy (or (lookup "password" body) (lookup "role" body)) = false.
Proof. intros [H1 H2]. unfold or. now rewrite H1. Qed.

Lemma credentials_or (body : obj) :
  truthy (lookup "password" body) = true
  \/ truthy (lookup "role" body) = true ->
  truthy (or (lookup "password" body) (lookup "role" body)) = true.
Proof.
  unfold or. destruct (truthy (lookup "password" body)) eqn:E; auto.
  now intros [H|H].
Qed.

Lemma picked_skills (body : obj) :
  lookup "skills" (pick allowed body) = lookup "skills" body.
Proof. now rewrite (proj1 (pick_spec allowed body "skills")). Qed.

Lemma picked_duration (body : obj) :
  lookup "expectedWorkDuration" (pick allowed body)
  = lookup "expectedWorkDuration" body.
Proof.
  now rewrite (proj1 (pick_spec allowed body "expectedWorkDuration")).
Qed.

Lemma validateSkills_passes (body : obj) (w : world) :
  skills_accepted (db w) body ->
  exists lg,
    validateSkills (pick allowed body) w
    = (Val tt, {| db := db w; log := log w ++ lg |})
    /\ no_user_query lg = true.
Proof.
  intros Hacc. unfold validateSkills. rewrite picked_skills.
  destruct Hacc as [Hf | [vals [Hv Hknown]]].
  - rewrite Hf. exists []. rewrite app_nil_r, world_eta. now split.
  - rewrite Hv. cbn [truthy isArray negb elements].
    destruct (skills_loop vals w) as (st & lg & Hrun & Hlg & Hok & _).
    exists lg. rewrite Hrun, (Hok Hknown). now split.
Qed.

Lemma validateDuration_rejects (rt : runtime) (body : obj) (w : world) :
  truthy (lookup "expectedWorkDuration" body) = true ->
  newDate rt (get (lookup "expectedWorkDuration" body) "startDate") = None
  \/ newDate rt (get (lookup "expectedWorkDuration" body) "endDate") = None
  \/ (exists a b,
        newDate rt (get (lookup "expectedWorkDuration" body) "startDate")
        = Some a
        /\ newDate rt (get (lookup "expectedWorkDuration" body) "endDate")
           = Some b
        /\ (a > b)%Z) ->
  exists m, validateDuration rt (pick allowed body) w
            = (Exit (Next (AppError m 400)), w).
Proof.
  intros Ht Hbad. unfold validateDuration. rewrite picked_duration, Ht.
  destruct Hbad as [H | [H | (a & b & Ha & Hb & Hgt)]].
  - rewrite H. eexists; reflexivity.
  - rewrite H.
    destruct (newDate rt
                (get (lookup "expectedWorkDuration" body) "startDate"));
      eexists; reflexivity.
  - rewrite Ha, Hb. replace (a >? b)%Z with true by (symmetry; lia).
    eexists; reflexivity.
Qed.

Lemma validateDuration_passes (rt : runtime) (body : obj) (w : world)
    (a b : Z) :
  newDate rt (get (lookup "expectedWorkDuration" body) "startDate") = Some a ->
  newDate rt (get (lookup "expectedWorkDuration" body) "endDate") = Some b ->
  (a <= b)%Z ->
  validateDuration rt (pick allowed body) w = (Val tt, w).
Proof.
  intros Ha Hb Hle. unfold validateDuration. rewrite picked_duration, Ha, Hb.
  replace (a >? b)%Z with false by (symmetry; lia).
  now destruct (truthy (lookup "expectedWorkDuration" body)).
Qed.

(** The answer of steps 4 and 5 when the filtered body carries a truthy
    [expectedWorkDuration]: 404 without a document for the caller, 200
    with one. *)
Lemma performUpdate_status (req : request) (body : obj) (w : world) :
  truthy (lookup "expectedWorkDuration" body) = true ->
  match List.find (has_id (lookup "_id" (req_user req))) (Users (db w)) with
  | None => res (finish (performUpdate req (pick allowed body)) w)
            = Next (AppError "User not found." 404)
  | Some _ => status_of (res (finish (performUpdate req (pick allowed body)) w))
              = Some 200%Z
  end.
Proof.
  intros Ht. unfold performUpdate. rewrite finish_bind.
  unfold User.findByIdAndUpdate, query. cbn [fst snd db log].
  destruct (List.find (has_id (lookup "_id" (req_user req))) (Users (db w)))
    as [d|]; cbn [option_map]; [|reflexivity].
  assert (lookup "expectedWorkDuration"
            (select_minus hidden (assign (pick allowed body) d))
          = lookup "expectedWorkDuration" body) as E.
  { rewrite lookup_select_minus by reflexivity.
    apply assign_same.
    - rewrite (proj2 (pick_spec allowed body "expectedWorkDuration")).
      cbn [includes_str allowed existsb String.eqb Ascii.eqb Bool.eqb orb andb].
      destruct (has_key "expectedWorkDuration" body) eqn:Ek; auto.
      rewrite lookup_absent in Ht by assumption. discriminate.
    - intros v. apply pick_bindings. }
  unfold finish, bind, prop, ret, throw, next, respond, exit.
  rewrite E, !truthy_member by assumption. reflexivity.
Qed.

Lemma falsy_spec (v : jsval) : In v falsy <-> truthy v = false.
Proof.
  unfold falsy. split.
  - intros [<- | [<- | [<- | [<- | [<- | []]]]]]; reflexivity.
  - destruct v as [| |b|n|a| |]; simpl; intros H; try discriminate.
    + now left.
    + right. now left.
    + subst b. right. right. now left.
    + apply negb_false_iff, Z.eqb_eq in H. subst n.
      right. right. right. now left.
    + apply negb_false_iff, String.eqb_eq in H. subst a.
      right. right. right. right. now left.
Qed.

Lemma skills_loop_step (x : jsval) (vals : list jsval) (w : world) :
  for_each (x :: vals) checkSkill w
  = match List.find (satisfies [("value", Is x)]) (Skills (db w)) with
    | Some _ =>
        for_each vals checkSkill
          {| db := db w; log := log w ++ [SkillFindOne [("value", Is x)]] |}
    | None =>
        (Exit (Next (AppError ("Skill not found: " ++ toString x) 404)),
         {| db := db w; log := log w ++ [SkillFindOne [("value", Is x)]] |})
    end.
Proof.
  cbn [for_each]. unfold bind at 1. unfold checkSkill at 1.
  unfold bind, Skill.findOne, query. cbn [fst snd db log].
  now destruct (List.find (satisfies [("value", Is x)]) (Skills (db w))).
Qed.

(** The ways the skills step leaves the handler. *)
Lemma validateSkills_errors (filtered : obj) (w : world) :
  fst (validateSkills filtered w) = Val tt
  \/ fst (validateSkills filtered w)
     = Exit (Next (AppError "Skills must be an array of skill values." 400))
  \/ exists v, fst (validateSkills filtered w)
               = Exit (Next (AppError ("Skill not found: " ++ toString v)
                               404)).
Proof.
  unfold validateSkills.
  destruct (truthy (lookup "skills" filtered)); [|now left].
  destruct (negb (isArray (lookup "skills" filtered)));
    [right; now left|].
  revert w. induction (elements (lookup "skills" filtered)) as [|x vals IH];
    intros w; [now left|].
  rewrite skills_loop_step.
  destruct (List.find (satisfies [("value", Is x)]) (Skills (db w))).
  - apply IH.
  - right. right. exists x. reflexivity.
Qed.

(** The ways the dates step leaves the handler. *)
Lemma validateDuration_errors (rt : runtime) (filtered : obj) (w : world) :
  validateDuration rt filtered w = (Val tt, w)
  \/ validateDuration rt filtered w
     = (Exit (Next (AppError "Invalid start or end date." 400)), w)
  \/ validateDuration rt filtered w
     = (Exit (Next (AppError
                     "Start date must be before or equal to end date." 400)),
        w).
Proof.
  unfold validateDuration.
  destruct (truthy (lookup "expectedWorkDuration" filtered)); [|now left].
  destruct (newDate rt
              (get (lookup "expectedWorkDuration" filtered) "startDate"));
    [|right; now left].
  destruct (newDate rt
              (get (lookup "expectedWorkDuration" filtered) "endDate"));
    [|right; now left].
  destruct (_ >? _)%Z; [right; now right | now left].
Qed.

(** The ways steps 4 and 5 end. *)
Lemma performUpdate_ends (req : request) (filtered : obj) (w : world) :
  res (finish (performUpdate req filtered) w)
  = Next (AppError "User not found." 404)
  \/ res (finish (performUpdate req filtered) w) = Next TypeError
  \/ exists b, res (finish (performUpdate req filtered) w) = Json 200 b.
Proof.
  unfold performUpdate. rewrite finish_bind.
  unfold User.findByIdAndUpdate, query. cbn [fst snd db log].
  destruct (List.find (has_id (lookup "_id" (req_user req))) (Users (db w)))
    as [d|]; cbn [option_map]; [|now left].
  unfold finish, bind, prop, ret, throw, next, respond, exit.
  destruct (member (lookup "expectedWorkDuration"
                      (select_minus hidden (assign filtered d)))
              "startDate"); [|right; now left].
  destruct (member (lookup "expectedWorkDuration"
                      (select_minus hidden (assign filtered d)))
              "endDate"); [|right; now left].
  right. right. eexists. reflexivity.
Qed.

(** C4, as the code has it: a body whose [password] or [role] holds a
    truthy value is rejected with 400 before any query, the store
    unchanged; a [password] and a [role] that are absent or hold a falsy
    value (the empty string, [null], 0, [false]) do not trigger that
    rejection; and whatever the request, no field outside the allow-list
    is written on any user document. *)
Theorem credentials_rejected_allow_list_kept
    (rt : runtime) (req : request) (s : store) :
  (truthy (lookup "password" (req_body req)) = true
   \/ truthy (lookup "role" (req_body req)) = true ->
   run (updateProfile rt req) s
   = {| res := Next (AppError
                       "This route is not for password or role updates." 400);
        store_after := s;
        trace := [] |})
  /\ (In (lookup "password" (req_body req)) falsy ->
      In (lookup "role" (req_body req)) falsy ->
      res (run (updateProfile rt req) s)
      <> Next (AppError
                 "This route is not for password or role updates." 400))
  /\ (forall k, includes_str allowed k = false ->
      map (lookup k) (Users (store_after (run (updateProfile rt req) s)))
      = map (lookup k) (Users s)
      /\ map (has_key k) (Users (store_after (run (updateProfile rt req) s)))
         = map (has_key k) (Users s))
  /\ Skills (store_after (run (updateProfile rt req) s)) = Skills s.
Proof.
  split; [|split; [|split]].
  - intros H. unfold updateProfile. now rewrite (credentials_or _ H).
  - intros Hp Hr. apply falsy_spec in Hp. apply falsy_spec in Hr.
    unfold updateProfile, run.
    rewrite (no_credentials_or _ (conj Hp Hr)). cbv zeta.
    rewrite finish_bind.
    destruct (validateSkills_run (pick allowed (req_body req))
                {| db := s; log := [] |}) as (st & lg & Hrun & _).
    destruct (validateSkills_errors (pick allowed (req_body req))
                {| db := s; log := [] |}) as [Hst | [Hst | [v Hst]]];
      rewrite Hrun in *; cbn [fst] in Hst; subst st;
      try (cbn [res]; discriminate).
    cbn [db log app]. rewrite finish_bind.
    destruct (validateDuration_errors rt (pick allowed (req_body req))
                {| db := s; log := lg |}) as [Hd | [Hd | Hd]];
      rewrite Hd; try (cbn [res]; discriminate).
    destruct (performUpdate_ends req (pick allowed (req_body req))
                {| db := s; log := lg |}) as [-> | [-> | [b ->]]];
      discriminate.
  - intros k Hk.
    destruct (updateProfile_store rt req s) as [-> | [-> _]]; auto.
    cbn [Users].
    assert (has_key k (pick allowed (req_body req)) = false) as Hpick.
    { rewrite (proj2 (pick_spec allowed (req_body req) k)). now rewrite Hk. }
    split; apply map_update_first; intros d;
      now apply (assign_other _ d k Hpick).
  - destruct (updateProfile_store rt req s) as [-> | [-> _]]; auto.
Qed.

Lemma credentials_rejected_allow_list_kept_witness :
  run (updateProfile Sample.rt
         (Sample.mkReq Sample.ada
            [("role", str "adminSystem"); ("fullname", str "Ada L")] ""))
    Sample.s0
  = {| res := Next (AppError
                      "This route is not for password or role updates." 400);
       store_after := Sample.s0;
       trace := [] |}
  /\ res (run (updateProfile Sample.rt
                 (Sample.mkReq Sample.ada
                    [("password", JNull); ("role", JNum 0);
                     ("fullname", str "Ada L")] ""))
            Sample.s0)
     <> Next (AppError
                "This route is not for password or role updates." 400)
  /\ map (lookup "isDeleted")
       (Users (store_after
                 (run (updateProfile Sample.rt
                         (Sample.mkReq Sample.ada
                            [("isDeleted", JBool true);
                             ("fullname", str "Ada L")] ""))
                    Sample.s0)))
     = map (lookup "isDeleted") (Users Sample.s0).
Proof.
  split; [|split].
  - apply (credentials_rejected_allow_list_kept Sample.rt
             (Sample.mkReq Sample.ada
                [("role", str "adminSystem"); ("fullname", str "Ada L")] "")
             Sample.s0).
    right. reflexivity.
  - apply (proj1 (proj2 (credentials_rejected_allow_list_kept Sample.rt
             (Sample.mkReq Sample.ada
                [("password", JNull); ("role", JNum 0);
                 ("fullname", str "Ada L")] "")
             Sample.s0))).
    + right. left. reflexivity.
    + right. right. right. left. reflexivity.
  - apply (credentials_rejected_allow_list_kept Sample.rt
             (Sample.mkReq Sample.ada
                [("isDeleted", JBool true); ("fullname", str "Ada L")] "")
             Sample.s0).
    reflexivity.
Defined.

(** A body with a [password] field holding the empty string is not
    rejected: the profile is updated and the answer is 200. *)
Lemma empty_password_field_accepted :
  has_key "password" [("password", str ""); ("fullname", str "Ada L")] = true
  /\ status_of
       (res (run (updateProfile Sample.rt
                    (Sample.mkReq Sample.ada
                       [("password", str ""); ("fullname", str "Ada L")] ""))
               Sample.s0))
     = Some 200%Z
  /\ map (lookup "fullname")
       (Users (store_after
                 (run (updateProfile Sample.rt
                         (Sample.mkReq Sample.ada
                            [("password", str ""); ("fullname", str "Ada L")]
                            ""))
                    Sample.s0)))
     = [str "Ada L"; str "bob"; str "root"]
  /\ map (lookup "fullname") (Users Sample.s0)
     = [str "ada"; str "bob"; str "root"].
Proof. vm_compute. repeat split. Qed.

(** The loop over the skills stops at the first value that no Skill
    document has, after one query for each value up to that one. *)
Lemma skills_loop_stops (vals : list jsval) (w : world) :
  (exists v, In v vals /\ known_skill (db w) v = false) ->
  exists pre v post,
    vals = (pre ++ v :: post)%list
    /\ (forall x, In x pre -> known_skill (db w) x = true)
    /\ known_skill (db w) v = false
    /\ for_each vals checkSkill w
       = (Exit (Next (AppError ("Skill not found: " ++ toString v) 404)),
          {| db := db w;
             log := log w
                    ++ map (fun x => SkillFindOne [("value", Is x)])
                         (pre ++ [v]) |}).
Proof.
  revert w. induction vals as [|x vals IH]; intros w [v [Hin Hk]];
    [contradiction|].
  rewrite skills_loop_step.
  destruct (List.find (satisfies [("value", Is x)]) (Skills (db w)))
    as [sk|] eqn:Ex.
  - assert (known_skill (db w) x = true) as Hx
      by (unfold known_skill; now rewrite Ex).
    destruct Hin as [-> | Hin]; [congruence|].
    destruct (IH {| db := db w;
                    log := log w ++ [SkillFindOne [("value", Is x)]] |})
      as (pre & v' & post & -> & Hpre & Hv' & Hrun);
      [now exists v|].
    cbn [db log] in *.
    exists (x :: pre), v', post. split; [reflexivity|].
    split; [intros y [<- | Hy]; auto|]. split; [exact Hv'|].
    rewrite Hrun, <- app_assoc. reflexivity.
  - exists [], x, vals. split; [reflexivity|].
    split; [intros y []|]. split; [unfold known_skill; now rewrite Ex|].
    reflexivity.
Qed.

(** C5, as the code has it: when the body carries no truthy [password] or
    [role] and its [skills] is an array of strings with a value that no
    Skill document has, updateProfile answers 404 with the message 'Skill
    not found: ' followed by the first such value, after one query on the
    Skill collection for each value up to that one; the store is unchanged
    and the user collection is not queried. *)
Theorem unknown_skill_rejected
    (rt : runtime) (req : request) (s : store) (vals : list jsval) :
  no_credentials (req_body req) ->
  lookup "skills" (req_body req) = JArr vals ->
  (forall v, In v vals -> exists a, v = JStr a) ->
  (exists v, In v vals /\ known_skill s v = false) ->
  exists pre a post,
    vals = (pre ++ JStr a :: post)%list
    /\ (forall x, In x pre -> known_skill s x = true)
    /\ known_skill s (JStr a) = false
    /\ run (updateProfile rt req) s
       = {| res := Next (AppError ("Skill not found: " ++ a) 404);
            store_after := s;
            trace := map (fun x => SkillFindOne [("value", Is x)])
                       (pre ++ [JStr a]) |}
    /\ no_user_query (trace (run (updateProfile rt req) s)) = true.
Proof.
  intros Hcred Hskills Hstr Hunknown.
  destruct (skills_loop_stops vals {| db := s; log := [] |} Hunknown)
    as (pre & v & post & Hvals & Hpre & Hv & Hrun).
  cbn [db log app] in *.
  destruct (Hstr v) as [a ->]; [rewrite Hvals; apply in_elt|].
  exists pre, a, post. split; [exact Hvals|]. split; [exact Hpre|].
  split; [exact Hv|].
  assert (run (updateProfile rt req) s
          = {| res := Next (AppError ("Skill not found: " ++ a) 404);
               store_after := s;
               trace := map (fun x => SkillFindOne [("value", Is x)])
                          (pre ++ [JStr a]) |}) as Hr.
  { unfold updateProfile, run. rewrite (no_credentials_or _ Hcred).
    cbv zeta. rewrite finish_bind.
    unfold validateSkills. rewrite picked_skills, Hskills.
    cbn [truthy isArray negb elements]. rewrite Hrun. reflexivity. }
  split; [exact Hr|]. rewrite Hr. cbn [trace].
  unfold no_user_query. rewrite forallb_forall. intros op Hop.
  apply in_map_iff in Hop. destruct Hop as [x [<- _]]. reflexivity.
Qed.

Lemma unknown_skill_rejected_witness :
  exists pre a post,
    [str "js"; str "nope"; str "zzz"] = (pre ++ JStr a :: post)%list
    /\ (forall x, In x pre -> known_skill Sample.s0 x = true)
    /\ known_skill Sample.s0 (JStr a) = false
    /\ run (updateProfile Sample.rt
              (Sample.mkReq Sample.ada
                 [("skills", JArr [str "js"; str "nope"; str "zzz"])] ""))
         Sample.s0
       = {| res := Next (AppError ("Skill not found: " ++ a) 404);
            store_after := Sample.s0;
            trace := map (fun x => SkillFindOne [("value", Is x)])
                       (pre ++ [JStr a]) |}
    /\ no_user_query
         (trace (run (updateProfile Sample.rt
                        (Sample.mkReq Sample.ada
                           [("skills",
                             JArr [str "js"; str "nope"; str "zzz"])] ""))
                   Sample.s0)) = true.
Proof.
  apply (unknown_skill_rejected Sample.rt
           (Sample.mkReq Sample.ada
              [("skills", JArr [str "js"; str "nope"; str "zzz"])] "")
           Sample.s0 [str "js"; str "nope"; str "zzz"]).
  - split; reflexivity.
  - reflexivity.
  - intros v [<- | [<- | [<- | []]]]; eexists; reflexivity.
  - exists (str "nope"). split; [right; left; reflexivity | reflexivity].
Defined.

(** With a [password] in the body, an unknown skill is answered 400 by
    the first check, not 404. *)
Lemma unknown_skill_after_password_is_400 :
  known_skill Sample.s0 (str "nope") = false
  /\ res (run (updateProfile Sample.rt
                 (Sample.mkReq Sample.ada
                    [("password", str "x"); ("skills", JArr [str "nope"])]
                    ""))
            Sample.s0)
     = Next (AppError "This route is not for password or role updates." 400).
Proof. vm_compute. split; reflexivity. Qed.

(** ** Ordering of the expected work dates (C6) *)

Section Duration.

Variable rt : runtime.
Variable req : request.
Variable s : store.

Local Abbreviation body := (req_body req).
Local Abbreviation startDate :=
  (get (lookup "expectedWorkDuration" (req_body req)) "startDate").
Local Abbreviation endDate :=
  (get (lookup "expectedWorkDuration" (req_body req)) "endDate").
Local Abbreviation r := (run (updateProfile rt req) s).

(** C6, as the code has it.  (1) Unless the skills step answers 404
    first, a truthy [expectedWorkDuration] whose start or end is not a
    valid date, or whose start is after its end, is answered 400 with the
    store unchanged and no query on users.  (2) When the body passes the
    two earlier steps and the dates are valid with start before or equal
    to end, the dates step passes: the update of the caller's document is
    the one query sent on users, answered 404 without such a document and
    200 with one.  (3) Whatever the request, if every stored user has its
    dates in order before, so has every stored user after. *)
Theorem duration_validation :
  ((forall vals, lookup "skills" body = JArr vals ->
                 forall v, In v vals -> known_skill s v = true) ->
   truthy (lookup "expectedWorkDuration" body) = true ->
   newDate rt startDate = None
   \/ newDate rt endDate = None
   \/ (exists a b, newDate rt startDate = Some a
                   /\ newDate rt endDate = Some b /\ (a > b)%Z) ->
   status_of (res r) = Some 400%Z
   /\ store_after r = s
   /\ no_user_query (trace r) = true)
  /\ (no_credentials body ->
      skills_accepted s body ->
      truthy (lookup "expectedWorkDuration" body) = true ->
      forall a b,
        newDate rt startDate = Some a ->
        newDate rt endDate = Some b ->
        (a <= b)%Z ->
        (exists lg,
            trace r
            = (lg ++ [UserFindByIdAndUpdate (lookup "_id" (req_user req))
                        (pick allowed body)])%list
            /\ no_user_query lg = true)
        /\ store_after r
           = {| Users := update_first (has_id (lookup "_id" (req_user req)))
                           (assign (pick allowed body)) (Users s);
                Skills := Skills s |}
        /\ match List.find (has_id (lookup "_id" (req_user req))) (Users s)
           with
           | None => res r = Next (AppError "User not found." 404)
           | Some _ => status_of (res r) = Some 200%Z
           end)
  /\ (Forall (duration_ok rt) (Users s) ->
      Forall (duration_ok rt) (Users (store_after r))).
Proof.
  split; [|split].
  - intros Hskills Ht Hbad. unfold updateProfile, run.
    destruct (truthy (or (lookup "password" body) (lookup "role" body)));
      [now repeat split|].
    cbv zeta. rewrite finish_bind.
    assert (forall lg, no_user_query lg = true ->
              let r' := finish (validateDuration rt (pick allowed body) ;;;
                                performUpdate req (pick allowed body))
                          {| db := s; log := lg |} in
              status_of (res r') = Some 400%Z /\ store_after r' = s
              /\ no_user_query (trace r') = true) as Hdates.
    { intros lg Hlg. cbv zeta. rewrite finish_bind.
      destruct (validateDuration_rejects rt body {| db := s; log := lg |}
                  Ht Hbad) as [m ->].
      now repeat split. }
    unfold validateSkills. rewrite picked_skills.
    destruct (truthy (lookup "skills" body)); [|now apply Hdates].
    destruct (lookup "skills" body) as [| | | | |vals|] eqn:Es;
      try (cbn [isArray negb]; now repeat split).
    cbn [isArray negb elements].
    destruct (skills_loop vals {| db := s; log := [] |})
      as (st & lg & Hrun & Hlg & Hok & _).
    rewrite Hrun, (Hok (Hskills vals eq_refl)). cbn [db log app].
    now apply Hdates.
  - intros Hcred Hacc Ht a b Ha Hb Hle. unfold updateProfile, run.
    rewrite (no_credentials_or _ Hcred). cbv zeta. rewrite finish_bind.
    destruct (validateSkills_passes body {| db := s; log := [] |} Hacc)
      as (lg & -> & Hlg).
    cbn [db log app]. rewrite finish_bind.
    rewrite (validateDuration_passes rt body _ a b Ha Hb Hle).
    destruct (performUpdate_run req (pick allowed body)
                {| db := s; log := lg |}) as [Hstore Htrace].
    split; [exists lg; now split|]. split; [exact Hstore|].
    exact (performUpdate_status req body {| db := s; log := lg |} Ht).
  - intros Hinv.
    destruct (updateProfile_store rt req s) as [-> | [-> Hok]]; auto.
    cbn [Users]. apply Forall_update_first; auto.
    intros d Hd. unfold duration_ok.
    destruct (has_key "expectedWorkDuration" (pick allowed body)) eqn:Ek.
    + rewrite (assign_same (pick allowed body) d "expectedWorkDuration"
                 (lookup "expectedWorkDuration" body) Ek)
        by (intros v; apply pick_bindings).
      rewrite picked_duration in Hok.
      destruct (truthy (lookup "expectedWorkDuration" body)) eqn:Et.
      * destruct (Hok eq_refl) as (a0 & b0 & Ha0 & Hb0 & Hle).
        intros a b Ha Hb. rewrite Ha0 in Ha. rewrite Hb0 in Hb.
        inversion Ha; inversion Hb; subst; exact Hle.
      * intros a b Ha Hb. rewrite falsy_get in Ha, Hb by assumption.
        rewrite Ha in Hb. inversion Hb. lia.
    + rewrite (proj1 (assign_other _ d _ Ek)). exact Hd.
Qed.

End Duration.

Lemma duration_validation_witness :
  (status_of
     (res (run (updateProfile Sample.rt
                  (Sample.mkReq Sample.ada
                     [("expectedWorkDuration",
                       JObj [("startDate", JNum 2); ("endDate", JNum 1)])]
                     ""))
             Sample.s0)) = Some 400%Z)
  /\ (status_of
        (res (run (updateProfile Sample.rt
                     (Sample.mkReq Sample.ada
                        [("expectedWorkDuration",
                          JObj [("startDate", JNum 1); ("endDate", JNum 1)])]
                        ""))
                Sample.s0)) = Some 200%Z)
  /\ Forall (duration_ok Sample.rt)
       (Users (store_after
                 (run (updateProfile Sample.rt
                         (Sample.mkReq Sample.ada
                            [("expectedWorkDuration",
                              JObj [("startDate", JNum 1);
                                    ("endDate", JNum 1)])]
                            ""))
                    Sample.s0))).
Proof.
  split; [|split].
  - apply (duration_validation Sample.rt
             (Sample.mkReq Sample.ada
                [("expectedWorkDuration",
                  JObj [("startDate", JNum 2); ("endDate", JNum 1)])] "")
             Sample.s0).
    + intros vals H. discriminate H.
    + reflexivity.
    + right. right. exists 2%Z, 1%Z.
      split; [reflexivity | split; [reflexivity | lia]].
  - apply (proj1 (proj2 (duration_validation Sample.rt
             (Sample.mkReq Sample.ada
                [("expectedWorkDuration",
                  JObj [("startDate", JNum 1); ("endDate", JNum 1)])] "")
             Sample.s0))
             (conj eq_refl eq_refl) (or_introl eq_refl) eq_refl
             1%Z 1%Z eq_refl eq_refl).
    lia.
  - apply (duration_validation Sample.rt
             (Sample.mkReq Sample.ada
                [("expectedWorkDuration",
                  JObj [("startDate", JNum 1); ("endDate", JNum 1)])] "")
             Sample.s0).
    repeat constructor; intros a b Ha Hb; vm_compute in Ha, Hb;
      inversion Ha; inversion Hb; lia.
Defined.

(** With an unknown skill in the body, a start date after the end date is
    answered 404 by the skills step, not 400. *)
Lemma late_start_after_unknown_skill_is_404 :
  newDate Sample.rt (JNum 2) = Some 2%Z
  /\ newDate Sample.rt (JNum 1) = Some 1%Z
  /\ res (run (updateProfile Sample.rt
                 (Sample.mkReq Sample.ada
                    [("skills", JArr [str "nope"]);
                     ("expectedWorkDuration",
                      JObj [("startDate", JNum 2); ("endDate", JNum 1)])]
                    ""))
            Sample.s0)
     = Next (AppError "Skill not found: nope" 404).
Proof. vm_compute. repeat split. Qed.

(** ** Hidden fields (C9) *)

Lemma del_set (k k' : string) (v : jsval) (d : obj) :
  del k (set k' v d) = if String.eqb k k' then del k d else set k' v (del k d).
Proof.
  induction d as [|[k0 v0] rest IH]; simpl.
  - now destruct (String.eqb k k').
  - destruct (String.eqb k' k0) eqn:E0; simpl.
    + apply String.eqb_eq in E0. subst k0.
      destruct (String.eqb k k') eqn:E; simpl; auto.
      now rewrite String.eqb_refl.
    + rewrite IH. destruct (String.eqb k k0) eqn:E1; simpl.
      * reflexivity.
      * destruct (String.eqb k k'); simpl; auto. now rewrite E0.
Qed.

Lemma select_minus_set (ks : list string) (k : string) (v : jsval) (d : obj) :
  select_minus ks (set k v d)
  = if includes_str ks k then select_minus ks d
    else set k v (select_minus ks d).
Proof.
  induction ks as [|k0 ks IH]; simpl; auto.
  rewrite IH. rewrite (String.eqb_sym k k0).
  destruct (includes_str ks k); simpl.
  - now rewrite orb_true_r.
  - rewrite orb_false_r. apply del_set.
Qed.

(** Updating two documents that agree outside the hidden fields keeps
    them in agreement. *)
Lemma select_minus_assign (ks : list string) (update : obj) (d d' : obj) :
  select_minus ks d = select_minus ks d' ->
  select_minus ks (assign update d) = select_minus ks (assign update d').
Proof.
  unfold assign. revert d d'.
  induction update as [|[k v] rest IH]; intros d d' H; simpl; auto.
  apply IH. rewrite !select_minus_set. now rewrite H.
Qed.

Lemma has_id_public (id : jsval) (d : obj) :
  has_id id (select_minus hidden d) = has_id id d.
Proof. unfold has_id. now rewrite lookup_select_minus. Qed.

Lemma find_public (id : jsval) (l l' : list obj) :
  map (select_minus hidden) l = map (select_minus hidden) l' ->
  match List.find (has_id id) l, List.find (has_id id) l' with
  | Some d, Some d' => select_minus hidden d = select_minus hidden d'
  | None, None => True
  | _, _ => False
  end.
Proof.
  revert l'. induction l as [|x l IH]; intros [|x' l'] H;
    try discriminate; cbn [List.find]; auto.
  assert (Hx : select_minus hidden x = select_minus hidden x')
    by now inversion H.
  assert (Hl : map (select_minus hidden) l = map (select_minus hidden) l')
    by now inversion H.
  rewrite <- (has_id_public id x), <- (has_id_public id x'), Hx.
  destruct (has_id id (select_minus hidden x'));
    [exact Hx | exact (IH l' Hl)].
Qed.

Lemma filter_public (p : obj -> bool) (l l' : list obj) :
  (forall d, p (select_minus hidden d) = p d) ->
  map (select_minus hidden) l = map (select_minus hidden) l' ->
  map (select_minus hidden) (filter p l)
  = map (select_minus hidden) (filter p l').
Proof.
  intros Hp. revert l'. induction l as [|x l IH]; intros [|x' l'] H;
    try discriminate; cbn [filter]; auto.
  assert (Hx : select_minus hidden x = select_minus hidden x')
    by now inversion H.
  assert (Hl : map (select_minus hidden) l = map (select_minus hidden) l')
    by now inversion H.
  rewrite <- (Hp x), <- (Hp x'), Hx.
  destruct (p (select_minus hidden x')); cbn [map]; auto.
  now rewrite Hx, (IH l').
Qed.

(** The outcome of the loop over the skills is settled by the Skill
    collection alone. *)
Lemma skills_loop_skills (vals : list jsval) (w w' : world) :
  Skills (db w) = Skills (db w') ->
  fst (for_each vals checkSkill w) = fst (for_each vals checkSkill w').
Proof.
  revert w w'. induction vals as [|x vals IH]; intros w w' H; auto.
  rewrite !skills_loop_step, H.
  destruct (List.find (satisfies [("value", Is x)]) (Skills (db w'))); auto.
Qed.

Lemma validateSkills_skills (filtered : obj) (w w' : world) :
  Skills (db w) = Skills (db w') ->
  fst (validateSkills filtered w) = fst (validateSkills filtered w').
Proof.
  intros H. unfold validateSkills.
  destruct (truthy (lookup "skills" filtered)); auto.
  destruct (negb (isArray (lookup "skills" filtered))); auto.
  now apply skills_loop_skills.
Qed.

(** The skills step goes on or leaves through [next]. *)
Lemma validateSkills_exit (filtered : obj) (w : world) :
  fst (validateSkills filtered w) = Val tt
  \/ exists e, fst (validateSkills filtered w) = Exit (Next e).
Proof.
  unfold validateSkills.
  destruct (truthy (lookup "skills" filtered)); [|now left].
  destruct (negb (isArray (lookup "skills" filtered)));
    [right; eexists; reflexivity|].
  revert w. induction (elements (lookup "skills" filtered)) as [|x vals IH];
    intros w; [now left|].
  rewrite skills_loop_step.
  destruct (List.find (satisfies [("value", Is x)]) (Skills (db w)));
    [apply IH | right; eexists; reflexivity].
Qed.

Lemma validateDuration_pure (rt : runtime) (filtered : obj) :
  exists st, forall w, validateDuration rt filtered w = (st, w).
Proof.
  unfold validateDuration.
  destruct (truthy (lookup "expectedWorkDuration" filtered));
    [|now exists (Val tt)].
  destruct (newDate rt
              (get (lookup "expectedWorkDuration" filtered) "startDate"));
    [|eexists; intros w; reflexivity].
  destruct (newDate rt
              (get (lookup "expectedWorkDuration" filtered) "endDate"));
    [|eexists; intros w; reflexivity].
  destruct (_ >? _)%Z; eexists; intros w; reflexivity.
Qed.

Ltac hidden_absent Hb Hu Hk :=
  injection Hb as <-; cbn in Hu;
  repeat (destruct Hu as [<- | Hu]; [| try contradiction]);
  destruct Hk as [<- | [<- | [<- | []]]]; reflexivity.

Lemma getProfile_discloses_nothing : discloses_nothing getProfile.
Proof.
  intros req s. split.
  - intros b Hb u k Hu Hk. revert Hb.
    unfold run, getProfile. rewrite finish_bind.
    unfold User.findById, query. cbn [fst snd db log].
    destruct (List.find (has_id (lookup "_id" (req_user req))) (Users s))
      as [d|]; cbn [option_map]; [|discriminate].
    unfold finish, bind, call_trim, prop, ret, throw, next, respond, exit.
    destruct (truthy (lookup "password" (select_minus hidden d)));
      [destruct (lookup "password" (select_minus hidden d))|];
      try discriminate;
      destruct (member (lookup "expectedWorkDuration" (select_minus hidden d))
                  "startDate"); try discriminate;
      destruct (member (lookup "expectedWorkDuration" (select_minus hidden d))
                  "endDate"); try discriminate;
      cbn [res]; intros Hb; hidden_absent Hb Hu Hk.
  - intros s' [Husers _].
    unfold run, getProfile. rewrite !finish_bind.
    unfold User.findById, query. cbn [fst snd db log].
    pose proof (find_public (lookup "_id" (req_user req)) _ _ Husers) as Hf.
    destruct (List.find (has_id (lookup "_id" (req_user req))) (Users s))
      as [d|];
      destruct (List.find (has_id (lookup "_id" (req_user req))) (Users s'))
      as [d'|]; try contradiction; cbn [option_map]; [|reflexivity].
    rewrite Hf.
    unfold finish, bind, call_trim, prop, ret, throw, next, respond, exit.
    destruct (truthy (lookup "password" (select_minus hidden d')));
      [destruct (lookup "password" (select_minus hidden d'))|];
      try reflexivity;
      destruct (member (lookup "expectedWorkDuration" (select_minus hidden d'))
                  "startDate"); try reflexivity;
      destruct (member (lookup "expectedWorkDuration" (select_minus hidden d'))
                  "endDate"); reflexivity.
Qed.

Lemma getUserById_discloses_nothing (rt : runtime) :
  discloses_nothing (getUserById rt).
Proof.
  intros req s. split.
  - intros b Hb u k Hu Hk. revert Hb.
    unfold run, getUserById.
    destruct (negb (isValidObjectId rt (req_params_id req)));
      [discriminate|].
    rewrite finish_bind. unfold User.findById, query. cbn [fst snd db log].
    destruct (List.find (has_id (str (req_params_id req))) (Users s))
      as [d|]; cbn [option_map]; [|discriminate].
    unfold finish, bind, User.populate, query, respond, exit. cbn [res fst snd].
    intros Hb; hidden_absent Hb Hu Hk.
  - intros s' [Husers Hskills].
    unfold run, getUserById.
    destruct (negb (isValidObjectId rt (req_params_id req)));
      [reflexivity|].
    rewrite !finish_bind. unfold User.findById, query. cbn [fst snd db log].
    pose proof (find_public (str (req_params_id req)) _ _ Husers) as Hf.
    destruct (List.find (has_id (str (req_params_id req))) (Users s))
      as [d|];
      destruct (List.find (has_id (str (req_params_id req))) (Users s'))
      as [d'|]; try contradiction; cbn [option_map]; [|reflexivity].
    rewrite Hf.
    unfold finish, bind, User.populate, query, respond, exit.
    cbn [res fst snd db]. now rewrite Hskills.
Qed.

Lemma active_public (d : obj) :
  satisfies [("isDeleted", Is (JBool false))] (select_minus hidden d)
  = satisfies [("isDeleted", Is (JBool false))] d.
Proof.
  unfold satisfies, holds. cbn [forallb fst snd].
  now rewrite lookup_select_minus.
Qed.

Lemma getAllUsers_discloses_nothing (rt : runtime) :
  discloses_nothing (getAllUsers rt).
Proof.
  intros req s. split.
  - intros b Hb u k Hu Hk. revert Hb.
    unfold run, getAllUsers.
    destruct (notAdmin req); [discriminate|].
    unfold finish, bind, User.find, User.populate_all, query, respond, exit.
    cbn [res fst snd]. intros Hb. injection Hb as <-.
    cbn in Hu. destruct Hu as [<- | Hu]; [reflexivity|].
    apply in_map_iff in Hu. destruct Hu as [x [<- _]].
    destruct Hk as [<- | [<- | [<- | []]]]; reflexivity.
  - intros s' [Husers Hskills].
    unfold run, getAllUsers.
    destruct (notAdmin req); [reflexivity|].
    unfold finish, bind, User.find, User.populate_all, query, respond, exit.
    cbn [res fst snd db].
    now rewrite Hskills,
      (filter_public _ (Users s) (Users s') active_public Husers).
Qed.

Lemma performUpdate_public (req : request) (filtered : obj) (w w' : world) :
  same_public (db w) (db w') ->
  res (finish (performUpdate req filtered) w)
  = res (finish (performUpdate req filtered) w').
Proof.
  intros [Husers _]. unfold performUpdate. rewrite !finish_bind.
  unfold User.findByIdAndUpdate, query. cbn [fst snd db log].
  pose proof (find_public (lookup "_id" (req_user req)) _ _ Husers) as Hf.
  destruct (List.find (has_id (lookup "_id" (req_user req))) (Users (db w)))
    as [d|];
    destruct (List.find (has_id (lookup "_id" (req_user req)))
                (Users (db w')))
    as [d'|]; try contradiction; cbn [option_map]; [|reflexivity].
  rewrite (select_minus_assign hidden filtered d d' Hf).
  unfold finish, bind, prop, ret, throw, next, respond, exit.
  destruct (member (lookup "expectedWorkDuration"
                      (select_minus hidden (assign filtered d')))
              "startDate"); try reflexivity;
    destruct (member (lookup "expectedWorkDuration"
                        (select_minus hidden (assign filtered d')))
                "endDate"); reflexivity.
Qed.

Lemma performUpdate_discloses_nothing (req : request) (filtered : obj)
    (w : world) (b : jsval) (u : jsval) (k : string) :
  res (finish (performUpdate req filtered) w) = Json 200 b ->
  In u (user_objects b) -> In k hidden -> exposes k u = false.
Proof.
  intros Hb Hu Hk. revert Hb.
  unfold performUpdate. rewrite finish_bind.
  unfold User.findByIdAndUpdate, query. cbn [fst snd db log].
  destruct (List.find (has_id (lookup "_id" (req_user req))) (Users (db w)))
    as [d|]; cbn [option_map]; [|discriminate].
  unfold finish, bind, prop, ret, throw, next, respond, exit.
  destruct (member (lookup "expectedWorkDuration"
                      (select_minus hidden (assign filtered d)))
              "startDate"); try discriminate;
    destruct (member (lookup "expectedWorkDuration"
                        (select_minus hidden (assign filtered d)))
                "endDate"); try discriminate;
    cbn [res]; intros Hb; hidden_absent Hb Hu Hk.
Qed.

Lemma updateProfile_discloses_nothing (rt : runtime) :
  discloses_nothing (updateProfile rt).
Proof.
  intros req s. split.
  - intros b Hb u k Hu Hk. revert Hb.
    unfold run, updateProfile.
    destruct (truthy (or (lookup "password" (req_body req))
                         (lookup "role" (req_body req))));
      [discriminate|].
    cbv zeta. rewrite finish_bind.
    destruct (validateSkills_run (pick allowed (req_body req))
                {| db := s; log := [] |}) as (st & lg & Hrun & _).
    destruct (validateSkills_exit (pick allowed (req_body req))
                {| db := s; log := [] |}) as [Hst | [e Hst]];
      rewrite Hrun in *; cbn [fst] in Hst; subst st; [|discriminate].
    cbn [db log app]. rewrite finish_bind.
    destruct (validateDuration_run rt (pick allowed (req_body req))
                {| db := s; log := lg |})
      as [[Hd _] | [m Hd]]; rewrite Hd; [|discriminate].
    intros Hb. exact (performUpdate_discloses_nothing _ _ _ b u k Hb Hu Hk).
  - intros s' Hsame.
    unfold run, updateProfile.
    destruct (truthy (or (lookup "password" (req_body req))
                         (lookup "role" (req_body req))));
      [reflexivity|].
    cbv zeta. rewrite !finish_bind.
    pose proof (validateSkills_skills (pick allowed (req_body req))
                  {| db := s; log := [] |} {| db := s'; log := [] |}
                  (proj2 Hsame)) as Hst.
    destruct (validateSkills_run (pick allowed (req_body req))
                {| db := s; log := [] |}) as (st & lg & H1 & _).
    destruct (validateSkills_run (pick allowed (req_body req))
                {| db := s'; log := [] |}) as (st' & lg' & H2 & _).
    rewrite H1, H2 in *. cbn [fst] in Hst. subst st'.
    destruct st as [[]|o]; [|reflexivity].
    rewrite !finish_bind.
    destruct (validateDuration_pure rt (pick allowed (req_body req)))
      as [st Hd].
    rewrite !Hd. destruct st as [[]|o]; [|reflexivity].
    now apply performUpdate_public.
Qed.

(** C9: the success responses of getProfile, updateProfile, getAllUsers
    and getUserById have no [password], [passwordResetToken] or
    [passwordResetExpires] field on any of their user objects, and the
    outcome of these endpoints does not depend on the values stored in
    those fields. *)
Theorem hidden_fields_not_disclosed (rt : runtime) :
  discloses_nothing getProfile
  /\ discloses_nothing (updateProfile rt)
  /\ discloses_nothing (getAllUsers rt)
  /\ discloses_nothing (getUserById rt).
Proof.
  split; [exact getProfile_discloses_nothing|].
  split; [exact (updateProfile_discloses_nothing rt)|].
  split; [exact (getAllUsers_discloses_nothing rt)|].
  exact (getUserById_discloses_nothing rt).
Qed.

Lemma hidden_fields_not_disclosed_witness :
  exposes "password"
    (get (get (body_of (res (run (getProfile
                                    (Sample.mkReq Sample.ada [] ""))
                               Sample.s0))) "data") "user") = false
  /\ res (run (getAllUsers Sample.rt (Sample.mkReq Sample.root [] ""))
            Sample.s0)
     = res (run (getAllUsers Sample.rt (Sample.mkReq Sample.root [] ""))
              Sample.s0_rehashed).
Proof.
  pose proof (hidden_fields_not_disclosed Sample.rt) as (Hp & _ & Ha & _).
  split.
  - apply (proj1 (Hp (Sample.mkReq Sample.ada [] "") Sample.s0)
             (body_of (res (run (getProfile
                                   (Sample.mkReq Sample.ada [] ""))
                              Sample.s0)))).
    + reflexivity.
    + left. reflexivity.
    + left. reflexivity.
  - apply (proj2 (Ha (Sample.mkReq Sample.root [] "") Sample.s0)).
    split; reflexivity.
Defined.

(** ** Soft deletion (C10) *)

(** A field that tells the documents of a collection apart. *)
Lemma NoDup_field {B} (g : obj -> B) (l : list obj) (d d' : obj) :
  NoDup (map g l) -> In d l -> In d' l -> g d = g d' -> d = d'.
Proof.
  induction l as [|x l IH]; [contradiction|].
  cbn [map]. intros Hnd. apply NoDup_cons_iff in Hnd.
  destruct Hnd as [Hx Hnd]. intros [<- | Hd] [<- | Hd'] E; auto.
  - exfalso. apply Hx. rewrite E. now apply in_map.
  - exfalso. apply Hx. rewrite <- E. now apply in_map.
Qed.

Lemma lookup_populate_doc (rt : runtime) (sk : list obj) (d : obj)
    (k : string) :
  k <> "skills" -> lookup k (User.populate_doc rt sk d) = lookup k d.
Proof.
  intros H. unfold User.populate_doc.
  destruct (has_key "skills" d); auto. now apply lookup_set_other.
Qed.

(** Every entry of a getAllUsers listing comes from a stored document
    that is not soft-deleted. *)
Lemma getAllUsers_listing (rt : runtime) (req : request) (t : store)
    (b x : jsval) :
  res (run (getAllUsers rt req) t) = Json 200 b ->
  In x (elements (get (get b "data") "users")) ->
  exists d, In d (Users t) /\ lookup "isDeleted" d = JBool false
            /\ get x "id" = lookup "_id" d.
Proof.
  unfold run, getAllUsers. destruct (notAdmin req); [discriminate|].
  unfold finish, bind, User.find, User.populate_all, query, respond, exit.
  cbn [res fst snd db]. intros Hb Hx. injection Hb as <-.
  cbn in Hx. rewrite !map_map in Hx. apply in_map_iff in Hx.
  destruct Hx as [d [<- Hd]]. apply filter_In in Hd. destruct Hd as [Hd Hq].
  exists d. split; [exact Hd|]. split.
  - unfold satisfies, holds in Hq. cbn [forallb fst snd] in Hq.
    rewrite andb_true_r in Hq. now apply matches_bool in Hq.
  - cbn -[User.populate_doc select_minus].
    rewrite lookup_populate_doc by discriminate.
    now rewrite lookup_select_minus.
Qed.

(** getUserById answers 200 for any stored document, whatever its
    [isDeleted]. *)
Lemma getUserById_found (rt : runtime) (req : request) (t : store) (d : obj) :
  isValidObjectId rt (req_params_id req) = true ->
  List.find (has_id (str (req_params_id req))) (Users t) = Some d ->
  exists b, res (run (getUserById rt req) t) = Json 200 b
            /\ get (get (get b "data") "user") "id" = lookup "_id" d.
Proof.
  intros Hvalid Hfind. unfold run, getUserById. rewrite Hvalid.
  cbn [negb]. rewrite finish_bind.
  unfold User.findById, query. cbn [fst snd db log]. rewrite Hfind.
  cbn [option_map].
  unfold finish, bind, User.populate, query, respond, exit.
  cbn [res fst snd db]. eexists. split; [reflexivity|].
  cbn -[User.populate_doc select_minus].
  rewrite lookup_populate_doc by discriminate.
  now rewrite lookup_select_minus.
Qed.

Lemma has_key_select_minus (ks : list string) (k : string) (d : obj) :
  includes_str ks k = false -> has_key k (select_minus ks d) = has_key k d.
Proof.
  intros H. pose proof (includes_str_false _ _ H) as Hne. clear H.
  induction ks as [|k0 ks IH]; simpl; auto.
  rewrite has_key_del_other by (apply Hne; now left).
  apply IH. intros k' Hin. apply Hne. now right.
Qed.

(** The populated [skills] of a document do not depend on the projection
    that drops the hidden fields. *)
Lemma lookup_skills_populate_selected (rt : runtime) (sk : list obj)
    (d : obj) :
  lookup "skills" (User.populate_doc rt sk (select_minus hidden d))
  = lookup "skills" (User.populate_doc rt sk d).
Proof.
  unfold User.populate_doc.
  rewrite has_key_select_minus, lookup_select_minus by reflexivity.
  destruct (has_key "skills" d).
  - now rewrite !lookup_set_same.
  - now apply lookup_select_minus.
Qed.

(** The whole run of getUserById on the id of a stored document: one read
    of the user collection, one population of the skills, and the answer
    built from the fields of that document. *)
Lemma getUserById_run_found (rt : runtime) (req : request) (t : store)
    (d : obj) :
  isValidObjectId rt (req_params_id req) = true ->
  List.find (has_id (str (req_params_id req))) (Users t) = Some d ->
  run (getUserById rt req) t
  = {| res :=
         Json 200
           (JObj
              [("success", JBool true);
               ("data",
                JObj
                  [("user",
                    JObj
                      [("id", lookup "_id" d);
                       ("fullname", or (lookup "fullname" d) (str ""));
                       ("username", or (lookup "username" d) (str ""));
                       ("email", lookup "email" d);
                       ("role", lookup "role" d);
                       ("avatar", or (lookup "avatar" d) JNull);
                       ("skills",
                        or (lookup "skills"
                              (User.populate_doc rt (Skills t) d))
                           (JArr []));
                       ("about", or (lookup "about" d) (str ""));
                       ("experience", or (lookup "experience" d) (str ""));
                       ("yearOfExperience",
                        or (lookup "yearOfExperience" d) (JNum 0));
                       ("availability",
                        or (lookup "availability" d) defaultAvailability);
                       ("expectedWorkDuration",
                        or (lookup "expectedWorkDuration" d)
                           defaultDuration);
                       ("createdAt", lookup "createdAt" d)])])]);
       store_after := t;
       trace := [UserFindById (str (req_params_id req)); SkillPopulate] |}.
Proof.
  intros Hvalid Hfind. unfold run, getUserById. rewrite Hvalid.
  cbn [negb]. rewrite finish_bind.
  unfold User.findById, query. cbn [fst snd db log]. rewrite Hfind.
  cbn [option_map].
  unfold finish, bind, User.populate, query, respond, exit.
  cbn [res fst snd db log app].
  rewrite lookup_skills_populate_selected.
  generalize (lookup "skills" (User.populate_doc rt (Skills t) d)).
  intros sk. rewrite !lookup_populate_doc by discriminate.
  rewrite !lookup_select_minus by reflexivity.
  reflexivity.
Qed.

(** What deactivateMe does to the store. *)
Lemma deactivateMe_run (req : request) (s : store) :
  run (deactivateMe req) s
  = {| res := Json 204 (JObj [("status", str "success"); ("data", JNull)]);
       store_after :=
         {| Users :=
              update_first (has_id (lookup "_id" (req_user req)))
                (fun d => set "deletedAt" (JNum (req_now req))
                            (set "isDeleted" (JBool true) d))
                (Users s);
            Skills := Skills s |};
       trace := [UserFindByIdAndUpdate (lookup "_id" (req_user req))
                   [("isDeleted", JBool true);
                    ("deletedAt", JNum (req_now req))]] |}.
Proof. reflexivity. Qed.

Section SoftDelete.

Variable rt : runtime.
Variable req : request.
Variable s : store.

Local Abbreviation s' := (store_after (run (deactivateMe req) s)).

(** C10: let a stored user, in a collection where ids and addresses are
    unique and ids are valid ObjectIds, call deactivateMe.  The call is
    answered 204 and leaves the user's document flagged, ids and addresses
    still unique.  On that store, and on any later one where the document
    is still flagged, no getAllUsers listing has an entry with the user's
    id; findUsersByEmails on a valid list holding the user's address
    returns no [foundUsers] entry for the user and puts the address among
    [notFoundEmails]; and getUserById on the user's id reads the user's
    document and answers 200 with that document's public fields (the
    defaults standing in for the empty ones, the skills populated),
    leaving the store as it is. *)
Theorem soft_deleted_user_visibility (uid : string) (u : obj) :
  lookup "_id" (req_user req) = str uid ->
  List.find (has_id (str uid)) (Users s) = Some u ->
  unique_users s ->
  isValidObjectId rt uid = true ->
  status_of (res (run (deactivateMe req) s)) = Some 204%Z
  /\ (exists u', soft_deleted uid u' s'
                 /\ lookup "email" u' = lookup "email" u
                 /\ unique_users s')
  /\ (forall t u',
        soft_deleted uid u' t ->
        unique_users t ->
        (forall req1 b x,
            res (run (getAllUsers rt req1) t) = Json 200 b ->
            In x (elements (get (get b "data") "users")) ->
            get x "id" <> str uid)
        /\ (forall req2 es,
              lookup "emails" (req_body req2) = JArr es ->
              (forall e, In e es -> valid_email e) ->
              includes es (lookup "email" (req_user req2)) = false ->
              In (lookup "email" u') es ->
              exists foundUsers notFoundEmails,
                res (run (findUsersByEmails req2) t)
                = Json 200
                    (JObj [("status", str "success");
                           ("data",
                            JObj [("foundUsers", JArr foundUsers);
                                  ("notFoundEmails", JArr notFoundEmails)])])
                /\ In (lookup "email" u') notFoundEmails
                /\ ~ listed foundUsers (lookup "email" u')
                /\ (forall x, In x foundUsers -> get x "userId" <> str uid))
        /\ (forall req3,
              req_params_id req3 = uid ->
              run (getUserById rt req3) t
              = {| res :=
                     Json 200
                       (JObj
                          [("success", JBool true);
                           ("data",
                            JObj
                              [("user",
                                JObj
                                  [("id", str uid);
                                   ("fullname",
                                    or (lookup "fullname" u') (str ""));
                                   ("username",
                                    or (lookup "username" u') (str ""));
                                   ("email", lookup "email" u');
                                   ("role", lookup "role" u');
                                   ("avatar",
                                    or (lookup "avatar" u') JNull);
                                   ("skills",
                                    or (lookup "skills"
                                          (User.populate_doc rt (Skills t)
                                             u'))
                                       (JArr []));
                                   ("about",
                                    or (lookup "about" u') (str ""));
                                   ("experience",
                                    or (lookup "experience" u') (str ""));
                                   ("yearOfExperience",
                                    or (lookup "yearOfExperience" u')
                                       (JNum 0));
                                   ("availability",
                                    or (lookup "availability" u')
                                       defaultAvailability);
                                   ("expectedWorkDuration",
                                    or (lookup "expectedWorkDuration" u')
                                       defaultDuration);
                                   ("createdAt",
                                    lookup "createdAt" u')])])]);
                   store_after := t;
                   trace := [UserFindById (str uid); SkillPopulate] |})).
Proof.
  intros Hcaller Hfind [Hids Hemails] Hvalid.
  pose proof (find_has_id_str _ _ _ Hfind) as Huid.
  rewrite deactivateMe_run, Hcaller. cbn [res store_after status_of].
  set (flag := fun d : obj => set "deletedAt" (JNum (req_now req))
                                (set "isDeleted" (JBool true) d)).
  assert (Hkeep : forall k d, k <> "isDeleted" -> k <> "deletedAt" ->
                              lookup k (flag d) = lookup k d).
  { intros k d H1 H2. unfold flag. now rewrite !lookup_set_other. }
  split; [reflexivity|]. split.
  - exists (flag u). split; [split|split; [|split]]; cbn [Users].
    + apply find_update_first; auto. unfold has_id.
      rewrite Hkeep by discriminate. rewrite Huid. now apply matches_str.
    + unfold flag. rewrite lookup_set_other by discriminate.
      apply lookup_set_same.
    + now apply Hkeep.
    + rewrite map_update_first; auto. intros d. now apply Hkeep.
    + rewrite map_update_first; auto. intros d. now apply Hkeep.
  - clear Hfind Hids Hemails Huid. intros t u' [Hfind Hflag] [Hids Hemails].
    pose proof (find_has_id_str _ _ _ Hfind) as Huid.
    assert (Hu' : In u' (Users t)) by now apply find_some in Hfind.
    assert (Hgone : forall d,
               In d (Users t) -> lookup "isDeleted" d = JBool false ->
               lookup "_id" d <> str uid
               /\ lookup "email" d <> lookup "email" u').
    { intros d Hd Hdel. split; intros E.
      - rewrite <- Huid in E.
        rewrite (NoDup_field (lookup "_id") _ d u' Hids Hd Hu' E) in Hdel.
        congruence.
      - rewrite (NoDup_field (lookup "email") _ d u' Hemails Hd Hu' E)
          in Hdel.
        congruence. }
    split; [|split].
    + intros req1 b x Hb Hx.
      destruct (getAllUsers_listing rt req1 t b x Hb Hx)
        as (d & Hd & Hdel & ->).
      exact (proj1 (Hgone d Hd Hdel)).
    + intros req2 es Hes Hval Hself Hin.
      assert (es <> []) as Hne by (intros ->; contradiction).
      destruct (findUsersByEmails_answer req2 t es Hes Hne Hval Hself)
        as (users & Hres & Hsel & _).
      assert (Hnone : ~ In (lookup "email" u') (map (lookup "email") users)).
      { intros Hm. apply in_map_iff in Hm. destruct Hm as [x [Hx Hxin]].
        destruct (Hsel x Hxin) as (d & Hd & _ & He & _ & Hdel).
        apply (proj2 (Hgone d Hd Hdel)). congruence. }
      eexists _, _. split; [exact Hres|]. split; [|split].
      * apply filter_In. split; [exact Hin|].
        destruct (Hval _ Hin) as [a [Ha _]]. rewrite Ha in *.
        destruct (includes (map (lookup "email") users) (JStr a)) eqn:E; auto.
        apply includes_str_val in E. contradiction.
      * intros [x [Hx He]]. apply in_map_iff in Hx.
        destruct Hx as [d [<- Hd]]. apply Hnone. apply in_map_iff.
        exists d. split; auto.
      * intros x Hx. apply in_map_iff in Hx. destruct Hx as [y [<- Hy]].
        destruct (Hsel y Hy) as (d & Hd & Hid & _ & _ & Hdel).
        cbn -[lookup]. rewrite Hid. exact (proj1 (Hgone d Hd Hdel)).
    + intros req3 Hid3.
      rewrite (getUserById_run_found rt req3 t u')
        by (rewrite Hid3; assumption).
      now rewrite Hid3, Huid.
Qed.

End SoftDelete.

Lemma soft_deleted_user_visibility_witness :
  status_of (res (run (deactivateMe (Sample.mkReq Sample.bob [] ""))
                    Sample.s0)) = Some 204%Z
  /\ exists b,
       res (run (getUserById Sample.rt
                   (Sample.mkReq Sample.ada [] Sample.bobId))
              (store_after (run (deactivateMe (Sample.mkReq Sample.bob [] ""))
                              Sample.s0)))
       = Json 200 b
       /\ get (get (get b "data") "user") "id" = str Sample.bobId.
Proof.
  assert (unique_users Sample.s0) as Huniq.
  { split; repeat (constructor; [cbn; intuition discriminate|]);
      constructor. }
  pose proof (soft_deleted_user_visibility Sample.rt
                (Sample.mkReq Sample.bob [] "") Sample.s0
                Sample.bobId Sample.bob eq_refl eq_refl Huniq eq_refl)
    as (H1 & (u' & Hdel & _ & Huniq') & Hlater).
  split; [exact H1|].
  destruct (Hlater _ u' Hdel Huniq') as (_ & _ & H5).
  eexists. split.
  - exact (f_equal res (H5 (Sample.mkReq Sample.ada [] Sample.bobId)
                          eq_refl)).
  - reflexivity.
Defined.

(** ** Administration of users: updateUserById *)

Lemma update_first_none (p : obj -> bool) (f : obj -> obj) (l : list obj) :
  List.find p l = None -> update_first p f l = l.
Proof.
  induction l as [|x l IH]; simpl; auto.
  destruct (p x); [discriminate|]. intros H. now rewrite IH.
Qed.

Lemma length_update_first (p : obj -> bool) (f : obj -> obj) (l : list obj) :
  List.length (update_first p f l) = List.length l.
Proof.
  induction l as [|x l IH]; simpl; auto.
  destruct (p x); simpl; auto.
Qed.

(** Whatever the request, updateUserById leaves the store as it was or
    applies the filtered body to the document of the requested id. *)
Lemma updateUserById_store (rt : runtime) (req : request) (s : store) :
  store_after (run (updateUserById rt req) s) = s
  \/ store_after (run (updateUserById rt req) s)
     = {| Users := update_first (has_id (str (req_params_id req)))
                     (assign (pick allowedFields (req_body req))) (Users s);
          Skills := Skills s |}.
Proof.
  unfold updateUserById, run.
  destruct (notAdmin req); [now left|].
  destruct (negb (isValidObjectId rt (req_params_id req))); [now left|].
  rewrite finish_bind. unfold call_toString.
  destruct (lookup "_id" (req_user req)); try (now left);
    unfold ret;
    match goal with
    | |- context [if ?c then _ else _] => destruct c; [now left|]
    end;
    right; rewrite finish_bind;
    unfold User.findByIdAndUpdate, query; cbn [fst snd db log];
    destruct (List.find (has_id (str (req_params_id req))) (Users s));
    reflexivity.
Qed.

(** updateUserById writes no field other than [role] and [isDeleted],
    adds or removes no document and leaves the Skill collection alone,
    whatever the request. *)
Theorem updateUserById_footprint (rt : runtime) (req : request) (s : store) :
  (forall k, includes_str allowedFields k = false ->
     map (lookup k) (Users (store_after (run (updateUserById rt req) s)))
     = map (lookup k) (Users s)
     /\ map (has_key k) (Users (store_after (run (updateUserById rt req) s)))
        = map (has_key k) (Users s))
  /\ List.length (Users (store_after (run (updateUserById rt req) s)))
     = List.length (Users s)
  /\ Skills (store_after (run (updateUserById rt req) s)) = Skills s.
Proof.
  destruct (updateUserById_store rt req s) as [-> | ->].
  - repeat split; reflexivity.
  - cbn [Users Skills]. split; [|split; [apply length_update_first|reflexivity]].
    intros k Hk.
    assert (has_key k (pick allowedFields (req_body req)) = false) as Hpick.
    { rewrite (proj2 (pick_spec allowedFields (req_body req) k)).
      now rewrite Hk. }
    split; apply map_update_first; intros d;
      now apply (assign_other _ d k Hpick).
Qed.

Lemma updateUserById_footprint_witness :
  map (lookup "email")
    (Users (store_after
              (run (updateUserById Sample.rt
                      (Sample.mkReq Sample.root
                         [("email", str "x@y.z"); ("role", str "adminSystem")]
                         Sample.bobId))
                 Sample.s0)))
  = map (lookup "email") (Users Sample.s0).
Proof.
  apply (updateUserById_footprint Sample.rt
           (Sample.mkReq Sample.root
              [("email", str "x@y.z"); ("role", str "adminSystem")]
              Sample.bobId)
           Sample.s0).
  reflexivity.
Defined.

(** The own-role guard of updateUserById compares spellings.  For an
    admin caller and a valid request id, the request is answered 400 'You
    cannot change your own role.', before any query and with the store
    unchanged, when the request id is character for character the string
    of the caller's [_id] and the body's [role] is truthy and other than
    'adminSystem'; and that answer is given in no other case: a request
    id that differs from that string in any character, even as another
    spelling of the same id, goes on to the update. *)
Theorem updateUserById_self_demotion
    (rt : runtime) (req : request) (s : store) (aid : string) :
  notAdmin req = false ->
  isValidObjectId rt (req_params_id req) = true ->
  lookup "_id" (req_user req) = str aid ->
  (req_params_id req = aid
   /\ truthy (lookup "role" (req_body req)) = true
   /\ strict_eq (lookup "role" (req_body req)) (str "adminSystem") = false ->
   run (updateUserById rt req) s
   = {| res := Next (AppError "You cannot change your own role." 400);
        store_after := s;
        trace := [] |})
  /\ (res (run (updateUserById rt req) s)
      = Next (AppError "You cannot change your own role." 400) ->
      req_params_id req = aid
      /\ truthy (lookup "role" (req_body req)) = true
      /\ strict_eq (lookup "role" (req_body req)) (str "adminSystem")
         = false)
  /\ (req_params_id req <> aid ->
      hd_error (trace (run (updateUserById rt req) s))
      = Some (UserFindByIdAndUpdate (str (req_params_id req))
                (pick allowedFields (req_body req)))).
Proof.
  intros Hadmin Hvalid Hown.
  unfold updateUserById, run. rewrite Hadmin, Hvalid. cbn [negb].
  rewrite finish_bind, Hown.
  change (str aid) with (JStr aid).
  unfold call_toString, ret. cbn [toString].
  split; [|split].
  - intros (-> & Hrole & Hne). now rewrite String.eqb_refl, Hrole, Hne.
  - destruct (String.eqb (req_params_id req) aid) eqn:Eid;
      destruct (truthy (lookup "role" (req_body req))) eqn:Et;
      destruct (strict_eq (lookup "role" (req_body req))
                  (str "adminSystem")) eqn:Es;
      cbn [andb negb];
      try (apply String.eqb_eq in Eid; now intros _);
      rewrite finish_bind; unfold User.findByIdAndUpdate, query;
      cbn [fst snd db log];
      destruct (List.find _ _); cbn [option_map];
      unfold finish, bind, User.populate, query, respond, next, exit;
      cbn [res fst snd]; discriminate.
  - intros Hne. apply String.eqb_neq in Hne. rewrite Hne. cbn [andb].
    rewrite finish_bind. unfold User.findByIdAndUpdate, query.
    cbn [fst snd db log].
    destruct (List.find _ _); cbn [option_map];
      unfold finish, bind, User.populate, query, respond, next, exit;
      reflexivity.
Qed.

Lemma updateUserById_self_demotion_witness :
  run (updateUserById Sample.rt
         (Sample.mkReq Sample.root [("role", str "userSystem")] Sample.rootId))
    Sample.s0
  = {| res := Next (AppError "You cannot change your own role." 400);
       store_after := Sample.s0;
       trace := [] |}
  /\ hd_error
       (trace (run (updateUserById rtAnyCase
                      (Sample.mkReq Sample.root [("role", str "userSystem")]
                         "64B000000000000000000003"))
                 Sample.s0))
     = Some (UserFindByIdAndUpdate (str "64B000000000000000000003")
               [("role", str "userSystem")]).
Proof.
  split.
  - apply (updateUserById_self_demotion Sample.rt
             (Sample.mkReq Sample.root [("role", str "userSystem")]
                Sample.rootId)
             Sample.s0 Sample.rootId eq_refl eq_refl eq_refl).
    repeat split.
  - apply (updateUserById_self_demotion rtAnyCase
             (Sample.mkReq Sample.root [("role", str "userSystem")]
                "64B000000000000000000003")
             Sample.s0 Sample.rootId eq_refl eq_refl eq_refl).
    discriminate.
Defined.

(** A request id that is not a valid ObjectId is answered 400 by
    updateUserById and deleteUserById (for an admin caller) and by
    getUserById (for any caller), before any query and with the store
    unchanged. *)
Theorem invalid_id_rejected (rt : runtime) (req : request) (s : store) :
  isValidObjectId rt (req_params_id req) = false ->
  (notAdmin req = false ->
   run (updateUserById rt req) s
   = {| res := Next (AppError "Invalid user ID format." 400);
        store_after := s; trace := [] |}
   /\ run (deleteUserById rt req) s
      = {| res := Next (AppError "Invalid user ID format." 400);
           store_after := s; trace := [] |})
  /\ run (getUserById rt req) s
     = {| res := Next (AppError "Invalid user ID." 400);
          store_after := s; trace := [] |}.
Proof.
  intros Hbad. split.
  - intros Hadmin. unfold updateUserById, deleteUserById, run.
    rewrite Hadmin, Hbad. now split.
  - unfold getUserById, run. now rewrite Hbad.
Qed.

Lemma invalid_id_rejected_witness :
  run (getUserById Sample.rt (Sample.mkReq Sample.ada [] "not-an-id"))
    Sample.s0
  = {| res := Next (AppError "Invalid user ID." 400);
       store_after := Sample.s0; trace := [] |}.
Proof.
  apply (invalid_id_rejected Sample.rt
           (Sample.mkReq Sample.ada [] "not-an-id") Sample.s0).
  reflexivity.
Defined.

Lemma satisfies_active (d : obj) :
  satisfies [("isDeleted", Is (JBool false))] d = active d.
Proof.
  unfold satisfies, holds, active, matches. cbn [forallb fst snd].
  apply andb_true_r.
Qed.

Lemma active_iff (d : obj) :
  active d = true <-> lookup "isDeleted" d = JBool false.
Proof. unfold active. apply (matches_bool (lookup "isDeleted" d) false). Qed.

(** For an admin caller, a valid request id written as an ObjectId
    prints (24 lower-case hexadecimal digits) and a request that the
    own-role guard lets through, updateUserById answers 404 and changes
    nothing when no document has the id; otherwise it answers 200, the
    document of that id takes the [role] and [isDeleted] the body gives,
    and the response shows the stored values. *)
Theorem updateUserById_applies
    (rt : runtime) (req : request) (s : store) (aid : string) :
  notAdmin req = false ->
  isValidObjectId rt (req_params_id req) = true ->
  canonical_id (req_params_id req) = true ->
  lookup "_id" (req_user req) = str aid ->
  String.eqb (req_params_id req) aid
  && truthy (lookup "role" (req_body req))
  && negb (strict_eq (lookup "role" (req_body req)) (str "adminSystem"))
  = false ->
  match List.find (has_id (str (req_params_id req))) (Users s) with
  | None =>
      res (run (updateUserById rt req) s)
      = Next (AppError "User not found." 404)
      /\ store_after (run (updateUserById rt req) s) = s
  | Some d =>
      exists b,
        res (run (updateUserById rt req) s) = Json 200 b
        /\ List.find (has_id (str (req_params_id req)))
             (Users (store_after (run (updateUserById rt req) s)))
           = Some (assign (pick allowedFields (req_body req)) d)
        /\ (forall k, includes_str allowedFields k = true ->
                      has_key k (req_body req) = true ->
                      lookup k (assign (pick allowedFields (req_body req)) d)
                      = lookup k (req_body req))
        /\ (forall k, has_key k (req_body req) = false ->
                      lookup k (assign (pick allowedFields (req_body req)) d)
                      = lookup k d)
        /\ get (get (get b "data") "user") "id" = str (req_params_id req)
        /\ get (get (get b "data") "user") "role"
           = lookup "role" (assign (pick allowedFields (req_body req)) d)
        /\ get (get (get b "data") "user") "isDeleted"
           = lookup "isDeleted" (assign (pick allowedFields (req_body req)) d)
  end.
Proof.
  intros Hadmin Hvalid _ Hown Hguard.
  unfold updateUserById, run. rewrite Hadmin, Hvalid. cbn [negb].
  rewrite finish_bind, Hown.
  change (str aid) with (JStr aid). unfold call_toString, ret.
  cbn [toString]. rewrite Hguard, finish_bind.
  unfold User.findByIdAndUpdate, query. cbn [fst snd db log].
  destruct (List.find (has_id (str (req_params_id req))) (Users s))
    as [d|] eqn:Hfind; cbn [option_map].
  - unfold finish, bind, User.populate, query, respond, exit.
    cbn [res store_after fst snd db Users].
    assert (Hother : forall k, has_key k (req_body req) = false ->
              lookup k (assign (pick allowedFields (req_body req)) d)
              = lookup k d).
    { intros k Hk. apply assign_other.
      rewrite (proj2 (pick_spec allowedFields (req_body req) k)), Hk.
      apply andb_false_r. }
    assert (Hid : lookup "_id" (assign (pick allowedFields (req_body req)) d)
                  = str (req_params_id req)).
    { rewrite (proj1 (assign_other _ d "_id"
                        (eq_trans (proj2 (pick_spec allowedFields
                                            (req_body req) "_id"))
                                  eq_refl))).
      exact (find_has_id_str _ _ _ Hfind). }
    eexists. split; [reflexivity|]. split; [|split; [|split; [exact Hother|]]].
    + apply find_update_first; auto. unfold has_id. rewrite Hid.
      now apply matches_str.
    + intros k Hk Hb. apply assign_same.
      * now rewrite (proj2 (pick_spec allowedFields (req_body req) k)), Hk, Hb.
      * intros v. apply pick_bindings.
    + cbn -[User.populate_doc select_minus assign pick].
      rewrite !lookup_populate_doc by discriminate.
      rewrite !lookup_select_minus by reflexivity.
      now rewrite Hid.
  - unfold finish, next, exit. cbn [res store_after db Users Skills].
    split; [reflexivity|].
    rewrite update_first_none by assumption. destruct s; reflexivity.
Qed.

Lemma updateUserById_applies_witness :
  exists b,
    res (run (updateUserById Sample.rt
                (Sample.mkReq Sample.root [("role", str "adminSystem")]
                   Sample.bobId))
           Sample.s0) = Json 200 b
    /\ get (get (get b "data") "user") "role" = str "adminSystem".
Proof.
  pose proof (updateUserById_applies Sample.rt
                (Sample.mkReq Sample.root [("role", str "adminSystem")]
                   Sample.bobId)
                Sample.s0 Sample.rootId eq_refl eq_refl eq_refl eq_refl
                eq_refl) as H.
  cbn [Sample.mkReq req_params_id] in H.
  change (List.find (has_id (str Sample.bobId)) (Users Sample.s0))
    with (Some Sample.bob) in H.
  destruct H as (b & Hb & _ & Hset & _ & _ & Hrole & _).
  exists b. split; [exact Hb|].
  exact (eq_trans Hrole (Hset "role" eq_refl eq_refl)).
Defined.

(** For an admin caller, getAllUsers answers 200 with one entry for each
    stored user that is not soft-deleted, in store order and with that
    user's id, e-mail and role; [results] is the number of entries; the
    store is unchanged. *)
Theorem getAllUsers_complete (rt : runtime) (req : request) (s : store) :
  notAdmin req = false ->
  exists entries,
    res (run (getAllUsers rt req) s)
    = Json 200
        (JObj [("status", str "success");
               ("results", JNum (Z.of_nat (List.length entries)));
               ("data", JObj [("users", JArr entries)])])
    /\ map (fun x => get x "id") entries
       = map (lookup "_id") (filter active (Users s))
    /\ map (fun x => get x "email") entries
       = map (lookup "email") (filter active (Users s))
    /\ map (fun x => get x "role") entries
       = map (lookup "role") (filter active (Users s))
    /\ store_after (run (getAllUsers rt req) s) = s.
Proof.
  intros Hadmin. unfold getAllUsers, run. rewrite Hadmin.
  unfold finish, bind, User.find, User.populate_all, query, respond, exit.
  cbn [res store_after fst snd db].
  rewrite (filter_ext _ _ satisfies_active).
  exists (map (fun u =>
                 JObj [("id", lookup "_id" u);
                       ("fullname", or (lookup "fullname" u) (str ""));
                       ("username", or (lookup "username" u) (str ""));
                       ("email", lookup "email" u);
                       ("role", lookup "role" u);
                       ("skills", or (lookup "skills" u) (JArr []))])
            (map (User.populate_doc rt (Skills s))
               (map (select_minus hidden) (filter active (Users s))))).
  split; [rewrite !length_map; reflexivity|].
  rewrite !map_map.
  repeat split; try (now destruct s);
    apply map_ext; intros d;
    cbn -[User.populate_doc select_minus];
    rewrite lookup_populate_doc by discriminate;
    now rewrite lookup_select_minus.
Qed.

Lemma getAllUsers_complete_witness :
  exists entries,
    res (run (getAllUsers Sample.rt (Sample.mkReq Sample.root [] ""))
           Sample.s0)
    = Json 200
        (JObj [("status", str "success");
               ("results", JNum (Z.of_nat (List.length entries)));
               ("data", JObj [("users", JArr entries)])])
    /\ map (fun x => get x "id") entries
       = [str Sample.adaId; str Sample.bobId; str Sample.rootId].
Proof.
  destruct (getAllUsers_complete Sample.rt (Sample.mkReq Sample.root [] "")
              Sample.s0 eq_refl) as (entries & Hres & Hids & _).
  exists entries. split; [exact Hres | exact Hids].
Defined.

(** ** Reading endpoints *)

Lemma lookup_selected_out (ks : list string) (k : string) (d : obj) :
  includes_str ks k = true -> lookup k (select_minus ks d) = JUndefined.
Proof.
  induction ks as [|k0 ks IH]; [discriminate|].
  cbn [includes_str existsb select_minus fold_right].
  destruct (String.eqb k k0) eqn:E; cbn [orb].
  - intros _. apply String.eqb_eq in E. subst k0.
    induction (fold_right del d ks) as [|[k1 v1] rest IHr]; simpl; auto.
    destruct (String.eqb k k1) eqn:E1; simpl; auto. now rewrite E1.
  - intros H. apply String.eqb_neq in E.
    rewrite lookup_del_other by assumption. now apply IH.
Qed.

(** getProfile, findUsersByEmails, getAllUsers and getUserById never
    change the store, whatever the request and however they end. *)
Theorem reading_endpoints_keep_store
    (rt : runtime) (req : request) (s : store) :
  store_after (run (getProfile req) s) = s
  /\ store_after (run (findUsersByEmails req) s) = s
  /\ store_after (run (getAllUsers rt req) s) = s
  /\ store_after (run (getUserById rt req) s) = s.
Proof.
  split; [|split; [|split]].
  - unfold run, getProfile. rewrite finish_bind.
    unfold User.findById, query. cbn [fst snd db log].
    destruct (List.find (has_id (lookup "_id" (req_user req))) (Users s))
      as [d|]; cbn [option_map]; [|reflexivity].
    unfold finish, bind, call_trim, prop, ret, throw, next, respond, exit.
    destruct (truthy (lookup "password" (select_minus hidden d)));
      [destruct (lookup "password" (select_minus hidden d))|];
      try reflexivity;
      destruct (member (lookup "expectedWorkDuration" (select_minus hidden d))
                  "startDate"); try reflexivity;
      destruct (member (lookup "expectedWorkDuration" (select_minus hidden d))
                  "endDate"); reflexivity.
  - unfold run, findUsersByEmails.
    destruct (negb (truthy (lookup "emails" (req_body req)))
              || negb (isArray (lookup "emails" (req_body req)))
              || (List.length (elements (lookup "emails" (req_body req)))
                  =? 0)%nat); [reflexivity|].
    cbv zeta.
    destruct (0 <? List.length _)%nat; [reflexivity|].
    destruct (includes _ _); reflexivity.
  - unfold run, getAllUsers. destruct (notAdmin req); reflexivity.
  - unfold run, getUserById.
    destruct (negb (isValidObjectId rt (req_params_id req)));
      [reflexivity|].
    rewrite finish_bind. unfold User.findById, query. cbn [fst snd db log].
    destruct (List.find (has_id (str (req_params_id req))) (Users s));
      reflexivity.
Qed.

(** The [hasPassword] flag of a getProfile response is always [false]:
    the handler reads [user.password] after the projection that leaves
    the password out. *)
Theorem getProfile_hasPassword_false (req : request) (s : store) (b : jsval) :
  res (run (getProfile req) s) = Json 200 b ->
  get (get (get b "data") "user") "hasPassword" = JBool false.
Proof.
  unfold run, getProfile. rewrite finish_bind.
  unfold User.findById, query. cbn [fst snd db log].
  destruct (List.find (has_id (lookup "_id" (req_user req))) (Users s))
    as [d|]; cbn [option_map]; [|discriminate].
  rewrite (lookup_selected_out hidden "password" d eq_refl).
  cbn [truthy].
  unfold finish, bind, prop, ret, throw, next, respond, exit.
  destruct (member (lookup "expectedWorkDuration" (select_minus hidden d))
              "startDate"); [|discriminate].
  destruct (member (lookup "expectedWorkDuration" (select_minus hidden d))
              "endDate"); [|discriminate].
  cbn [res]. intros H. injection H as <-. reflexivity.
Qed.

Lemma getProfile_hasPassword_false_witness :
  truthy (lookup "password" Sample.ada) = true
  /\ get (get (get (body_of (res (run (getProfile
                                         (Sample.mkReq Sample.ada [] ""))
                                    Sample.s0))) "data") "user") "hasPassword"
     = JBool false.
Proof.
  split; [reflexivity|].
  apply (getProfile_hasPassword_false (Sample.mkReq Sample.ada [] "")
           Sample.s0).
  reflexivity.
Defined.

(** How getProfile ends: 404 when no document has the caller's id; an
    exception handed to [next] when the document has no
    [expectedWorkDuration] to read the dates from; otherwise 200 with the
    document's id, e-mail and role, its two dates, and the defaults for an
    absent name. *)
Theorem getProfile_outcomes (req : request) (s : store) :
  match List.find (has_id (lookup "_id" (req_user req))) (Users s) with
  | None => res (run (getProfile req) s) = Next (AppError "User not found." 404)
  | Some d =>
      (lookup "expectedWorkDuration" d = JUndefined
       \/ lookup "expectedWorkDuration" d = JNull ->
       res (run (getProfile req) s) = Next TypeError)
      /\ (lookup "expectedWorkDuration" d <> JUndefined ->
          lookup "expectedWorkDuration" d <> JNull ->
          exists b,
            res (run (getProfile req) s) = Json 200 b
            /\ get (get (get b "data") "user") "id" = lookup "_id" d
            /\ get (get (get b "data") "user") "email" = lookup "email" d
            /\ get (get (get b "data") "user") "role" = lookup "role" d
            /\ get (get (get b "data") "user") "fullname"
               = or (lookup "fullname" d) (str "")
            /\ get (get (get b "data") "user") "expectedWorkDuration"
               = JObj [("startDate",
                        get (lookup "expectedWorkDuration" d) "startDate");
                       ("endDate",
                        get (lookup "expectedWorkDuration" d) "endDate")])
  end.
Proof.
  unfold run, getProfile. rewrite finish_bind.
  unfold User.findById, query. cbn [fst snd db log].
  destruct (List.find (has_id (lookup "_id" (req_user req))) (Users s))
    as [d|]; cbn [option_map]; [|reflexivity].
  rewrite (lookup_selected_out hidden "password" d eq_refl).
  cbn [truthy].
  rewrite !(lookup_select_minus hidden "expectedWorkDuration") by reflexivity.
  unfold finish, bind, prop, ret, throw, next, respond, exit.
  split.
  - intros [-> | ->]; reflexivity.
  - intros H1 H2.
    assert (forall k, member (lookup "expectedWorkDuration" d) k
                      = Some (get (lookup "expectedWorkDuration" d) k)) as Hm.
    { intros k. destruct (lookup "expectedWorkDuration" d);
        try reflexivity; congruence. }
    rewrite !Hm. cbn [res]. eexists. split; [reflexivity|].
    cbn -[select_minus].
    rewrite !lookup_select_minus by reflexivity. repeat split.
Qed.

(** How getUserById ends for a valid id written as an ObjectId prints (24
    lower-case hexadecimal digits): 404 when no document has it;
    otherwise 200 with that document, soft-deleted or not, an absent or
    falsy [expectedWorkDuration] shown as [{ min: 0, max: 0, unit:
    'hours' }]. *)
Theorem getUserById_outcomes (rt : runtime) (req : request) (s : store) :
  isValidObjectId rt (req_params_id req) = true ->
  canonical_id (req_params_id req) = true ->
  match List.find (has_id (str (req_params_id req))) (Users s) with
  | None => res (run (getUserById rt req) s)
            = Next (AppError "User not found." 404)
  | Some d =>
      exists b,
        res (run (getUserById rt req) s) = Json 200 b
        /\ get (get (get b "data") "user") "id" = str (req_params_id req)
        /\ get (get (get b "data") "user") "email" = lookup "email" d
        /\ get (get (get b "data") "user") "expectedWorkDuration"
           = (if truthy (lookup "expectedWorkDuration" d)
              then lookup "expectedWorkDuration" d
              else defaultDuration)
  end.
Proof.
  intros Hvalid _. unfold run, getUserById. rewrite Hvalid. cbn [negb].
  rewrite finish_bind. unfold User.findById, query. cbn [fst snd db log].
  destruct (List.find (has_id (str (req_params_id req))) (Users s))
    as [d|] eqn:Hfind; cbn [option_map]; [|reflexivity].
  unfold finish, bind, User.populate, query, respond, exit.
  cbn [res fst snd db]. eexists. split; [reflexivity|].
  cbn -[User.populate_doc select_minus defaultDuration].
  rewrite !lookup_populate_doc by discriminate.
  rewrite !lookup_select_minus by reflexivity.
  rewrite (find_has_id_str _ _ _ Hfind). unfold or. repeat split.
Qed.

Lemma getUserById_outcomes_witness :
  res (run (getUserById Sample.rt
              (Sample.mkReq Sample.ada [] "64b0000000000000000000ff"))
         Sample.s0)
  = Next (AppError "User not found." 404).
Proof.
  apply (getUserById_outcomes Sample.rt
           (Sample.mkReq Sample.ada [] "64b0000000000000000000ff") Sample.s0).
  - reflexivity.
  - reflexivity.
Defined.

Lemma getProfile_outcomes_witness :
  res (run (getProfile (Sample.mkReq Sample2.eve [] "")) Sample2.s1)
  = Next TypeError.
Proof.
  pose proof (getProfile_outcomes (Sample.mkReq Sample2.eve [] "")
                Sample2.s1) as H.
  change (List.find
            (has_id (lookup "_id"
                       (req_user (Sample.mkReq Sample2.eve [] ""))))
            (Users Sample2.s1))
    with (Some Sample2.eve) in H.
  exact (proj1 H (or_introl eq_refl)).
Defined.

(** ** Writing endpoints: what they touch *)

(** deactivateMe always answers 204; it writes only [isDeleted] and
    [deletedAt], adds or removes no document, and changes nothing at all
    when no document has the caller's id. *)
Theorem deactivateMe_footprint (req : request) (s : store) :
  status_of (res (run (deactivateMe req) s)) = Some 204%Z
  /\ (forall k, k <> "isDeleted" -> k <> "deletedAt" ->
        map (lookup k) (Users (store_after (run (deactivateMe req) s)))
        = map (lookup k) (Users s))
  /\ List.length (Users (store_after (run (deactivateMe req) s)))
     = List.length (Users s)
  /\ Skills (store_after (run (deactivateMe req) s)) = Skills s
  /\ (List.find (has_id (lookup "_id" (req_user req))) (Users s) = None ->
      store_after (run (deactivateMe req) s) = s).
Proof.
  rewrite deactivateMe_run. cbn [res store_after status_of Users Skills].
  split; [reflexivity|]. split; [|split; [|split]].
  - intros k H1 H2. apply map_update_first. intros d.
    now rewrite !lookup_set_other.
  - apply length_update_first.
  - reflexivity.
  - intros Hnone. rewrite update_first_none by assumption.
    destruct s; reflexivity.
Qed.

Lemma deactivateMe_footprint_witness :
  map (lookup "role")
    (Users (store_after (run (deactivateMe (Sample.mkReq Sample.bob [] ""))
                           Sample.s0)))
  = map (lookup "role") (Users Sample.s0).
Proof.
  apply (deactivateMe_footprint (Sample.mkReq Sample.bob [] "") Sample.s0);
    discriminate.
Defined.

(** findUsersByEmails answers 400 'Email list is required and must be an
    array.' when [emails] is missing, not an array or empty, and 400
    'Email is invalid: ' followed by the offending elements joined with
    ', ' when some element fails the pattern and the numbers among the
    elements are safe integers, which print as their decimal digits; in
    both cases no query is sent. *)
Theorem findUsersByEmails_validation (req : request) (s : store) :
  (truthy (lookup "emails" (req_body req)) = false
   \/ isArray (lookup "emails" (req_body req)) = false
   \/ lookup "emails" (req_body req) = JArr [] ->
   run (findUsersByEmails req) s
   = {| res := Json 400
                 (errorBody "Email list is required and must be an array.");
        store_after := s; trace := [] |})
  /\ (forall es e,
        lookup "emails" (req_body req) = JArr es ->
        (forall x, In x es -> safe_numbers x = true) ->
        In e es ->
        Regex.test emailRegex (toString e) = false ->
        run (findUsersByEmails req) s
        = {| res := Json 400
                      (errorBody
                         ("Email is invalid: "
                          ++ array_join ", "
                               (filter (fun email =>
                                          negb (Regex.test emailRegex
                                                  (toString email))) es)));
             store_after := s; trace := [] |}).
Proof.
  split.
  - intros H. unfold findUsersByEmails, run.
    assert (negb (truthy (lookup "emails" (req_body req)))
            || negb (isArray (lookup "emails" (req_body req)))
            || (List.length (elements (lookup "emails" (req_body req)))
                =? 0)%nat = true) as ->; [|reflexivity].
    destruct H as [H | [H | H]]; rewrite H.
    + reflexivity.
    + cbn [negb]. now rewrite orb_true_r.
    + reflexivity.
  - intros es e Hes _ Hin Hbad. unfold findUsersByEmails, run. rewrite Hes.
    cbn [truthy isArray elements negb orb].
    destruct es as [|e0 es']; [contradiction|].
    cbn [List.length Nat.eqb]. cbv zeta.
    assert ((0 <? List.length
                    (filter (fun email =>
                               negb (Regex.test emailRegex (toString email)))
                       (e0 :: es')))%nat = true) as ->; [|reflexivity].
    apply Nat.ltb_lt.
    assert (In e (filter (fun email =>
                            negb (Regex.test emailRegex (toString email)))
                    (e0 :: es'))) as Hf.
    { apply filter_In. split; auto. now rewrite Hbad. }
    destruct (filter _ (e0 :: es')); [contradiction|]. cbn. lia.
Qed.

Lemma findUsersByEmails_validation_witness :
  run (findUsersByEmails
         (Sample.mkReq Sample.ada
            [("emails", JArr [str "bob@example.org"; str "nobody";
                              JNull; JNum (-42)])] ""))
    Sample.s0
  = {| res := Json 400 (errorBody "Email is invalid: nobody, , -42");
       store_after := Sample.s0; trace := [] |}.
Proof.
  apply (proj2 (findUsersByEmails_validation
                  (Sample.mkReq Sample.ada
                     [("emails", JArr [str "bob@example.org"; str "nobody";
                                       JNull; JNum (-42)])] "")
                  Sample.s0)
           [str "bob@example.org"; str "nobody"; JNull; JNum (-42)]
           (str "nobody")).
  - reflexivity.
  - intros x [<- | [<- | [<- | [<- | []]]]]; reflexivity.
  - right. left. reflexivity.
  - reflexivity.
Defined.

(** A truthy [skills] that is not an array is answered 400 'Skills must
    be an array of skill values.' by updateProfile, before any query, when
    the body holds no truthy [password] or [role]. *)
Theorem updateProfile_skills_not_array
    (rt : runtime) (req : request) (s : store) :
  no_credentials (req_body req) ->
  truthy (lookup "skills" (req_body req)) = true ->
  isArray (lookup "skills" (req_body req)) = false ->
  run (updateProfile rt req) s
  = {| res := Next (AppError "Skills must be an array of skill values." 400);
       store_after := s; trace := [] |}.
Proof.
  intros Hcred Ht Harr. unfold updateProfile, run.
  rewrite (no_credentials_or _ Hcred). cbv zeta. rewrite finish_bind.
  unfold validateSkills. rewrite picked_skills, Ht, Harr. reflexivity.
Qed.

Lemma updateProfile_skills_not_array_witness :
  run (updateProfile Sample.rt
         (Sample.mkReq Sample.ada [("skills", str "rocq")] ""))
    Sample.s0
  = {| res := Next (AppError "Skills must be an array of skill values." 400);
       store_after := Sample.s0; trace := [] |}.
Proof.
  apply (updateProfile_skills_not_array Sample.rt
           (Sample.mkReq Sample.ada [("skills", str "rocq")] "") Sample.s0).
  - split; reflexivity.
  - reflexivity.
  - reflexivity.
Defined.

Lemma update_first_ext (p p' : obj -> bool) (f : obj -> obj) (l : list obj) :
  (forall d, p d = p' d) -> update_first p f l = update_first p' f l.
Proof.
  intros H. induction l as [|x l IH]; simpl; auto.
  rewrite H, IH. reflexivity.
Qed.

Lemma update_first_never (p : obj -> bool) (f : obj -> obj) (l : list obj) :
  (forall d, p d = false) -> update_first p f l = l.
Proof.
  intros H. induction l as [|x l IH]; simpl; auto. now rewrite H, IH.
Qed.

Lemma map_update_first_at {B} (g : obj -> B) (p : obj -> bool)
    (f : obj -> obj) (l : list obj) (d : obj) :
  List.find p l = Some d -> g (f d) = g d ->
  map g (update_first p f l) = map g l.
Proof.
  induction l as [|x l IH]; simpl; auto.
  destruct (p x); intros H Hg.
  - injection H as ->. simpl. now rewrite Hg.
  - simpl. now rewrite IH.
Qed.

(** A filter on the [_id] a found document holds selects what the filter
    that found it selects, or nothing. *)
Lemma matches_self (v q : jsval) :
  matches v q = true ->
  (forall x, matches x v = matches x q) \/ (forall x, matches x v = false).
Proof.
  destruct q; try discriminate.
  - destruct v; try discriminate; intros _; [now right | now left].
  - destruct v; try discriminate. simpl. intros H.
    apply Bool.eqb_prop in H. subst. now left.
  - destruct v; try discriminate. simpl. intros H.
    apply Z.eqb_eq in H. subst. now left.
  - destruct v; try discriminate. simpl. intros H.
    apply String.eqb_eq in H. subst. now left.
Qed.

(** Whatever the request, changePassword leaves the store as it was or
    saves the caller's document with its two fields set. *)
Lemma changePassword_store (rt : runtime) (req : request) (s : store) :
  store_after (run (changePassword rt req) s) = s
  \/ exists user,
       List.find (has_id (lookup "_id" (req_user req))) (Users s) = Some user
       /\ store_after (run (changePassword rt req) s)
          = {| Users :=
                 update_first (has_id (lookup "_id" user))
                   (fun _ => set "passwordChangedAt" (JNum (req_now req))
                               (set "password"
                                  (lookup "newPassword" (req_body req)) user))
                   (Users s);
               Skills := Skills s |}.
Proof.
  unfold changePassword, run.
  destruct (negb (truthy (lookup "currentPassword" (req_body req)))
            || negb (truthy (lookup "newPassword" (req_body req)))
            || negb (truthy (lookup "passwordConfirm" (req_body req))));
    [now left|].
  rewrite finish_bind. unfold User.findById, query. cbn [fst snd db log].
  destruct (List.find (has_id (lookup "_id" (req_user req))) (Users s))
    as [user|] eqn:Hfind; [|now left].
  destruct (negb (correctPassword rt _ _)); [now left|].
  destruct (negb (strict_eq _ _)); [now left|].
  right. exists user. split; [reflexivity|].
  cbv zeta. rewrite finish_bind. unfold User.save, query.
  cbn [fst snd db log]. unfold finish, respond, exit.
  cbn [store_after db].
  now rewrite !lookup_set_other by discriminate.
Qed.

(** changePassword writes no field other than [password] and
    [passwordChangedAt], adds or removes no document and leaves the Skill
    collection alone, whatever the request; with the three fields given
    and no document for the caller it answers 404. *)
Theorem changePassword_footprint (rt : runtime) (req : request) (s : store) :
  (forall k, k <> "password" -> k <> "passwordChangedAt" ->
     map (lookup k) (Users (store_after (run (changePassword rt req) s)))
     = map (lookup k) (Users s))
  /\ List.length (Users (store_after (run (changePassword rt req) s)))
     = List.length (Users s)
  /\ Skills (store_after (run (changePassword rt req) s)) = Skills s
  /\ (truthy (lookup "currentPassword" (req_body req)) = true ->
      truthy (lookup "newPassword" (req_body req)) = true ->
      truthy (lookup "passwordConfirm" (req_body req)) = true ->
      List.find (has_id (lookup "_id" (req_user req))) (Users s) = None ->
      run (changePassword rt req) s
      = {| res := Next (AppError "User not found." 404);
           store_after := s;
           trace := [UserFindById (lookup "_id" (req_user req))] |}).
Proof.
  split; [|split; [|split]].
  - intros k H1 H2.
    destruct (changePassword_store rt req s) as [-> | (user & Hfind & ->)];
      [reflexivity|].
    cbn [Users].
    pose proof (find_some _ _ Hfind) as [_ Hm]. unfold has_id in Hm.
    destruct (matches_self _ _ Hm) as [Hsame | Hnever].
    + rewrite (update_first_ext _ (has_id (lookup "_id" (req_user req))))
        by (intros d; apply Hsame).
      apply (map_update_first_at _ _ _ _ user Hfind).
      now rewrite !lookup_set_other.
    + now rewrite update_first_never by (intros d; apply Hnever).
  - destruct (changePassword_store rt req s) as [-> | (user & Hfind & ->)];
      [reflexivity|].
    apply length_update_first.
  - destruct (changePassword_store rt req s) as [-> | (user & Hfind & ->)];
      reflexivity.
  - intros H1 H2 H3 Hnone. unfold changePassword, run.
    rewrite H1, H2, H3. cbn [negb orb]. rewrite finish_bind.
    unfold User.findById, query. cbn [fst snd db log]. now rewrite Hnone.
Qed.

Lemma changePassword_footprint_witness :
  map (lookup "role")
    (Users (store_after
              (run (changePassword Sample.rt
                      (Sample.mkReq Sample.ada
                         [("currentPassword", str "pw1");
                          ("newPassword", str "n");
                          ("passwordConfirm", str "n");
                          ("role", str "adminSystem")] ""))
                 Sample.s0)))
  = map (lookup "role") (Users Sample.s0).
Proof.
  apply (changePassword_footprint Sample.rt
           (Sample.mkReq Sample.ada
              [("currentPassword", str "pw1"); ("newPassword", str "n");
               ("passwordConfirm", str "n"); ("role", str "adminSystem")] "")
           Sample.s0); discriminate.
Defined.

(** ** Deleting a user *)

Lemma length_remove_first (p : obj -> bool) (l : list obj) (d : obj) :
  List.find p l = Some d ->
  S (List.length (remove_first p l)) = List.length l.
Proof.
  induction l as [|x l IH]; simpl; [discriminate|].
  destruct (p x); intros H; simpl; auto.
Qed.

Lemma In_remove_first (p : obj -> bool) (l : list obj) (d d' : obj) :
  List.find p l = Some d -> In d' l -> d' <> d -> In d' (remove_first p l).
Proof.
  induction l as [|x l IH]; simpl; [discriminate|].
  destruct (p x); intros H [<- | Hin] Hne.
  - injection H as ->. contradiction.
  - exact Hin.
  - now left.
  - right. now apply IH.
Qed.

Lemma find_remove_first (uid : string) (l : list obj) (d : obj) :
  NoDup (map (lookup "_id") l) ->
  List.find (has_id (str uid)) l = Some d ->
  List.find (has_id (str uid)) (remove_first (has_id (str uid)) l) = None.
Proof.
  induction l as [|x l IH]; cbn [List.find remove_first map];
    [discriminate|].
  intros Hnd. apply NoDup_cons_iff in Hnd. destruct Hnd as [Hx Hnd].
  destruct (has_id (str uid) x) eqn:E; intros H.
  - destruct (List.find (has_id (str uid)) l) as [y|] eqn:Hy;
      [|reflexivity].
    exfalso. apply Hx. apply find_some in Hy. destruct Hy as [Hy Hid].
    unfold has_id in E, Hid.
    apply matches_str in E. apply matches_str in Hid.
    rewrite E, <- Hid. now apply in_map.
  - cbn [List.find]. rewrite E. now apply IH.
Qed.

(** For an admin caller and a valid id written as an ObjectId prints (24
    lower-case hexadecimal digits), deleteUserById answers 404 and
    changes nothing when no document has the id.  When the document found
    is not an administrator's, it answers 200 and removes that document
    and no other; with unique ids, no document has the id afterwards and
    getUserById on it answers 404. *)
Theorem deleteUserById_outcomes (rt : runtime) (req : request) (s : store) :
  notAdmin req = false ->
  isValidObjectId rt (req_params_id req) = true ->
  canonical_id (req_params_id req) = true ->
  match List.find (has_id (str (req_params_id req))) (Users s) with
  | None =>
      res (run (deleteUserById rt req) s)
      = Next (AppError "User not found." 404)
      /\ store_after (run (deleteUserById rt req) s) = s
  | Some d =>
      strict_eq (lookup "role" d) (str "adminSystem") = false ->
      res (run (deleteUserById rt req) s)
      = Json 200 (JObj [("status", str "success");
                        ("message", str "User deleted successfully.")])
      /\ S (List.length (Users (store_after (run (deleteUserById rt req) s))))
         = List.length (Users s)
      /\ (forall d', In d' (Users s) -> d' <> d ->
                     In d' (Users (store_after
                                     (run (deleteUserById rt req) s))))
      /\ Skills (store_after (run (deleteUserById rt req) s)) = Skills s
      /\ (NoDup (map (lookup "_id") (Users s)) ->
          List.find (has_id (str (req_params_id req)))
            (Users (store_after (run (deleteUserById rt req) s))) = None
          /\ res (run (getUserById rt req)
                    (store_after (run (deleteUserById rt req) s)))
             = Next (AppError "User not found." 404))
  end.
Proof.
  intros Hadmin Hvalid _.
  destruct (List.find (has_id (str (req_params_id req))) (Users s))
    as [d|] eqn:Hfind.
  - intros Hrole.
    assert (run (deleteUserById rt req) s
            = {| res := Json 200
                          (JObj [("status", str "success");
                                 ("message",
                                  str "User deleted successfully.")]);
                 store_after :=
                   {| Users := remove_first
                                 (has_id (str (req_params_id req))) (Users s);
                      Skills := Skills s |};
                 trace := [UserFindById (str (req_params_id req));
                           UserFindByIdAndDelete
                             (str (req_params_id req))] |}) as ->.
    { unfold deleteUserById, run. rewrite Hadmin, Hvalid. cbn [negb].
      rewrite finish_bind. unfold User.findById, query.
      cbn [fst snd db log]. rewrite Hfind, Hrole. reflexivity. }
    cbn [res store_after Users Skills].
    split; [reflexivity|].
    split; [now apply (length_remove_first _ _ d)|].
    split; [intros d' Hin Hne; now apply (In_remove_first _ _ d)|].
    split; [reflexivity|].
    intros Hnd. pose proof (find_remove_first _ _ _ Hnd Hfind) as Hgone.
    split; [exact Hgone|].
    unfold getUserById, run. rewrite Hvalid. cbn [negb].
    rewrite finish_bind.
    unfold User.findById, query. cbn [fst snd db log Users].
    now rewrite Hgone.
  - unfold deleteUserById, run. rewrite Hadmin, Hvalid. cbn [negb].
    rewrite finish_bind. unfold User.findById, query.
    cbn [fst snd db log]. rewrite Hfind.
    unfold finish, next, exit. cbn [res store_after db].
    split; [reflexivity|]. destruct s; reflexivity.
Qed.

Lemma deleteUserById_outcomes_witness :
  res (run (deleteUserById Sample.rt
              (Sample.mkReq Sample.root [] Sample.bobId))
         Sample.s0)
  = Json 200 (JObj [("status", str "success");
                    ("message", str "User deleted successfully.")])
  /\ S (List.length
          (Users (store_after
                    (run (deleteUserById Sample.rt
                            (Sample.mkReq Sample.root [] Sample.bobId))
                       Sample.s0))))
     = List.length (Users Sample.s0).
Proof.
  pose proof (deleteUserById_outcomes Sample.rt
                (Sample.mkReq Sample.root [] Sample.bobId) Sample.s0
                eq_refl eq_refl eq_refl) as H.
  change (List.find
            (has_id (str (req_params_id
                            (Sample.mkReq Sample.root [] Sample.bobId))))
            (Users Sample.s0))
    with (Some Sample.bob) in H.
  destruct (H eq_refl) as (H1 & H2 & _).
  exact (conj H1 H2).
Defined.

(** ** Composing the endpoints *)

Lemma lookup_present (k : string) (o : obj) :
  lookup k o <> JUndefined -> has_key k o = true.
Proof.
  intros H. destruct (has_key k o) eqn:E; auto.
  now rewrite lookup_absent in H.
Qed.

(** The run of updateUserById that reaches the update and finds the
    document. *)
Lemma updateUserById_found (rt : runtime) (req : request) (s : store)
    (aid : string) (d : obj) :
  notAdmin req = false ->
  isValidObjectId rt (req_params_id req) = true ->
  lookup "_id" (req_user req) = str aid ->
  String.eqb (req_params_id req) aid
  && truthy (lookup "role" (req_body req))
  && negb (strict_eq (lookup "role" (req_body req)) (str "adminSystem"))
  = false ->
  List.find (has_id (str (req_params_id req))) (Users s) = Some d ->
  status_of (res (run (updateUserById rt req) s)) = Some 200%Z
  /\ store_after (run (updateUserById rt req) s)
     = {| Users := update_first (has_id (str (req_params_id req)))
                     (assign (pick allowedFields (req_body req))) (Users s);
          Skills := Skills s |}.
Proof.
  intros Hadmin Hvalid Hown Hguard Hfind.
  unfold updateUserById, run. rewrite Hadmin, Hvalid. cbn [negb].
  rewrite finish_bind, Hown.
  change (str aid) with (JStr aid). unfold call_toString, ret.
  cbn [toString]. rewrite Hguard, finish_bind.
  unfold User.findByIdAndUpdate, query. cbn [fst snd db log].
  rewrite Hfind. cbn [option_map]. split; reflexivity.
Qed.

(** An admin's listing shows every stored user that is not
    soft-deleted. *)
Lemma getAllUsers_lists (rt : runtime) (req : request) (t : store) (d : obj) :
  notAdmin req = false ->
  In d (Users t) -> lookup "isDeleted" d = JBool false ->
  exists b x,
    res (run (getAllUsers rt req) t) = Json 200 b
    /\ In x (elements (get (get b "data") "users"))
    /\ get x "id" = lookup "_id" d.
Proof.
  intros Hadmin Hd Hdel. unfold getAllUsers, run. rewrite Hadmin.
  unfold finish, bind, User.find, User.populate_all, query, respond, exit.
  cbn [res fst snd db].
  eexists. eexists. split; [reflexivity|].
  cbn -[User.populate_doc select_minus satisfies].
  rewrite !map_map. split.
  - apply in_map_iff. exists d. split; [reflexivity|].
    apply filter_In. split; [exact Hd|].
    rewrite satisfies_active. now apply active_iff.
  - cbn -[User.populate_doc select_minus].
    rewrite lookup_populate_doc by discriminate.
    now rewrite lookup_select_minus.
Qed.

(** Soft deletion can be undone by an admin: after a stored user has
    called deactivateMe, an updateUserById on that user's id whose body
    gives [isDeleted: false] (and no role) is answered 200, and the user is
    back in the admin's getAllUsers listing. *)
Theorem reactivation_by_admin
    (rt : runtime) (reqU reqA : request) (s : store)
    (uid aid : string) (u : obj) :
  lookup "_id" (req_user reqU) = str uid ->
  List.find (has_id (str uid)) (Users s) = Some u ->
  notAdmin reqA = false ->
  lookup "_id" (req_user reqA) = str aid ->
  req_params_id reqA = uid ->
  isValidObjectId rt uid = true ->
  lookup "isDeleted" (req_body reqA) = JBool false ->
  truthy (lookup "role" (req_body reqA)) = false ->
  status_of
    (res (run (updateUserById rt reqA)
            (store_after (run (deactivateMe reqU) s)))) = Some 200%Z
  /\ exists b x,
       res (run (getAllUsers rt reqA)
              (store_after
                 (run (updateUserById rt reqA)
                    (store_after (run (deactivateMe reqU) s)))))
       = Json 200 b
       /\ In x (elements (get (get b "data") "users"))
       /\ get x "id" = str uid.
Proof.
  intros Hcaller Hfind Hadmin Hown Hid Hvalid Hbody Hrole.
  pose proof (find_has_id_str _ _ _ Hfind) as Huid.
  rewrite deactivateMe_run, Hcaller. cbn [store_after].
  set (flag := fun d : obj => set "deletedAt" (JNum (req_now reqU))
                                (set "isDeleted" (JBool true) d)).
  set (s1 := {| Users := update_first (has_id (str uid)) flag (Users s);
                Skills := Skills s |}).
  assert (Hfind1 : List.find (has_id (str (req_params_id reqA))) (Users s1)
                   = Some (flag u)).
  { rewrite Hid. apply find_update_first; auto. unfold has_id, flag.
    rewrite !lookup_set_other by discriminate. rewrite Huid.
    now apply matches_str. }
  assert (Hguard : String.eqb (req_params_id reqA) aid
                   && truthy (lookup "role" (req_body reqA))
                   && negb (strict_eq (lookup "role" (req_body reqA))
                              (str "adminSystem")) = false).
  { rewrite Hrole. now rewrite andb_false_r. }
  destruct (updateUserById_found rt reqA s1 aid (flag u) Hadmin
              (eq_trans (f_equal (isValidObjectId rt) Hid) Hvalid)
              Hown Hguard Hfind1) as [Hst Hstore].
  split; [exact Hst|]. rewrite Hstore.
  set (d2 := assign (pick allowedFields (req_body reqA)) (flag u)).
  assert (Hid2 : lookup "_id" d2 = str uid).
  { unfold d2.
    rewrite (proj1 (assign_other _ (flag u) "_id"
                      (eq_trans (proj2 (pick_spec allowedFields
                                          (req_body reqA) "_id"))
                                eq_refl))).
    unfold flag. rewrite !lookup_set_other by discriminate. exact Huid. }
  assert (Hdel2 : lookup "isDeleted" d2 = JBool false).
  { unfold d2. rewrite <- Hbody. apply assign_same.
    - rewrite (proj2 (pick_spec allowedFields (req_body reqA) "isDeleted")).
      rewrite lookup_present by (rewrite Hbody; discriminate). reflexivity.
    - intros v. apply pick_bindings. }
  assert (Hin2 : In d2 (update_first (has_id (str (req_params_id reqA)))
                          (assign (pick allowedFields (req_body reqA)))
                          (Users s1))).
  { assert (List.find (has_id (str (req_params_id reqA)))
              (update_first (has_id (str (req_params_id reqA)))
                 (assign (pick allowedFields (req_body reqA))) (Users s1))
            = Some d2) as Hf.
    { apply find_update_first; auto. fold d2. unfold has_id.
      rewrite Hid2, Hid. now apply matches_str. }
    now apply find_some in Hf. }
  destruct (getAllUsers_lists rt reqA
              {| Users := update_first (has_id (str (req_params_id reqA)))
                            (assign (pick allowedFields (req_body reqA)))
                            (Users s1);
                 Skills := Skills s1 |} d2 Hadmin Hin2 Hdel2)
    as (b & x & Hb & Hx & Hxid).
  exists b, x. split; [exact Hb|]. split; [exact Hx|]. now rewrite Hxid.
Qed.

Lemma reactivation_by_admin_witness :
  status_of
    (res (run (updateUserById Sample.rt
                 (Sample.mkReq Sample.root [("isDeleted", JBool false)]
                    Sample.bobId))
            (store_after (run (deactivateMe (Sample.mkReq Sample.bob [] ""))
                            Sample.s0)))) = Some 200%Z.
Proof.
  apply (reactivation_by_admin Sample.rt
           (Sample.mkReq Sample.bob [] "")
           (Sample.mkReq Sample.root [("isDeleted", JBool false)]
              Sample.bobId)
           Sample.s0 Sample.bobId Sample.rootId Sample.bob);
    reflexivity.
Defined.

(** ** Hidden fields and the other endpoints *)

Lemma select_only_del (ks : list string) (k : string) (d : obj) :
  includes_str ks k = false -> select_only ks (del k d) = select_only ks d.
Proof.
  intros Hk. unfold select_only.
  induction d as [|[k0 v0] rest IH]; simpl; auto.
  destruct (String.eqb k k0) eqn:E; simpl.
  - apply String.eqb_eq in E. subst k0. now rewrite Hk.
  - now rewrite IH.
Qed.

Lemma select_only_public (d : obj) :
  select_only ["_id"; "email"; "username"; "fullname"] (select_minus hidden d)
  = select_only ["_id"; "email"; "username"; "fullname"] d.
Proof.
  unfold select_minus, hidden. cbn [fold_right].
  now rewrite !select_only_del by reflexivity.
Qed.

Lemma map_select_only_public (l l' : list obj) :
  map (select_minus hidden) l = map (select_minus hidden) l' ->
  map (select_only ["_id"; "email"; "username"; "fullname"]) l
  = map (select_only ["_id"; "email"; "username"; "fullname"]) l'.
Proof.
  revert l'. induction l as [|x l IH]; intros [|x' l'] H;
    try discriminate; auto.
  assert (Hx : select_minus hidden x = select_minus hidden x')
    by now inversion H.
  assert (Hl : map (select_minus hidden) l = map (select_minus hidden) l')
    by now inversion H.
  cbn [map]. rewrite (IH l' Hl).
  rewrite <- (select_only_public x), <- (select_only_public x'), Hx.
  reflexivity.
Qed.

Lemma satisfies_by_emails_public (es : list jsval) (d : obj) :
  satisfies [("email", AnyOf es); ("isDeleted", Is (JBool false))]
    (select_minus hidden d)
  = satisfies [("email", AnyOf es); ("isDeleted", Is (JBool false))] d.
Proof.
  unfold satisfies, holds. cbn [forallb fst snd].
  now rewrite !lookup_select_minus by reflexivity.
Qed.

(** The outcomes of findUsersByEmails, updateUserById and deleteUserById
    do not depend on what the stored [password], [passwordResetToken] and
    [passwordResetExpires] fields hold. *)
Theorem outcomes_ignore_hidden_fields
    (rt : runtime) (req : request) (s s' : store) :
  same_public s s' ->
  res (run (findUsersByEmails req) s) = res (run (findUsersByEmails req) s')
  /\ res (run (updateUserById rt req) s) = res (run (updateUserById rt req) s')
  /\ res (run (deleteUserById rt req) s)
     = res (run (deleteUserById rt req) s').
Proof.
  intros [Husers Hskills]. split; [|split].
  - unfold findUsersByEmails, run.
    destruct (negb (truthy (lookup "emails" (req_body req)))
              || negb (isArray (lookup "emails" (req_body req)))
              || (List.length (elements (lookup "emails" (req_body req)))
                  =? 0)%nat); [reflexivity|].
    cbv zeta.
    destruct (0 <? List.length _)%nat; [reflexivity|].
    destruct (includes _ _); [reflexivity|].
    unfold finish, bind, User.find, query, respond, exit.
    cbn [res fst snd db].
    assert (map (select_only ["_id"; "email"; "username"; "fullname"])
              (filter (satisfies
                         [("email",
                           AnyOf (elements (lookup "emails" (req_body req))));
                          ("isDeleted", Is (JBool false))]) (Users s))
            = map (select_only ["_id"; "email"; "username"; "fullname"])
                (filter (satisfies
                           [("email",
                             AnyOf (elements
                                      (lookup "emails" (req_body req))));
                            ("isDeleted", Is (JBool false))]) (Users s')))
      as E.
    { apply map_select_only_public.
      exact (filter_public _ (Users s) (Users s')
               (satisfies_by_emails_public _) Husers). }
    now rewrite E.
  - unfold updateUserById, run.
    destruct (notAdmin req); [reflexivity|].
    destruct (negb (isValidObjectId rt (req_params_id req)));
      [reflexivity|].
    cbv zeta. rewrite !finish_bind. unfold call_toString.
    destruct (lookup "_id" (req_user req)); try reflexivity;
      unfold ret;
      match goal with
      | |- context [if ?c then _ else _] => destruct c; [reflexivity|]
      end;
      rewrite !finish_bind;
      unfold User.findByIdAndUpdate, query; cbn [fst snd db log];
      pose proof (find_public (str (req_params_id req)) _ _ Husers) as Hf;
      destruct (List.find (has_id (str (req_params_id req))) (Users s))
        as [d|];
      destruct (List.find (has_id (str (req_params_id req))) (Users s'))
        as [d'|]; try contradiction; cbn [option_map]; try reflexivity;
      rewrite (select_minus_assign hidden _ d d' Hf);
      unfold finish, bind, User.populate, query, respond, exit;
      cbn [res fst snd db]; now rewrite Hskills.
  - unfold deleteUserById, run.
    destruct (notAdmin req); [reflexivity|].
    destruct (negb (isValidObjectId rt (req_params_id req)));
      [reflexivity|].
    cbv zeta. rewrite !finish_bind.
    unfold User.findById, query. cbn [fst snd db log].
    pose proof (find_public (str (req_params_id req)) _ _ Husers) as Hf.
    destruct (List.find (has_id (str (req_params_id req))) (Users s))
      as [d|];
      destruct (List.find (has_id (str (req_params_id req))) (Users s'))
      as [d'|]; try contradiction; [|reflexivity].
    rewrite <- (lookup_select_minus hidden "role" d eq_refl).
    rewrite <- (lookup_select_minus hidden "role" d' eq_refl).
    rewrite Hf.
    destruct (strict_eq (lookup "role" (select_minus hidden d'))
                (str "adminSystem")); reflexivity.
Qed.

Lemma outcomes_ignore_hidden_fields_witness :
  res (run (findUsersByEmails
              (Sample.mkReq Sample.root
                 [("emails", JArr [str "ada@example.org"])] ""))
         Sample.s0)
  = res (run (findUsersByEmails
                (Sample.mkReq Sample.root
                   [("emails", JArr [str "ada@example.org"])] ""))
           Sample.s0_rehashed).
Proof.
  apply (outcomes_ignore_hidden_fields Sample.rt
           (Sample.mkReq Sample.root
              [("emails", JArr [str "ada@example.org"])] "")
           Sample.s0 Sample.s0_rehashed).
  split; reflexivity.
Defined.

(** ** Profile round trip *)

(** What a successful updateProfile went through. *)
Lemma updateProfile_success (rt : runtime) (req : request) (s : store)
    (b : jsval) :
  res (run (updateProfile rt req) s) = Json 200 b ->
  exists d lg,
    List.find (has_id (lookup "_id" (req_user req))) (Users s) = Some d
    /\ store_after (run (updateProfile rt req) s)
       = {| Users := update_first (has_id (lookup "_id" (req_user req)))
                       (assign (pick allowed (req_body req))) (Users s);
            Skills := Skills s |}
    /\ res (finish (performUpdate req (pick allowed (req_body req)))
              {| db := s; log := lg |}) = Json 200 b.
Proof.
  unfold run, updateProfile.
  destruct (truthy (or (lookup "password" (req_body req))
                       (lookup "role" (req_body req))));
    [discriminate|].
  cbv zeta. rewrite finish_bind.
  destruct (validateSkills_run (pick allowed (req_body req))
              {| db := s; log := [] |}) as (st & lg & Hrun & _).
  destruct (validateSkills_exit (pick allowed (req_body req))
              {| db := s; log := [] |}) as [Hst | [e Hst]];
    rewrite Hrun in *; cbn [fst] in Hst; subst st; [|discriminate].
  cbn [db log app]. rewrite finish_bind.
  destruct (validateDuration_run rt (pick allowed (req_body req))
              {| db := s; log := lg |})
    as [[Hd _] | [m Hd]]; rewrite Hd; [|discriminate].
  intros Hb.
  destruct (List.find (has_id (lookup "_id" (req_user req))) (Users s))
    as [d|] eqn:Hfind.
  - exists d, lg. split; [reflexivity|]. split; [|exact Hb].
    apply performUpdate_run.
  - exfalso. revert Hb. unfold performUpdate. rewrite finish_bind.
    unfold User.findByIdAndUpdate, query. cbn [fst snd db log].
    rewrite Hfind. discriminate.
Qed.

(** updateProfile answers in the shape of getProfile: after a successful
    update, getProfile for the same caller answers 200 and its user object
    agrees with the one updateProfile returned on every field but
    [hasPassword] and [googleId], which only getProfile has. *)
Theorem updateProfile_then_getProfile
    (rt : runtime) (req : request) (s : store) (b : jsval) :
  res (run (updateProfile rt req) s) = Json 200 b ->
  exists b',
    res (run (getProfile req) (store_after (run (updateProfile rt req) s)))
    = Json 200 b'
    /\ forall k, k <> "hasPassword" -> k <> "googleId" ->
                 get (get (get b' "data") "user") k
                 = get (get (get b "data") "user") k.
Proof.
  intros Hb.
  destruct (updateProfile_success rt req s b Hb)
    as (d & lg & Hfind & -> & Hres).
  assert (Hfind' : List.find (has_id (lookup "_id" (req_user req)))
                     (update_first (has_id (lookup "_id" (req_user req)))
                        (assign (pick allowed (req_body req))) (Users s))
                   = Some (assign (pick allowed (req_body req)) d)).
  { apply find_update_first; auto. unfold has_id.
    rewrite (proj1 (assign_other _ d "_id"
                      (eq_trans (proj2 (pick_spec allowed (req_body req)
                                          "_id")) eq_refl))).
    now apply find_some in Hfind. }
  revert Hres. unfold performUpdate, getProfile, run. rewrite !finish_bind.
  unfold User.findByIdAndUpdate, User.findById, query.
  cbn [fst snd db log Users]. rewrite Hfind, Hfind'. cbn [option_map].
  rewrite (lookup_selected_out hidden "password" _ eq_refl). cbn [truthy].
  remember (select_minus hidden (assign (pick allowed (req_body req)) d))
    as sd eqn:Hsd.
  clear Hsd Hb Hfind Hfind'.
  unfold finish, bind, prop, ret, throw, next, respond, exit.
  destruct (member (lookup "expectedWorkDuration" sd) "startDate");
    [|discriminate].
  destruct (member (lookup "expectedWorkDuration" sd) "endDate");
    [|discriminate].
  cbn [res]. intros H. injection H as <-.
  eexists. split; [reflexivity|].
  intros k H1 H2.
  apply String.eqb_neq in H1. apply String.eqb_neq in H2.
  cbn. rewrite H1, H2. reflexivity.
Qed.

Lemma updateProfile_then_getProfile_witness :
  exists b',
    res (run (getProfile (Sample.mkReq Sample.ada [("about", str "hi")] ""))
           (store_after
              (run (updateProfile Sample.rt
                      (Sample.mkReq Sample.ada [("about", str "hi")] ""))
                 Sample.s0)))
    = Json 200 b'
    /\ get (get (get b' "data") "user") "about" = str "hi".
Proof.
  destruct (updateProfile_then_getProfile Sample.rt
              (Sample.mkReq Sample.ada [("about", str "hi")] "")
              Sample.s0 _ eq_refl) as (b' & Hb' & Hsame).
  exists b'. split; [exact Hb'|].
  exact (Hsame "about" ltac:(discriminate) ltac:(discriminate)).
Defined.

(** ** The e-mail pattern *)

Lemma append_empty_r (s : string) : s ++ "" = s.
Proof. induction s as [|c s IH]; simpl; congruence. Qed.

Lemma append_is_empty (s1 s2 : string) : s1 ++ s2 = "" -> s1 = "" /\ s2 = "".
Proof. destruct s1; simpl; [auto | discriminate]. Qed.

Lemma append_assoc_str (s1 s2 s3 : string) :
  (s1 ++ s2) ++ s3 = s1 ++ (s2 ++ s3).
Proof. induction s1 as [|c s IH]; simpl; congruence. Qed.

Lemma nullable_denotes (r : Regex.re) :
  Regex.nullable r = true <-> denotes r "".
Proof.
  split.
  - induction r; simpl; intros H; try discriminate.
    + constructor.
    + apply andb_true_iff in H. destruct H as [H1 H2].
      change "" with ("" ++ ""). constructor; auto.
    + apply orb_true_iff in H. destruct H; [apply DAltL | apply DAltR]; auto.
    + constructor.
    + change "" with ("" ++ ""). constructor; [auto | constructor].
  - intros H. remember "" as s eqn:Hs. induction H; simpl; auto;
      try discriminate.
    + apply append_is_empty in Hs. destruct Hs.
      rewrite IHdenotes1, IHdenotes2; auto.
    + rewrite IHdenotes; auto.
    + rewrite IHdenotes; auto. apply orb_true_r.
    + apply append_is_empty in Hs. destruct Hs. auto.
Qed.

Lemma deriv_sound (c : ascii) (r : Regex.re) :
  forall s, denotes (Regex.deriv c r) s -> denotes r (String c s).
Proof.
  induction r; simpl; intros s H.
  - inversion H.
  - inversion H.
  - destruct (p c) eqn:E; inversion H; subst. now constructor.
  - destruct (Regex.nullable r1) eqn:En.
    + inversion H; subst.
      * match goal with
        | Hs : denotes (Regex.Seq _ _) _ |- _ => inversion Hs; subst
        end.
        change (String c (s1 ++ s2)) with (String c s1 ++ s2).
        constructor; auto.
      * change (String c s) with ("" ++ String c s).
        constructor; auto. now apply nullable_denotes.
    + inversion H; subst.
      change (String c (s1 ++ s2)) with (String c s1 ++ s2).
      constructor; auto.
  - inversion H; subst; [apply DAltL | apply DAltR]; auto.
  - inversion H; subst.
    change (String c (s1 ++ s2)) with (String c s1 ++ s2).
    constructor; auto.
  - inversion H; subst.
    change (String c (s1 ++ s2)) with (String c s1 ++ s2).
    constructor; auto.
Qed.

Lemma deriv_complete (r : Regex.re) (s' : string) :
  denotes r s' ->
  forall c s, s' = String c s -> denotes (Regex.deriv c r) s.
Proof.
  induction 1; intros c0 s0 Hs; simpl.
  - discriminate.
  - injection Hs as -> <-. rewrite H. constructor.
  - destruct s1 as [|c1 s1'].
    + simpl in Hs. subst s2.
      apply nullable_denotes in H. rewrite H.
      apply DAltR. now apply IHdenotes2.
    + simpl in Hs. injection Hs as -> <-.
      destruct (Regex.nullable r1).
      * apply DAltL. constructor; auto.
      * constructor; auto.
  - apply DAltL. auto.
  - apply DAltR. auto.
  - discriminate.
  - destruct s1 as [|c1 s1'].
    + simpl in Hs. subst s2. now apply IHdenotes2.
    + simpl in Hs. injection Hs as -> <-. constructor; auto.
  - destruct s1 as [|c1 s1'].
    + simpl in Hs. subst s2.
      exact (IHdenotes2 c0 s0 eq_refl).
    + simpl in Hs. injection Hs as -> <-. constructor; auto.
Qed.

(** The matcher decides the language of the expression. *)
Lemma test_denotes (s : string) :
  forall r, Regex.test r s = true <-> denotes r s.
Proof.
  induction s as [|c s IH]; intros r; simpl.
  - apply nullable_denotes.
  - rewrite IH. split.
    + apply deriv_sound.
    + intros H. now apply (deriv_complete r (String c s) H).
Qed.

Lemma star_class (p : ascii -> bool) (s : string) :
  denotes (Regex.Star (Regex.Class p)) s <-> all_chars p s = true.
Proof.
  split.
  - intros H. remember (Regex.Star (Regex.Class p)) as r eqn:Hr.
    induction H; try discriminate; auto.
    injection Hr as ->. inversion H; subst. simpl.
    rewrite IHdenotes2 by reflexivity.
    match goal with Hp : p _ = true |- _ => now rewrite Hp end.
  - induction s as [|c s IH]; simpl; intros H.
    + constructor.
    + apply andb_true_iff in H. destruct H as [Hc Hs].
      change (String c s) with (String c "" ++ s).
      constructor; [now constructor | auto].
Qed.

Lemma plus_class (p : ascii -> bool) (s : string) :
  denotes (Regex.Plus (Regex.Class p)) s <-> s <> "" /\ all_chars p s = true.
Proof.
  split.
  - intros H. inversion H; subst.
    match goal with Hc : denotes (Regex.Class _) _ |- _ =>
      inversion Hc; subst end.
    simpl. split; [discriminate|].
    match goal with Hp : p _ = true |- _ => rewrite Hp end.
    now apply star_class.
  - intros [Hne H]. destruct s as [|c s]; [congruence|].
    simpl in H. apply andb_true_iff in H. destruct H as [Hc Hs].
    change (String c s) with (String c "" ++ s).
    constructor; [now constructor | now apply star_class].
Qed.

Lemma chr_denotes (a : ascii) (s : string) :
  denotes (Regex.chr a) s <-> s = String a "".
Proof.
  unfold Regex.chr. split.
  - intros H. inversion H; subst.
    match goal with Hp : Ascii.eqb _ _ = true |- _ =>
      apply Ascii.eqb_eq in Hp; now subst end.
  - intros ->. constructor. apply Ascii.eqb_refl.
Qed.

Lemma emailRegex_language (s : string) :
  denotes emailRegex s
  <-> exists a b c,
        s = a ++ "@" ++ b ++ "." ++ c
        /\ address_part a /\ address_part b /\ address_part c.
Proof.
  unfold emailRegex, address_part. split.
  - intros H.
    inversion H as [| |? ? a r1 Ha H1| | | | |]; subst.
    inversion H1 as [| |? ? at_ r2 Hat H2| | | | |]; subst.
    inversion H2 as [| |? ? b r3 Hb H3| | | | |]; subst.
    inversion H3 as [| |? ? dot c Hdot Hc| | | | |]; subst.
    apply chr_denotes in Hat. apply chr_denotes in Hdot. subst.
    apply plus_class in Ha. apply plus_class in Hb. apply plus_class in Hc.
    exists a, b, c. auto.
  - intros (a & b & c & -> & Ha & Hb & Hc).
    constructor; [now apply plus_class|].
    constructor; [now apply chr_denotes|].
    constructor; [now apply plus_class|].
    constructor; [now apply chr_denotes | now apply plus_class].
Qed.

(** An address passes the pattern of findUsersByEmails exactly when it
    reads [local@domain.tld] with three parts that are not empty and hold
    neither white space nor '@' (a part may hold dots). *)
Theorem emailRegex_shape (s : string) :
  Regex.test emailRegex s = true
  <-> exists a b c,
        s = a ++ "@" ++ b ++ "." ++ c
        /\ address_part a /\ address_part b /\ address_part c.
Proof.
  rewrite test_denotes. apply emailRegex_language.
Qed.

Lemma emailRegex_shape_witness :
  Regex.test emailRegex "ada@example.org" = true.
Proof.
  apply (proj2 (emailRegex_shape "ada@example.org")).
  exists "ada", "example", "org".
  repeat split; (discriminate || reflexivity).
Defined.

(** No address that passes the pattern holds white space, and every one
    holds exactly one '@'. *)
Theorem emailRegex_accepts_no_space (s : string) :
  Regex.test emailRegex s = true ->
  all_chars (fun c => negb (is_space c)) s = true
  /\ exists a b, s = a ++ "@" ++ b
                 /\ all_chars (fun c => negb (Ascii.eqb c "@"%char)) a = true
                 /\ all_chars (fun c => negb (Ascii.eqb c "@"%char)) b = true.
Proof.
  intros H. apply test_denotes in H. apply emailRegex_language in H.
  destruct H as (a & b & c & -> & [_ Ha] & [_ Hb] & [_ Hc]).
  assert (Happ : forall p x y, all_chars p (x ++ y)
                               = all_chars p x && all_chars p y).
  { intros p x y. induction x as [|ch x IH]; simpl; auto.
    now rewrite IH, andb_assoc. }
  assert (Hweak : forall x, all_chars notSpaceAt x = true ->
            all_chars (fun c => negb (is_space c)) x = true
            /\ all_chars (fun c => negb (Ascii.eqb c "@"%char)) x = true).
  { induction x as [|ch x IH]; simpl; auto. intros Hx.
    apply andb_true_iff in Hx. destruct Hx as [Hch Hx].
    destruct (IH Hx) as [H1 H2]. rewrite H1, H2.
    unfold notSpaceAt in Hch. rewrite negb_orb in Hch.
    apply andb_true_iff in Hch. destruct Hch as [-> ->]. auto. }
  destruct (Hweak a Ha) as [Ha1 Ha2].
  destruct (Hweak b Hb) as [Hb1 Hb2].
  destruct (Hweak c Hc) as [Hc1 Hc2].
  split.
  - rewrite !Happ, Ha1, Hb1, Hc1. reflexivity.
  - exists a, (b ++ "." ++ c). split; [reflexivity|]. split; [exact Ha2|].
    rewrite !Happ, Hb2, Hc2. reflexivity.
Qed.

Lemma emailRegex_accepts_no_space_witness :
  all_chars (fun c => negb (is_space c)) "ada@example.org" = true.
Proof.
  apply (emailRegex_accepts_no_space "ada@example.org"). reflexivity.
Defined.

(** ** The workspace-creation modal *)

Section Modal.
Import CreateWorkspaceModal.


End Modal.


(** ** Writes stay on their target *)

Lemma In_update_first_other (p : obj -> bool) (f : obj -> obj) (l : list obj)
    (d : obj) :
  In d l -> p d = false -> In d (update_first p f l).
Proof.
  induction l as [|x l IH]; simpl; auto.
  intros [<- | Hin] Hp.
  - rewrite Hp. now left.
  - destruct (p x); right; auto.
Qed.

Lemma In_remove_first_other (p : obj -> bool) (l : list obj) (d : obj) :
  In d l -> p d = false -> In d (remove_first p l).
Proof.
  induction l as [|x l IH]; simpl; auto.
  intros [<- | Hin] Hp.
  - rewrite Hp. now left.
  - destruct (p x); [exact Hin | right; auto].
Qed.

(** Whatever the request, deleteUserById leaves the store as it was or
    removes the first document of the requested id. *)
Lemma deleteUserById_store (rt : runtime) (req : request) (s : store) :
  store_after (run (deleteUserById rt req) s) = s
  \/ store_after (run (deleteUserById rt req) s)
     = {| Users := remove_first (has_id (str (req_params_id req))) (Users s);
          Skills := Skills s |}.
Proof.
  unfold deleteUserById, run.
  destruct (notAdmin req); [now left|].
  destruct (negb (isValidObjectId rt (req_params_id req))); [now left|].
  cbv zeta. rewrite finish_bind.
  unfold User.findById, query. cbn [fst snd db log].
  destruct (List.find (has_id (str (req_params_id req))) (Users s));
    [|now left].
  destruct (strict_eq _ _); [now left|]. right. reflexivity.
Qed.

(** No endpoint writes on a document other than its target: every stored
    document whose id is not the caller's is still there, unchanged,
    after updateProfile, changePassword and deactivateMe, whatever the
    request; and so is, after updateUserById and deleteUserById, every
    one whose id is not the requested id, for a request id written as an
    ObjectId prints (24 lower-case hexadecimal digits), the form in which
    differing from a stored id as a string is differing from it as an
    id. *)
Theorem writes_stay_on_target
    (rt : runtime) (req : request) (s : store) (d : obj) :
  In d (Users s) ->
  (has_id (lookup "_id" (req_user req)) d = false ->
   In d (Users (store_after (run (updateProfile rt req) s)))
   /\ In d (Users (store_after (run (changePassword rt req) s)))
   /\ In d (Users (store_after (run (deactivateMe req) s))))
  /\ (canonical_id (req_params_id req) = true ->
      has_id (str (req_params_id req)) d = false ->
      In d (Users (store_after (run (updateUserById rt req) s)))
      /\ In d (Users (store_after (run (deleteUserById rt req) s)))).
Proof.
  intros Hin. split.
  - intros Hother. split; [|split].
    + destruct (updateProfile_store rt req s) as [-> | [-> _]]; auto.
      now apply In_update_first_other.
    + destruct (changePassword_store rt req s) as [-> | (user & Hfind & ->)];
        auto.
      cbn [Users].
      pose proof (find_some _ _ Hfind) as [_ Hm]. unfold has_id in Hm.
      destruct (matches_self _ _ Hm) as [Hsame | Hnever].
      * apply In_update_first_other; auto. unfold has_id.
        rewrite Hsame. exact Hother.
      * now rewrite update_first_never by (intros x; apply Hnever).
    + rewrite deactivateMe_run. cbn [store_after Users].
      now apply In_update_first_other.
  - intros _ Hother. split.
    + destruct (updateUserById_store rt req s) as [-> | ->]; auto.
      now apply In_update_first_other.
    + destruct (deleteUserById_store rt req s) as [-> | ->]; auto.
      now apply In_remove_first_other.
Qed.

Lemma writes_stay_on_target_witness :
  In Sample.bob
    (Users (store_after
              (run (updateProfile Sample.rt
                      (Sample.mkReq Sample.ada [("about", str "hi")] ""))
                 Sample.s0)))
  /\ In Sample.ada
       (Users (store_after
                 (run (deleteUserById Sample.rt
                         (Sample.mkReq Sample.root [] Sample.bobId))
                    Sample.s0))).
Proof.
  split.
  - apply (writes_stay_on_target Sample.rt
             (Sample.mkReq Sample.ada [("about", str "hi")] "")
             Sample.s0 Sample.bob).
    + right. left. reflexivity.
    + reflexivity.
  - apply (writes_stay_on_target Sample.rt
             (Sample.mkReq Sample.root [] Sample.bobId)
             Sample.s0 Sample.ada).
    + left. reflexivity.
    + reflexivity.
    + reflexivity.
Defined.

(** A successful updateProfile stores, for the caller's document, the
    value the body gives to each allowed field it names and leaves every
    other field as it was; the response shows the stored e-mail and
    about. *)
Theorem updateProfile_writes
    (rt : runtime) (req : request) (s : store) (b : jsval) :
  res (run (updateProfile rt req) s) = Json 200 b ->
  exists d d',
    List.find (has_id (lookup "_id" (req_user req))) (Users s) = Some d
    /\ List.find (has_id (lookup "_id" (req_user req)))
         (Users (store_after (run (updateProfile rt req) s))) = Some d'
    /\ (forall k, includes_str allowed k = true ->
                  has_key k (req_body req) = true ->
                  lookup k d' = lookup k (req_body req))
    /\ (forall k, includes_str allowed k = false
                  \/ has_key k (req_body req) = false ->
                  lookup k d' = lookup k d)
    /\ get (get (get b "data") "user") "email" = lookup "email" d'
    /\ get (get (get b "data") "user") "about"
       = or (lookup "about" d') (str "").
Proof.
  intros Hb.
  destruct (updateProfile_success rt req s b Hb)
    as (d & lg & Hfind & -> & Hres).
  exists d, (assign (pick allowed (req_body req)) d).
  assert (Hother : forall k, includes_str allowed k = false
                             \/ has_key k (req_body req) = false ->
            lookup k (assign (pick allowed (req_body req)) d) = lookup k d).
  { intros k Hk. apply assign_other.
    rewrite (proj2 (pick_spec allowed (req_body req) k)).
    destruct Hk as [-> | ->]; [reflexivity | apply andb_false_r]. }
  split; [exact Hfind|]. split; [|split; [|split; [exact Hother|]]].
  - cbn [Users]. apply find_update_first; auto. unfold has_id.
    rewrite (Hother "_id" (or_introl eq_refl)).
    now apply find_some in Hfind.
  - intros k Hk Hbk. apply assign_same.
    + now rewrite (proj2 (pick_spec allowed (req_body req) k)), Hk, Hbk.
    + intros v. apply pick_bindings.
  - revert Hres. unfold performUpdate. rewrite finish_bind.
    unfold User.findByIdAndUpdate, query. cbn [fst snd db log].
    rewrite Hfind. cbn [option_map].
    rewrite <- (lookup_select_minus hidden "email"
                  (assign (pick allowed (req_body req)) d) eq_refl).
    rewrite <- (lookup_select_minus hidden "about"
                  (assign (pick allowed (req_body req)) d) eq_refl).
    remember (select_minus hidden (assign (pick allowed (req_body req)) d))
      as sd eqn:Hsd.
    clear Hsd.
    unfold finish, bind, prop, ret, throw, next, respond, exit.
    destruct (member (lookup "expectedWorkDuration" sd) "startDate");
      [|discriminate].
    destruct (member (lookup "expectedWorkDuration" sd) "endDate");
      [|discriminate].
    cbn [res]. intros H. injection H as <-. split; reflexivity.
Qed.

Lemma updateProfile_writes_witness :
  exists d d',
    List.find (has_id (str Sample.adaId)) (Users Sample.s0) = Some d
    /\ List.find (has_id (str Sample.adaId))
         (Users (store_after
                   (run (updateProfile Sample.rt
                           (Sample.mkReq Sample.ada [("about", str "hi")] ""))
                      Sample.s0))) = Some d'
    /\ lookup "about" d' = str "hi".
Proof.
  destruct (updateProfile_writes Sample.rt
              (Sample.mkReq Sample.ada [("about", str "hi")] "")
              Sample.s0 _ eq_refl)
    as (d & d' & H1 & H2 & H3 & _).
  exists d, d'. split; [exact H1|]. split; [exact H2|].
  exact (H3 "about" eq_refl eq_refl).
Defined.

(** ** The new password takes effect *)

(** The run of changePassword once the three fields are given and the
    caller's document is found. *)
Lemma changePassword_checks (rt : runtime) (req : request) (t : store)
    (uid : string) (user : obj) :
  lookup "_id" (req_user req) = str uid ->
  List.find (has_id (str uid)) (Users t) = Some user ->
  truthy (lookup "currentPassword" (req_body req)) = true ->
  truthy (lookup "newPassword" (req_body req)) = true ->
  truthy (lookup "passwordConfirm" (req_body req)) = true ->
  run (changePassword rt req) t
  = if negb (correctPassword rt (lookup "currentPassword" (req_body req))
               (lookup "password" user))
    then {| res := Next (AppError "Your current password is incorrect." 401);
            store_after := t;
            trace := [UserFindById (str uid)] |}
    else if negb (strict_eq (lookup "newPassword" (req_body req))
                    (lookup "passwordConfirm" (req_body req)))
    then {| res := Next (AppError "New passwords do not match." 400);
            store_after := t;
            trace := [UserFindById (str uid)] |}
    else
      {| res := Json 200
                  (JObj [("status", str "success");
                         ("token", jwtSign rt (JObj [("_id", str uid)]))]);
         store_after :=
           {| Users :=
                update_first (has_id (str uid))
                  (fun _ => set "passwordChangedAt" (JNum (req_now req))
                              (set "password"
                                 (lookup "newPassword" (req_body req)) user))
                  (Users t);
              Skills := Skills t |};
         trace :=
           [UserFindById (str uid);
            UserSave (set "passwordChangedAt" (JNum (req_now req))
                        (set "password"
                           (lookup "newPassword" (req_body req)) user))] |}.
Proof.
  intros Hid Hfind H1 H2 H3.
  pose proof (find_has_id_str _ _ _ Hfind) as Huid.
  unfold changePassword, run. rewrite H1, H2, H3, Hid. cbn [negb orb].
  rewrite finish_bind. unfold User.findById, query. cbn [fst snd db log].
  rewrite Hfind.
  destruct (negb (correctPassword rt _ _));
    [unfold finish, next, exit; cbn [db log]; destruct t; reflexivity|].
  destruct (negb (strict_eq _ _));
    [unfold finish, next, exit; cbn [db log]; destruct t; reflexivity|].
  cbv zeta. rewrite finish_bind. unfold User.save, query.
  cbn [fst snd db log]. unfold finish, respond, exit.
  cbn [db log app]. rewrite !lookup_set_other by discriminate.
  now rewrite Huid.
Qed.

(** After a successful changePassword, the next call by the same user is
    checked against the password just stored: it is answered 401 when
    [correctPassword] rejects the given current password for the new
    stored one, and otherwise goes on to store the next password. *)
Theorem changePassword_takes_effect
    (rt : runtime) (req req2 : request) (s : store)
    (uid : string) (user : obj) :
  lookup "_id" (req_user req) = str uid ->
  lookup "_id" (req_user req2) = str uid ->
  List.find (has_id (str uid)) (Users s) = Some user ->
  truthy (lookup "currentPassword" (req_body req)) = true ->
  truthy (lookup "newPassword" (req_body req)) = true ->
  truthy (lookup "passwordConfirm" (req_body req)) = true ->
  correctPassword rt (lookup "currentPassword" (req_body req))
    (lookup "password" user) = true ->
  strict_eq (lookup "newPassword" (req_body req))
    (lookup "passwordConfirm" (req_body req)) = true ->
  truthy (lookup "currentPassword" (req_body req2)) = true ->
  truthy (lookup "newPassword" (req_body req2)) = true ->
  truthy (lookup "passwordConfirm" (req_body req2)) = true ->
  (correctPassword rt (lookup "currentPassword" (req_body req2))
     (lookup "newPassword" (req_body req)) = false ->
   res (run (changePassword rt req2)
          (store_after (run (changePassword rt req) s)))
   = Next (AppError "Your current password is incorrect." 401))
  /\ (correctPassword rt (lookup "currentPassword" (req_body req2))
        (lookup "newPassword" (req_body req)) = true ->
      strict_eq (lookup "newPassword" (req_body req2))
        (lookup "passwordConfirm" (req_body req2)) = true ->
      status_of (res (run (changePassword rt req2)
                        (store_after (run (changePassword rt req) s))))
      = Some 200%Z).
Proof.
  intros Hid Hid2 Hfind H1 H2 H3 Hok Heq G1 G2 G3.
  pose proof (find_has_id_str _ _ _ Hfind) as Huid.
  rewrite (changePassword_checks rt req s uid user Hid Hfind H1 H2 H3).
  rewrite Hok, Heq. cbn [negb store_after].
  set (user1 := set "passwordChangedAt" (JNum (req_now req))
                  (set "password" (lookup "newPassword" (req_body req))
                     user)).
  assert (Hfind1 : List.find (has_id (str uid))
                     (update_first (has_id (str uid)) (fun _ => user1)
                        (Users s)) = Some user1).
  { apply (find_update_first (has_id (str uid)) (fun _ => user1) _ user Hfind).
    unfold has_id, user1. rewrite !lookup_set_other by discriminate.
    rewrite Huid. now apply matches_str. }
  rewrite (changePassword_checks rt req2
             {| Users := update_first (has_id (str uid)) (fun _ => user1)
                           (Users s);
                Skills := Skills s |} uid user1 Hid2 Hfind1 G1 G2 G3).
  assert (lookup "password" user1 = lookup "newPassword" (req_body req))
    as ->.
  { unfold user1. rewrite lookup_set_other by discriminate.
    apply lookup_set_same. }
  split.
  - intros ->. reflexivity.
  - intros -> ->. reflexivity.
Qed.

Lemma changePassword_takes_effect_witness :
  res (run (changePassword Sample.rt
              (Sample.mkReq Sample.ada
                 [("currentPassword", str "pw1"); ("newPassword", str "x");
                  ("passwordConfirm", str "x")] ""))
         (store_after
            (run (changePassword Sample.rt
                    (Sample.mkReq Sample.ada
                       [("currentPassword", str "pw1");
                        ("newPassword", str "hash:n");
                        ("passwordConfirm", str "hash:n")] ""))
               Sample.s0)))
  = Next (AppError "Your current password is incorrect." 401).
Proof.
  apply (changePassword_takes_effect Sample.rt
           (Sample.mkReq Sample.ada
              [("currentPassword", str "pw1"); ("newPassword", str "hash:n");
               ("passwordConfirm", str "hash:n")] "")
           (Sample.mkReq Sample.ada
              [("currentPassword", str "pw1"); ("newPassword", str "x");
               ("passwordConfirm", str "x")] "")
           Sample.s0 Sample.adaId Sample.ada); reflexivity.
Defined.
